(** * PriceDragon ETL pipeline: a shallow embedding and its properties

    The development follows [src/etl/pipeline.py] (class [ProductETL]),
    [src/etl/schemas.py], [src/etl/load.py] and the tables of
    [src/database/models.py].

    Conventions of the embedding:
    - a Python [str] is a list of code points ([list N]);
    - numbers come twice. The pipeline as a whole is embedded with its
      floats as exact rationals ([Q]), thresholds such as [0.7] being the
      rationals [7/10]: that is the code in real arithmetic, on which the
      properties of the store are proved. The functions that compute with
      floats are embedded again, in the module [IEEE], on binary64 numbers
      with the rounding, the infinities and the NaN of CPython: the
      properties of the numbers themselves are proved there;
    - a SQLAlchemy session is an explicit state ([Db.t]) threaded through
      every operation; the session factory of [src/database/connection.py]
      is built with [autoflush=False], so a query sees flushed rows only;
    - a Python exception is the [Err] case of [result]. *)

From Stdlib Require Import List Bool Arith ZArith NArith QArith Qminmax Qround Qabs Qfield.
From Stdlib Require Import Lia Lqa String Ascii.
From Stdlib Require SpecFloat.
Import ListNotations.

Set Implicit Arguments.

(** ** Python strings as lists of code points *)

Definition str := list N.

Module Utf8.

(** Decoder for the string literals of this file (well-formed UTF-8). *)
Definition cont (c : ascii) : N := N.land (N_of_ascii c) 63.

Fixpoint decode (s : string) : str :=
  match s with
  | EmptyString => []
  | String c rest =>
      let n := N_of_ascii c in
      if (n <? 128)%N then n :: decode rest
      else if (n <? 224)%N then
        match rest with
        | String c1 r1 => (N.land n 31 * 64 + cont c1)%N :: decode r1
        | _ => []
        end
      else if (n <? 240)%N then
        match rest with
        | String c1 (String c2 r2) =>
            (N.land n 15 * 4096 + cont c1 * 64 + cont c2)%N :: decode r2
        | _ => []
        end
      else
        match rest with
        | String c1 (String c2 (String c3 r3)) =>
            (N.land n 7 * 262144 + cont c1 * 4096 + cont c2 * 64 + cont c3)%N
              :: decode r3
        | _ => []
        end
  end.

End Utf8.

Definition u : string -> str := Utf8.decode.

Module Str.

Definition eqb (a b : str) : bool :=
  if list_eq_dec N.eq_dec a b then true else false.

(** [s.startswith(p)] *)
Fixpoint startswith (p s : str) : bool :=
  match p, s with
  | [], _ => true
  | c :: p', d :: s' => (c =? d)%N && startswith p' s'
  | _ :: _, [] => false
  end.

(** [p in s] *)
Fixpoint contains (p s : str) : bool :=
  startswith p s ||
  match s with
  | [] => false
  | _ :: s' => contains p s'
  end.

(** [s.replace(old, new)] for a non-empty [old]: leftmost, non-overlapping. *)
Fixpoint replace_fuel (fuel : nat) (old new s : str) : str :=
  match fuel with
  | O => s
  | S fuel' =>
      match s with
      | [] => []
      | c :: s' =>
          if startswith old s
          then new ++ replace_fuel fuel' old new (skipn (List.length old) s)
          else c :: replace_fuel fuel' old new s'
      end
  end.

Definition replace (old new s : str) : str :=
  replace_fuel (S (List.length s)) old new s.

(** [s[:n]] *)
Definition take (n : nat) (s : str) : str := firstn n s.

(** Python truthiness of a string. *)
Definition truthy (s : str) : bool :=
  match s with [] => false | _ => true end.

End Str.

(** ** The Python runtime the code relies on

    Unicode-aware primitives of the interpreter and of [re] are not part of
    the repository; the embedding is generic in them. *)

Class PyRuntime := {
  lower : str -> str;               (* str.lower *)
  upper : str -> str;               (* str.upper *)
  title : str -> str;               (* str.title *)
  is_space : N -> bool;             (* re: \s, str.isspace *)
  is_word : N -> bool;              (* re: \w *)
  is_digit : N -> bool;             (* re: \d *)
  re_ieq : N -> N -> bool;          (* re.IGNORECASE: literal c matches d *)
  float_of_str : str -> option Q;   (* float(s), None when it raises ValueError *)
}.

(** ** Exceptions *)

Inductive exn :=
| TypeError
| ValueError
| OverflowError
| AttributeError
| StoreError.

Inductive result (A : Type) :=
| Ok (a : A)
| Err (e : exn).
Arguments Ok {A} a.
Arguments Err {A} e.

Definition rbind {A B} (r : result A) (k : A -> result B) : result B :=
  match r with
  | Ok a => k a
  | Err e => Err e
  end.

Notation "x <- c ;; k" := (rbind c (fun x => k))
  (at level 61, c at next level, right associativity).

(** ** Dynamically typed values of a raw record *)

Inductive PyVal :=
| VNone
| VNum (q : Q)
| VStr (s : str).

(** [float(v)] *)
Definition py_float `{PyRuntime} (v : PyVal) : result Q :=
  match v with
  | VNum q => Ok q
  | VStr s => match float_of_str s with
              | Some q => Ok q
              | None => Err ValueError
              end
  | VNone => Err TypeError
  end.

(** [d.get(key, default)] on an optional field *)
Definition get {A} (field : option A) (default : A) : A :=
  match field with
  | Some v => v
  | None => default
  end.

Definition Qltb (a b : Q) : bool := negb (Qle_bool b a).

(** ** Raw records, as the scrapers emit them

    A field is [None] when the key is absent from the dict. The price fields
    keep the dynamic value. *)

Module Raw.
Record t := {
  name : option str;
  platform : option str;
  product_id : option str;
  price : option PyVal;
  original_price : option PyVal;
  availability : option bool;
  url : option str;
  image_url : option str;
  brand : option str;
  description : option str;
  scraped_at : option Z;
}.
End Raw.

(** ** [ProductETL._extract_pricing] *)

Module Pricing.
Record t := {
  current_price : Q;
  original_price : Q;
  discount : Q;
}.
End Pricing.

Definition _extract_pricing `{PyRuntime} (raw_product : Raw.t) : result Pricing.t :=
  current_price <- py_float (get (Raw.price raw_product) (VNum 0)) ;;
  original_price <- py_float (get (Raw.original_price raw_product) (VNum current_price)) ;;
  let discount :=
    if Qltb current_price original_price && Qltb 0 original_price
    then ((original_price - current_price) / original_price) * 100
    else 0 in
  Ok {| Pricing.current_price := current_price;
        Pricing.original_price := original_price;
        Pricing.discount := discount |}.

(** ** Text helpers of [ProductETL] *)

Section TextHelpers.
Context `{PyRuntime}.

(** [re.sub(r'\s+', ' ', s)]: [in_run] tells whether the previous code
    point was whitespace. *)
Fixpoint collapse_ws (in_run : bool) (s : str) : str :=
  match s with
  | [] => []
  | c :: s' =>
      if is_space c
      then (if in_run then collapse_ws true s' else 32%N :: collapse_ws true s')
      else c :: collapse_ws false s'
  end.

Fixpoint lstrip (s : str) : str :=
  match s with
  | [] => []
  | c :: s' => if is_space c then lstrip s' else s
  end.

(** [s.strip()] *)
Definition strip (s : str) : str := rev (lstrip (rev (lstrip s))).

(** The second [re.sub] of [_clean_text] removes every code point outside
    word characters, whitespace, U+4E00..U+9FFF and the six punctuation
    marks - ( ) [ ] /; [clean_keep] is the set that stays. *)
Definition clean_keep (c : N) : bool :=
  is_word c || is_space c || ((19968 <=? c)%N && (c <=? 40959)%N)
  || (c =? 45)%N || (c =? 40)%N || (c =? 41)%N
  || (c =? 91)%N || (c =? 93)%N || (c =? 47)%N.

Definition _clean_text (text : str) : str :=
  if negb (Str.truthy text) then []
  else
    let text := strip (collapse_ws false text) in
    let text := filter clean_keep text in
    Str.take 500 text.

Definition noise_words : list str :=
  [u "的"; u "【"; u "】"; u "("; u ")"; u "["; u "]"; u "限時"; u "特價"; u "優惠"].

Definition _normalize_name (name : str) : str :=
  let normalized := lower name in
  let normalized :=
    fold_left (fun acc word => Str.replace word [32%N] acc) noise_words normalized in
  strip (collapse_ws false normalized).

Definition category_keywords : list (str * list str) :=
  [ (u "Electronics", [u "筆電"; u "電腦"; u "手機"; u "iphone"; u "ipad"; u "平板"; u "耳機"; u "相機"; u "螢幕"]);
    (u "Fashion", [u "運動鞋"; u "鞋"; u "包包"; u "手錶"; u "衣服"; u "褲子"; u "牛仔褲"; u "外套"]);
    (u "Home", [u "咖啡機"; u "吸塵器"; u "床墊"; u "餐具"; u "廚具"; u "家具"; u "燈具"]);
    (u "Gaming", [u "switch"; u "ps5"; u "xbox"; u "遊戲"; u "手把"; u "鍵盤"; u "滑鼠"]);
    (u "Beauty", [u "面膜"; u "防曬"; u "口紅"; u "香水"; u "化妝"; u "保養"; u "護膚"]);
    (u "Sports", [u "瑜珈"; u "啞鈴"; u "跑鞋"; u "籃球"; u "運動"; u "健身"]);
    (u "Books", [u "小說"; u "食譜"; u "書"; u "漫畫"; u "雜誌"]);
    (u "Food", [u "零食"; u "茶葉"; u "蜂蜜"; u "堅果"; u "咖啡"; u "茶"]) ].

(** The name of the first category one of whose keywords occurs in the
    lowered name; the caller looks it up in the category cache. *)
Definition first_category (name : str) : option str :=
  let name_lower := lower name in
  option_map fst
    (find (fun entry => existsb (fun keyword => Str.contains keyword name_lower) (snd entry))
          category_keywords).

Definition brands : list str :=
  [u "APPLE"; u "SAMSUNG"; u "ASUS"; u "ACER"; u "MSI"; u "LENOVO";
   u "HP"; u "DELL"; u "SONY"; u "LG"; u "NIKE"; u "ADIDAS"].

(** Prefix match of a literal under [re.IGNORECASE]. *)
Fixpoint imatch (lit s : str) : option str :=
  match lit, s with
  | [], _ => Some s
  | c :: lit', d :: s' => if re_ieq c d then imatch lit' s' else None
  | _ :: _, [] => None
  end.

(** [\s*] followed by a digit, longest run of whitespace first. *)
Fixpoint spaces_then_digit (s : str) : option str :=
  match s with
  | [] => None
  | c :: s' =>
      match (if is_space c then spaces_then_digit s' else None) with
      | Some r => Some r
      | None => if is_digit c then Some s else None
      end
  end.

Fixpoint span (p : N -> bool) (s : str) : str * str :=
  match s with
  | [] => ([], [])
  | c :: s' =>
      if p c then let '(a, b) := span p s' in (c :: a, b) else ([], s)
  end.

(** Group 1 of the model pattern (the literal iPhone, optional whitespace,
    then the group: digits, optional whitespace, word characters) matched
    at the head of [s]. *)
Definition iphone_match_here (s : str) : option str :=
  match imatch (u "iPhone") s with
  | None => None
  | Some r =>
      match spaces_then_digit r with
      | None => None
      | Some r1 =>
          let '(digits, r2) := span is_digit r1 in
          let '(spaces, r3) := span is_space r2 in
          let '(word, _) := span is_word r3 in
          Some (digits ++ spaces ++ word)
      end
  end.

(** [re.search]: leftmost match. *)
Fixpoint iphone_search (s : str) : option str :=
  match iphone_match_here s with
  | Some g => Some g
  | None => match s with
            | [] => None
            | _ :: s' => iphone_search s'
            end
  end.

Definition _extract_brand_model (name : str) : str * str :=
  let name_upper := upper name in
  let brand :=
    match find (fun b => Str.contains b name_upper) brands with
    | Some b => title b
    | None => []
    end in
  let model :=
    if Str.contains (u "iPhone") name
    then match iphone_search name with
         | Some g => strip g
         | None => []
         end
    else [] in
  (brand, model).

(** [round(x, 2)], ties to even. *)
Definition round2 (x : Q) : Q :=
  let scaled := x * 100 in
  let fl := Qfloor scaled in
  let frac := scaled - inject_Z fl in
  let r :=
    if Qltb frac (1 # 2) then fl
    else if Qltb (1 # 2) frac then (fl + 1)%Z
    else if Z.even fl then fl else (fl + 1)%Z in
  inject_Z r / 100.

Definition truthy_opt (field : option str) : bool :=
  match field with
  | Some s => Str.truthy s
  | None => false
  end.

(** [v > 0] for a raw value *)
Definition py_gt0 (v : PyVal) : result bool :=
  match v with
  | VNum q => Ok (Qltb 0 q)
  | VStr _ => Err TypeError
  | VNone => Err TypeError
  end.

Definition _calculate_quality_score (raw_product : Raw.t) : result Q :=
  let total_checks := 6 in
  let score := 0 in
  let score :=
    if match Raw.name raw_product with
       | Some n => Str.truthy n && (5 <? List.length n)
       | None => false
       end
    then score + 1 / total_checks else score in
  positive <- py_gt0 (get (Raw.price raw_product) (VNum 0)) ;;
  let score := if positive then score + 1 / total_checks else score in
  let score := if truthy_opt (Raw.url raw_product) then score + 1 / total_checks else score in
  let score := if truthy_opt (Raw.image_url raw_product) then score + 1 / total_checks else score in
  let score := if truthy_opt (Raw.brand raw_product) then score + 1 / total_checks else score in
  let score := if truthy_opt (Raw.description raw_product) then score + 1 / total_checks else score in
  Ok (round2 score).

End TextHelpers.

(** ** [difflib.SequenceMatcher(None, a, b).ratio()]

    The standard-library matcher the pipeline calls, with [isjunk = None]
    and the default [autojunk = True]. *)

Module Difflib.

Definition nth_cp (s : str) (i : nat) : option N := nth_error s i.

Definition same_at (a b : str) (i j : nat) : bool :=
  match nth_cp a i, nth_cp b j with
  | Some x, Some y => (x =? y)%N
  | _, _ => false
  end.

(** Indices of [x] in [b], increasing, starting the count at [base]. *)
Fixpoint indices_of (x : N) (b : str) (base : nat) : list nat :=
  match b with
  | [] => []
  | c :: b' =>
      if (c =? x)%N then base :: indices_of x b' (S base)
      else indices_of x b' (S base)
  end.

(** [b2j.get(x, [])] after [__chain_b]: an element occurring more than
    [n // 100 + 1] times in a [b] of 200 elements or more is purged. *)
Definition b2j_get (b : str) (x : N) : list nat :=
  let idxs := indices_of x b 0 in
  let n := List.length b in
  if (200 <=? n) && (n / 100 + 1 <? List.length idxs) then [] else idxs.

Definition j2len_get (j2len : list (nat * nat)) (j : nat) : nat :=
  match find (fun e => fst e =? j) j2len with
  | Some e => snd e
  | None => 0
  end.

Record best := { besti : nat; bestj : nat; bestsize : nat }.

(** Inner loop of [find_longest_match] over the occurrences of [a[i]]. *)
Fixpoint scan_js (i blo bhi : nat) (j2len : list (nat * nat)) (js : list nat)
         (newj2len : list (nat * nat)) (bst : best) : list (nat * nat) * best :=
  match js with
  | [] => (newj2len, bst)
  | j :: js' =>
      if j <? blo then scan_js i blo bhi j2len js' newj2len bst
      else if bhi <=? j then (newj2len, bst)
      else
        let k := S (match j with O => 0 | S j' => j2len_get j2len j' end) in
        let bst' :=
          if bestsize bst <? k
          then {| besti := S i - k; bestj := S j - k; bestsize := k |}
          else bst in
        scan_js i blo bhi j2len js' ((j, k) :: newj2len) bst'
  end.

(** Outer loop: [for i in range(alo, ahi)], [todo = ahi - i]. *)
Fixpoint scan_is (a b : str) (blo bhi : nat) (i todo : nat)
         (j2len : list (nat * nat)) (bst : best) : best :=
  match todo with
  | O => bst
  | S todo' =>
      let js := match nth_cp a i with
                | Some x => b2j_get b x
                | None => []
                end in
      let '(newj2len, bst') := scan_js i blo bhi j2len js [] bst in
      scan_is a b blo bhi (S i) todo' newj2len bst'
  end.

Fixpoint extend_left (a b : str) (alo blo : nat) (fuel : nat) (bst : best) : best :=
  match fuel with
  | O => bst
  | S fuel' =>
      if (alo <? besti bst) && (blo <? bestj bst)
         && same_at a b (besti bst - 1) (bestj bst - 1)
      then extend_left a b alo blo fuel'
             {| besti := besti bst - 1; bestj := bestj bst - 1;
                bestsize := S (bestsize bst) |}
      else bst
  end.

Fixpoint extend_right (a b : str) (ahi bhi : nat) (fuel : nat) (bst : best) : best :=
  match fuel with
  | O => bst
  | S fuel' =>
      if (besti bst + bestsize bst <? ahi) && (bestj bst + bestsize bst <? bhi)
         && same_at a b (besti bst + bestsize bst) (bestj bst + bestsize bst)
      then extend_right a b ahi bhi fuel'
             {| besti := besti bst; bestj := bestj bst; bestsize := S (bestsize bst) |}
      else bst
  end.

(** With no junk the two trailing junk loops of the source do nothing. *)
Definition find_longest_match (a b : str) (alo ahi blo bhi : nat) : best :=
  let bst := scan_is a b blo bhi alo (ahi - alo) []
               {| besti := alo; bestj := blo; bestsize := 0 |} in
  let bst := extend_left a b alo blo (List.length a) bst in
  extend_right a b ahi bhi (List.length a) bst.

(** The work list of [get_matching_blocks], unfolded as a recursion on the
    two sub-ranges; [depth] bounds the nesting, which is at most the
    length of the range of [a] since every block has a positive size. *)
Fixpoint blocks (a b : str) (depth : nat) (alo ahi blo bhi : nat) : list best :=
  match depth with
  | O => []
  | S depth' =>
      let x := find_longest_match a b alo ahi blo bhi in
      let i := besti x in
      let j := bestj x in
      let k := bestsize x in
      if k =? 0 then []
      else
        x :: (if (alo <? i) && (blo <? j)
              then blocks a b depth' alo i blo j else [])
          ++ (if (i + k <? ahi) && (j + k <? bhi)
              then blocks a b depth' (i + k) ahi (j + k) bhi else [])
  end.

Definition get_matching_blocks (a b : str) : list best :=
  blocks a b (S (List.length a)) 0 (List.length a) 0 (List.length b).

Definition _calculate_ratio (matches length : nat) : Q :=
  if length =? 0 then 1
  else 2 * inject_Z (Z.of_nat matches) / inject_Z (Z.of_nat length).

Definition ratio (a b : str) : Q :=
  let matches := list_sum (map bestsize (get_matching_blocks a b)) in
  _calculate_ratio matches (List.length a + List.length b).

End Difflib.

(** ** Tables of [src/database/models.py]

    A nullable column is an [option]; timestamps are readings of a logical
    clock. The [id] of a [PriceHistory] or [ProductMatch] object is [None]
    until it is flushed. *)

Module Platform.
Record t := {
  id : Z;
  name : str;
  display_name : str;
  base_url : str;
  is_active : option bool;
}.
End Platform.

Module Category.
Record t := {
  id : Z;
  name : str;
  name_zh : option str;
  parent_id : option Z;
}.
End Category.

Module Product.
Record t := {
  id : Z;
  name : str;
  normalized_name : option str;
  description : option str;
  brand : option str;
  model : option str;
  platform_id : Z;
  platform_product_id : str;
  url : option str;
  image_url : option str;
  category_id : option Z;
  current_price : option Q;
  original_price : option Q;
  discount_percentage : option Q;
  currency : option str;
  is_available : option bool;
  stock_status : option str;
  data_quality_score : option Q;
  last_scraped : option Z;
  scrape_count : option Z;
  created_at : option Z;
  updated_at : option Z;
}.
End Product.

Module PriceHistory.
Record t := {
  id : option Z;
  product_id : Z;
  platform_id : Z;
  price : Q;
  original_price : option Q;
  discount_percentage : option Q;
  currency : option str;
  availability : option bool;
  stock_status : option str;
  promotional_tag : option str;
  scraped_at : option Z;
  scrape_session_id : option str;
}.
End PriceHistory.

Module ProductMatch.
Record t := {
  id : option Z;
  product_a_id : Z;
  product_b_id : Z;
  similarity_score : Q;
  match_type : option str;
  match_algorithm : option str;
  is_verified : option bool;
  is_active : option bool;
  created_at : option Z;
}.
End ProductMatch.

Module ScrapeSession.
Record t := {
  id : Z;
  session_id : str;
  query : option str;
  platforms_scraped : list str;
  products_found : option Z;
  success_rate : option Q;
  started_at : option Z;
  completed_at : option Z;
  duration_seconds : option Q;
  status : option str;
  error_message : option str;
  created_at : option Z;
}.
End ScrapeSession.

(** ** The SQLAlchemy session

    [stored] holds the rows a query can see: committed rows and rows flushed
    in the open transaction, with the attribute changes made on the loaded
    objects. [committed] is what [rollback] restores. Objects passed to
    [db.add] and not yet flushed wait in [new_history] and [new_matches];
    since the session is created with [autoflush=False], no query sees
    them. [dirty] lists the products changed since the last flush. A
    [Product] object is referred to by its position in the [products]
    table, which never shrinks. *)

Module Db.

Record tables := {
  platforms : list Platform.t;
  categories : list Category.t;
  products : list Product.t;
  price_history : list PriceHistory.t;
  product_matches : list ProductMatch.t;
  scrape_sessions : list ScrapeSession.t;
}.

Record t := {
  committed : tables;
  stored : tables;
  new_history : list PriceHistory.t;
  new_matches : list ProductMatch.t;
  dirty : list nat;
  clock : Z;
}.

Definition with_stored (db : t) (tb : tables) : t :=
  {| committed := committed db; stored := tb;
     new_history := new_history db; new_matches := new_matches db;
     dirty := dirty db; clock := clock db |}.

Definition with_products (tb : tables) (ps : list Product.t) : tables :=
  {| platforms := platforms tb; categories := categories tb; products := ps;
     price_history := price_history tb; product_matches := product_matches tb;
     scrape_sessions := scrape_sessions tb |}.

Definition with_sessions (tb : tables) (ss : list ScrapeSession.t) : tables :=
  {| platforms := platforms tb; categories := categories tb; products := products tb;
     price_history := price_history tb; product_matches := product_matches tb;
     scrape_sessions := ss |}.

(** [datetime.now(timezone.utc)]: read the clock, which then advances. *)
Definition now (db : t) : Z * t :=
  (clock db,
   {| committed := committed db; stored := stored db;
      new_history := new_history db; new_matches := new_matches db;
      dirty := dirty db; clock := (clock db + 1)%Z |}).

(** Next value of an integer primary key. *)
Definition next_id (ids : list Z) : Z := (fold_right Z.max 0 ids + 1)%Z.

Fixpoint assign_history_ids (next : Z) (rows : list PriceHistory.t) : list PriceHistory.t :=
  match rows with
  | [] => []
  | r :: rows' =>
      {| PriceHistory.id := Some next;
         PriceHistory.product_id := PriceHistory.product_id r;
         PriceHistory.platform_id := PriceHistory.platform_id r;
         PriceHistory.price := PriceHistory.price r;
         PriceHistory.original_price := PriceHistory.original_price r;
         PriceHistory.discount_percentage := PriceHistory.discount_percentage r;
         PriceHistory.currency :=
           match PriceHistory.currency r with
           | Some c => Some c
           | None => Some (u "TWD")
           end;
         PriceHistory.availability := PriceHistory.availability r;
         PriceHistory.stock_status := PriceHistory.stock_status r;
         PriceHistory.promotional_tag := PriceHistory.promotional_tag r;
         PriceHistory.scraped_at := PriceHistory.scraped_at r;
         PriceHistory.scrape_session_id := PriceHistory.scrape_session_id r |}
        :: assign_history_ids (next + 1) rows'
  end.

Fixpoint assign_match_ids (next : Z) (t0 : Z) (rows : list ProductMatch.t) : list ProductMatch.t :=
  match rows with
  | [] => []
  | r :: rows' =>
      {| ProductMatch.id := Some next;
         ProductMatch.product_a_id := ProductMatch.product_a_id r;
         ProductMatch.product_b_id := ProductMatch.product_b_id r;
         ProductMatch.similarity_score := ProductMatch.similarity_score r;
         ProductMatch.match_type := ProductMatch.match_type r;
         ProductMatch.match_algorithm := ProductMatch.match_algorithm r;
         ProductMatch.is_verified :=
           match ProductMatch.is_verified r with
           | Some b => Some b
           | None => Some false
           end;
         ProductMatch.is_active :=
           match ProductMatch.is_active r with
           | Some b => Some b
           | None => Some true
           end;
         ProductMatch.created_at :=
           match ProductMatch.created_at r with
           | Some c => Some c
           | None => Some t0
           end |}
        :: assign_match_ids (next + 1) t0 rows'
  end.

Definition touch (t0 : Z) (p : Product.t) : Product.t :=
  {| Product.id := Product.id p; Product.name := Product.name p;
     Product.normalized_name := Product.normalized_name p;
     Product.description := Product.description p;
     Product.brand := Product.brand p; Product.model := Product.model p;
     Product.platform_id := Product.platform_id p;
     Product.platform_product_id := Product.platform_product_id p;
     Product.url := Product.url p; Product.image_url := Product.image_url p;
     Product.category_id := Product.category_id p;
     Product.current_price := Product.current_price p;
     Product.original_price := Product.original_price p;
     Product.discount_percentage := Product.discount_percentage p;
     Product.currency := Product.currency p;
     Product.is_available := Product.is_available p;
     Product.stock_status := Product.stock_status p;
     Product.data_quality_score := Product.data_quality_score p;
     Product.last_scraped := Product.last_scraped p;
     Product.scrape_count := Product.scrape_count p;
     Product.created_at := Product.created_at p;
     Product.updated_at := Some t0 |}.

(** [onupdate] of [Product.updated_at], applied to the dirty rows. *)
Fixpoint touch_dirty (t0 : Z) (dirty : list nat) (pos : nat) (ps : list Product.t)
  : list Product.t :=
  match ps with
  | [] => []
  | p :: ps' =>
      (if existsb (Nat.eqb pos) dirty then touch t0 p else p)
        :: touch_dirty t0 dirty (S pos) ps'
  end.

(** [db.flush()] *)
Definition flush (db : t) : t :=
  let '(t0, db) := now db in
  let tb := stored db in
  {| committed := committed db;
     stored :=
       {| platforms := platforms tb;
          categories := categories tb;
          products := touch_dirty t0 (dirty db) 0 (products tb);
          price_history :=
            price_history tb
              ++ assign_history_ids
                   (next_id (flat_map (fun r => match PriceHistory.id r with
                                                | Some i => [i]
                                                | None => []
                                                end) (price_history tb)))
                   (new_history db);
          product_matches :=
            product_matches tb
              ++ assign_match_ids
                   (next_id (flat_map (fun r => match ProductMatch.id r with
                                                | Some i => [i]
                                                | None => []
                                                end) (product_matches tb)))
                   t0 (new_matches db);
          scrape_sessions := scrape_sessions tb |};
     new_history := [];
     new_matches := [];
     dirty := [];
     clock := clock db |}.

(** [db.commit()] *)
Definition commit (db : t) : t :=
  let db := flush db in
  {| committed := stored db; stored := stored db;
     new_history := []; new_matches := []; dirty := []; clock := clock db |}.

(** [db.rollback()] *)
Definition rollback (db : t) : t :=
  {| committed := committed db; stored := committed db;
     new_history := []; new_matches := []; dirty := []; clock := clock db |}.

(** [db.add(price_history)] *)
Definition add_history (db : t) (r : PriceHistory.t) : t :=
  {| committed := committed db; stored := stored db;
     new_history := new_history db ++ [r]; new_matches := new_matches db;
     dirty := dirty db; clock := clock db |}.

(** [db.add(match)] *)
Definition add_match (db : t) (r : ProductMatch.t) : t :=
  {| committed := committed db; stored := stored db;
     new_history := new_history db; new_matches := new_matches db ++ [r];
     dirty := dirty db; clock := clock db |}.

Definition mark_dirty (db : t) (pos : nat) : t :=
  {| committed := committed db; stored := stored db;
     new_history := new_history db; new_matches := new_matches db;
     dirty := pos :: dirty db; clock := clock db |}.

End Db.

(** ** [ProductETL] *)

Module ETL.
(** The attributes of a [ProductETL] object. The caches are the row lists
    the dict comprehensions of [_build_caches] are built from. *)
Record t := {
  session_id : str;
  platform_cache : list Platform.t;
  category_cache : list Category.t;
}.
End ETL.

(** [{p.name: p for p in platforms}.get(key)]: the last row of that name. *)
Definition platform_cache_get (cache : list Platform.t) (key : str) : option Platform.t :=
  find (fun p => Str.eqb (Platform.name p) key) (rev cache).

Definition category_cache_get (cache : list Category.t) (key : str) : option Category.t :=
  find (fun c => Str.eqb (Category.name c) key) (rev cache).

(** [query.filter(p).first()]: the first row that passes, with its position. *)
Fixpoint find_first {A} (p : A -> bool) (l : list A) : option (nat * A) :=
  match l with
  | [] => None
  | x :: l' =>
      if p x then Some (0%nat, x)
      else match find_first p l' with
           | Some (n, y) => Some (S n, y)
           | None => None
           end
  end.

Fixpoint update_nth {A} (n : nat) (f : A -> A) (l : list A) : list A :=
  match l, n with
  | [], _ => []
  | x :: l', O => f x :: l'
  | x :: l', S n' => x :: update_nth n' f l'
  end.

(** [x or 0] on a nullable integer *)
Definition or_zero (x : option Z) : Z :=
  match x with
  | Some v => v
  | None => 0%Z
  end.

(** [x or ""] on a nullable string *)
Definition or_empty (x : option str) : str :=
  match x with
  | Some v => v
  | None => []
  end.

Section Pipeline.
Context `{PyRuntime}.

Definition _build_caches (self : ETL.t) (db : Db.t) : ETL.t :=
  {| ETL.session_id := ETL.session_id self;
     ETL.platform_cache := Db.platforms (Db.stored db);
     ETL.category_cache := Db.categories (Db.stored db) |}.

Definition _categorize_product (self : ETL.t) (name : str) : option Category.t :=
  match first_category name with
  | Some category_name => category_cache_get (ETL.category_cache self) category_name
  | None => None
  end.

(** The query of [_process_single_product] for an existing product. *)
Definition same_listing (platform_id : Z) (product_id : str) (p : Product.t) : bool :=
  (Product.platform_id p =? platform_id)%Z
  && Str.eqb (Product.platform_product_id p) product_id.

(** The assignments of the [if existing:] branch. *)
Definition update_existing (name normalized_name : str) (price_data : Pricing.t)
           (raw_product : Raw.t) (last_scraped : Z) (existing : Product.t) : Product.t :=
  {| Product.id := Product.id existing;
     Product.name := name;
     Product.normalized_name := Some normalized_name;
     Product.description := Product.description existing;
     Product.brand := Product.brand existing;
     Product.model := Product.model existing;
     Product.platform_id := Product.platform_id existing;
     Product.platform_product_id := Product.platform_product_id existing;
     Product.url := Some (get (Raw.url raw_product) []);
     Product.image_url := Some (get (Raw.image_url raw_product) []);
     Product.category_id := Product.category_id existing;
     Product.current_price := Some (Pricing.current_price price_data);
     Product.original_price := Some (Pricing.original_price price_data);
     Product.discount_percentage := Some (Pricing.discount price_data);
     Product.currency := Product.currency existing;
     Product.is_available := Some (get (Raw.availability raw_product) true);
     Product.stock_status := Product.stock_status existing;
     Product.data_quality_score := Product.data_quality_score existing;
     Product.last_scraped := Some last_scraped;
     Product.scrape_count := Some (or_zero (Product.scrape_count existing) + 1)%Z;
     Product.created_at := Product.created_at existing;
     Product.updated_at := Product.updated_at existing |}.

(** [db.add(product); db.flush()]: the pending objects are flushed and the
    new row receives its key and the column defaults. Returns the
    position of the new row and the row. *)
Definition insert_product (db : Db.t)
           (name normalized_name description brand model : str)
           (platform_id : Z) (platform_product_id url image_url : str)
           (category_id : option Z) (price_data : Pricing.t)
           (is_available : bool) (data_quality_score : Q) (last_scraped : Z)
  : Db.t * (nat * Product.t) :=
  let t0 := Db.clock db in
  let db := Db.flush db in
  let rows := Db.products (Db.stored db) in
  let product :=
    {| Product.id := Db.next_id (map Product.id rows);
       Product.name := name;
       Product.normalized_name := Some normalized_name;
       Product.description := Some description;
       Product.brand := Some brand;
       Product.model := Some model;
       Product.platform_id := platform_id;
       Product.platform_product_id := platform_product_id;
       Product.url := Some url;
       Product.image_url := Some image_url;
       Product.category_id := category_id;
       Product.current_price := Some (Pricing.current_price price_data);
       Product.original_price := Some (Pricing.original_price price_data);
       Product.discount_percentage := Some (Pricing.discount price_data);
       Product.currency := Some (u "TWD");
       Product.is_available := Some is_available;
       Product.stock_status := None;
       Product.data_quality_score := Some data_quality_score;
       Product.last_scraped := Some last_scraped;
       Product.scrape_count := Some 1%Z;
       Product.created_at := Some t0;
       Product.updated_at := Some t0 |} in
  (Db.with_stored db (Db.with_products (Db.stored db) (rows ++ [product])),
   (List.length rows, product)).

(** [_process_single_product]: the new session state and the outcome,
    [Ok None] for [return None], [Ok (Some pos)] for the product object at
    position [pos] of the products table. *)
Definition _process_single_product (self : ETL.t) (db : Db.t) (raw_product : Raw.t)
  : Db.t * result (option nat) :=
  let name := _clean_text (get (Raw.name raw_product) []) in
  if negb (Str.truthy name) || (List.length name <? 3) then (db, Ok None)
  else
    let normalized_name := _normalize_name name in
    let platform_name := lower (get (Raw.platform raw_product) []) in
    match platform_cache_get (ETL.platform_cache self) platform_name with
    | None => (db, Ok None)
    | Some platform =>
        let category := _categorize_product self name in
        match _extract_pricing raw_product with
        | Err e => (db, Err e)
        | Ok price_data =>
            let '(brand, model) := _extract_brand_model name in
            let product_id := get (Raw.product_id raw_product) [] in
            let existing :=
              find_first (same_listing (Platform.id platform) product_id)
                         (Db.products (Db.stored db)) in
            let upserted :=
              match existing with
              | Some (pos, existing) =>
                  let '(t_scraped, db) := Db.now db in
                  let product :=
                    update_existing name normalized_name price_data raw_product
                                    t_scraped existing in
                  let rows :=
                    update_nth pos (fun _ => product) (Db.products (Db.stored db)) in
                  let db := Db.with_stored db (Db.with_products (Db.stored db) rows) in
                  (Db.mark_dirty db pos, Ok (pos, product))
              | None =>
                  match _calculate_quality_score raw_product with
                  | Err e => (db, Err e)
                  | Ok quality =>
                      let '(t_scraped, db) := Db.now db in
                      let '(db, created) :=
                        insert_product db name normalized_name
                          (get (Raw.description raw_product) []) brand model
                          (Platform.id platform) product_id
                          (get (Raw.url raw_product) [])
                          (get (Raw.image_url raw_product) [])
                          (option_map Category.id category) price_data
                          (get (Raw.availability raw_product) true)
                          quality t_scraped in
                      (db, Ok created)
                  end
              end in
            match upserted with
            | (db, Err e) => (db, Err e)
            | (db, Ok (pos, product)) =>
                let '(t_history, db) := Db.now db in
                let price_history :=
                  {| PriceHistory.id := None;
                     PriceHistory.product_id := Product.id product;
                     PriceHistory.platform_id := Platform.id platform;
                     PriceHistory.price := Pricing.current_price price_data;
                     PriceHistory.original_price := Some (Pricing.original_price price_data);
                     PriceHistory.discount_percentage := Some (Pricing.discount price_data);
                     PriceHistory.currency := None;
                     PriceHistory.availability :=
                       Some (get (Raw.availability raw_product) true);
                     PriceHistory.stock_status := None;
                     PriceHistory.promotional_tag := None;
                     PriceHistory.scraped_at := Some t_history;
                     PriceHistory.scrape_session_id := Some (ETL.session_id self) |} in
                (Db.add_history db price_history, Ok (Some pos))
            end
        end
    end.

(** *** The matcher *)

(** Truthiness of a nullable float: present and not zero. *)
Definition price_truthy (x : option Q) : option Q :=
  match x with
  | Some q => if Qeq_bool q 0 then None else Some q
  | None => None
  end.

Definition _calculate_similarity (product_a product_b : Product.t) : Q :=
  let name_a := or_empty (Product.normalized_name product_a) in
  let name_b := or_empty (Product.normalized_name product_b) in
  let name_sim := Difflib.ratio name_a name_b in
  let brand_sim :=
    match Product.brand product_a, Product.brand product_b with
    | Some brand_a, Some brand_b =>
        if Str.truthy brand_a && Str.truthy brand_b
        then (if Str.eqb (lower brand_a) (lower brand_b) then 3 # 10 else 0)
        else 0
    | _, _ => 0
    end in
  let price_sim :=
    match price_truthy (Product.current_price product_a),
          price_truthy (Product.current_price product_b) with
    | Some price_a, Some price_b =>
        let price_diff := Qabs (price_a - price_b) in
        let max_price := Qmax price_a price_b in
        if Qltb 0 max_price
        then
          let price_ratio := 1 - (price_diff / max_price) in
          if Qltb (7 # 10) price_ratio then 1 # 10 else 0
        else 0
    | _, _ => 0
    end in
  let total_similarity := name_sim + brand_sim + price_sim in
  Qmin total_similarity 1.

(** The filter of the existence query: an edge between the two ids, in
    either order. *)
Definition links (a_id b_id : Z) (m : ProductMatch.t) : bool :=
  ((ProductMatch.product_a_id m =? a_id)%Z && (ProductMatch.product_b_id m =? b_id)%Z)
  || ((ProductMatch.product_a_id m =? b_id)%Z && (ProductMatch.product_b_id m =? a_id)%Z).

Definition new_match (product_a product_b : Product.t) (similarity : Q) : ProductMatch.t :=
  {| ProductMatch.id := None;
     ProductMatch.product_a_id := Product.id product_a;
     ProductMatch.product_b_id := Product.id product_b;
     ProductMatch.similarity_score := similarity;
     ProductMatch.match_type :=
       Some (if Qltb similarity (9 # 10) then u "similar" else u "exact");
     ProductMatch.match_algorithm := Some (u "name_similarity");
     ProductMatch.is_verified := None;
     ProductMatch.is_active := None;
     ProductMatch.created_at := None |}.

(** Body of the inner loop for one pair. *)
Definition match_pair (product_a : Product.t) (acc : Db.t * nat) (product_b : Product.t)
  : Db.t * nat :=
  let '(db, matches_found) := acc in
  if (Product.platform_id product_a =? Product.platform_id product_b)%Z then acc
  else
    let similarity := _calculate_similarity product_a product_b in
    if Qle_bool (7 # 10) similarity
    then
      match find_first (links (Product.id product_a) (Product.id product_b))
                       (Db.product_matches (Db.stored db)) with
      | Some _ => acc
      | None =>
          (Db.add_match db (new_match product_a product_b similarity),
           S matches_found)
      end
    else acc.

(** The two nested loops: [product_a] against [products[i+1:]]. *)
Fixpoint match_loop (products : list Product.t) (acc : Db.t * nat) : Db.t * nat :=
  match products with
  | [] => acc
  | product_a :: rest => match_loop rest (fold_left (match_pair product_a) rest acc)
  end.

(** [_find_product_matches]: the session state and [matches_found]. *)
Definition _find_product_matches (db : Db.t) (products : list Product.t) : Db.t * nat :=
  match_loop products (db, 0%nat).

(** *** The orchestrator *)

(** Where a store failure may strike during a run. *)
Inductive stage :=
| AtCreateSession
| AtBuildCaches
| AtFindMatches
| AtCommit.

Record report := {
  report_session_id : str;
  products_processed : nat;
  report_success_rate : Q;
  report_products : list nat;
}.

(** [_create_scrape_session]: [db.add(session); db.flush()]. Returns the
    position of the session row. *)
Definition _create_scrape_session (self : ETL.t) (db : Db.t) (query : str)
           (results : list Raw.t) : Db.t * nat :=
  let platforms :=
    nodup (list_eq_dec N.eq_dec)
          (map (fun item => get (Raw.platform item) (u "unknown")) results) in
  let '(t_started, db) := Db.now db in
  let t0 := Db.clock db in
  let db := Db.flush db in
  let rows := Db.scrape_sessions (Db.stored db) in
  let session :=
    {| ScrapeSession.id := Db.next_id (map ScrapeSession.id rows);
       ScrapeSession.session_id := ETL.session_id self;
       ScrapeSession.query := Some query;
       ScrapeSession.platforms_scraped := platforms;
       ScrapeSession.products_found := Some 0%Z;
       ScrapeSession.success_rate := None;
       ScrapeSession.started_at := Some t_started;
       ScrapeSession.completed_at := None;
       ScrapeSession.duration_seconds := None;
       ScrapeSession.status := Some (u "running");
       ScrapeSession.error_message := None;
       ScrapeSession.created_at := Some t0 |} in
  (Db.with_stored db (Db.with_sessions (Db.stored db) (rows ++ [session])),
   List.length rows).

(** The [for raw_product in scraper_results] loop, with its
    [except Exception: continue]. *)
Fixpoint process_products (self : ETL.t) (db : Db.t) (scraper_results : list Raw.t)
         (processed_products : list nat) : Db.t * list nat :=
  match scraper_results with
  | [] => (db, processed_products)
  | raw_product :: rest =>
      match _process_single_product self db raw_product with
      | (db, Ok (Some product)) =>
          process_products self db rest (processed_products ++ [product])
      | (db, Ok None) => process_products self db rest processed_products
      | (db, Err _) => process_products self db rest processed_products
      end
  end.

(** The objects behind the references, as the matcher reads them. *)
Definition deref (db : Db.t) (refs : list nat) : list Product.t :=
  flat_map (fun pos => match nth_error (Db.products (Db.stored db)) pos with
                       | Some p => [p]
                       | None => []
                       end) refs.

Definition finish_session (n_processed n_results : nat) (t_completed : Z)
           (session : ScrapeSession.t) : ScrapeSession.t :=
  {| ScrapeSession.id := ScrapeSession.id session;
     ScrapeSession.session_id := ScrapeSession.session_id session;
     ScrapeSession.query := ScrapeSession.query session;
     ScrapeSession.platforms_scraped := ScrapeSession.platforms_scraped session;
     ScrapeSession.products_found := Some (Z.of_nat n_processed);
     ScrapeSession.success_rate :=
       Some (if (n_results =? 0)%nat then 0
             else inject_Z (Z.of_nat n_processed) / inject_Z (Z.of_nat n_results));
     ScrapeSession.started_at := ScrapeSession.started_at session;
     ScrapeSession.completed_at := Some t_completed;
     ScrapeSession.duration_seconds := ScrapeSession.duration_seconds session;
     ScrapeSession.status := Some (u "completed");
     ScrapeSession.error_message := ScrapeSession.error_message session;
     ScrapeSession.created_at := ScrapeSession.created_at session |}.

(** The [try] block of [process_scraper_results]; [fails] tells at which
    store operations outside the per-product handler an exception is
    raised. *)
Definition try_block (self : ETL.t) (fails : stage -> bool) (db : Db.t)
           (scraper_results : list Raw.t) (query : str) : Db.t * result report :=
  if fails AtCreateSession then (db, Err StoreError)
  else
    let '(db, session) := _create_scrape_session self db query scraper_results in
    if fails AtBuildCaches then (db, Err StoreError)
    else
      let self := _build_caches self db in
      let '(db, processed_products) := process_products self db scraper_results [] in
      if fails AtFindMatches then (db, Err StoreError)
      else
        let '(db, _) := _find_product_matches db (deref db processed_products) in
        let '(t_completed, db) := Db.now db in
        let n_processed := List.length processed_products in
        let n_results := List.length scraper_results in
        let db :=
          Db.with_stored db
            (Db.with_sessions (Db.stored db)
               (update_nth session (finish_session n_processed n_results t_completed)
                           (Db.scrape_sessions (Db.stored db)))) in
        if fails AtCommit then (db, Err StoreError)
        else
          (Db.commit db,
           Ok {| report_session_id := ETL.session_id self;
                 products_processed := n_processed;
                 report_success_rate :=
                   (if (n_results =? 0)%nat then 0
                    else inject_Z (Z.of_nat n_processed) / inject_Z (Z.of_nat n_results));
                 report_products := processed_products |}).

(** [db.close()] releases the session; what is not committed is lost. *)
Definition close (db : Db.t) : Db.t := Db.rollback db.

(** [process_scraper_results]: [except: db.rollback(); raise] and
    [finally: db.close()]. [Err] is the exception the caller receives. *)
Definition process_scraper_results (self : ETL.t) (fails : stage -> bool) (db : Db.t)
           (scraper_results : list Raw.t) (query : str) : Db.t * result report :=
  match try_block self fails db scraper_results query with
  | (db, Ok result) => (close db, Ok result)
  | (db, Err e) => (close (Db.rollback db), Err e)
  end.

End Pipeline.

(** ** [src/etl/schemas.py] and [DataLoader._validate_products] *)

(** Why a record or a batch is refused by the schemas. *)
Inductive rejection :=
| MissingField
| InvalidPlatform
| MissingIdentifier
| InvalidName
| PriceOutOfRange
| InvalidUrl
| FieldTooLong
| InvalidType
| EmptyBatch
| DuplicateInBatch (platform product_id : str).

(** The dict of a validated [ProductSchema]. *)
Module Schema.
Record t := {
  platform : str;
  product_id : str;
  name : str;
  price : Q;
  original_price : option Q;
  url : str;
  image_url : option str;
  brand : option str;
  description : option str;
  availability : bool;
  scraped_at : option Z;
}.
End Schema.

Section Schemas.
Context `{PyRuntime}.

Definition allowed_platforms : list str :=
  [u "pchome"; u "momo"; u "shopee"; u "yahoo"; u "ruten"].

Definition validate_platform (v : option str) : str + list rejection :=
  match v with
  | None => inr [MissingField]
  | Some v =>
      if existsb (Str.eqb (lower v)) allowed_platforms
      then inl (lower v) else inr [InvalidPlatform]
  end.

Definition validate_product_id (v : option str) : str + list rejection :=
  match v with
  | None => inr [MissingField]
  | Some v => if (1 <=? List.length v)%nat then inl v else inr [MissingIdentifier]
  end.

(** The code points of the character class of [clean_product_name]. *)
Definition spam_characters : list N :=
  [1074; 1203; 8230; 1206; 1263; 1175; 1187; 1025; 1088; 1209; 8217; 1210; 8221; 1176]%N.

Definition clean_product_name (v : str) : str :=
  let v := strip (collapse_ws false v) in
  let v := filter (fun c => negb (existsb (N.eqb c) spam_characters)) v in
  strip v.

Definition validate_name (v : option str) : str + list rejection :=
  match v with
  | None => inr [MissingField]
  | Some v =>
      if (1 <=? List.length v)%nat && (List.length v <=? 500)%nat
      then inl (clean_product_name v) else inr [InvalidName]
  end.

(** Field constraint [ge=0] and [validate_price_range]. *)
Definition price_in_range (v : Q) : bool :=
  Qle_bool 0 v && Qle_bool v 10000000.

Definition validate_price (v : option PyVal) : Q + list rejection :=
  match v with
  | None => inr [MissingField]
  | Some v =>
      match py_float v with
      | Ok q => if price_in_range q then inl q else inr [PriceOutOfRange]
      | Err _ => inr [InvalidType]
      end
  end.

Definition validate_original_price (v : option PyVal) : option Q + list rejection :=
  match v with
  | None => inl None
  | Some VNone => inl None
  | Some v =>
      match py_float v with
      | Ok q => if price_in_range q then inl (Some q) else inr [PriceOutOfRange]
      | Err _ => inr [InvalidType]
      end
  end.

(** What may follow the first two code points of the host in the pattern
    of [validate_url]: no whitespace up to the end, or up to a final
    newline. *)
Definition url_tail_ok (r : str) : bool :=
  forallb (fun c => negb (is_space c)) r
  || match rev r with
     | last :: front => (last =? 10)%N && forallb (fun c => negb (is_space c)) front
     | [] => false
     end.

Definition url_host_ok (r : str) : bool :=
  match r with
  | c1 :: c2 :: tail =>
      negb (is_space c1) && negb (existsb (N.eqb c1) (u "/$.?#"))
      && negb (c2 =? 10)%N && url_tail_ok tail
  | _ => false
  end.

Definition url_pattern_match (v : str) : bool :=
  if Str.startswith (u "https://") v then url_host_ok (skipn 8 v)
  else if Str.startswith (u "http://") v then url_host_ok (skipn 7 v)
  else false.

Definition validate_url (v : option str) : str + list rejection :=
  match v with
  | None => inr [MissingField]
  | Some v =>
      if negb (Str.startswith (u "http://") v || Str.startswith (u "https://") v)
      then inr [InvalidUrl]
      else if negb (url_pattern_match v) then inr [InvalidUrl]
      else inl v
  end.

Definition validate_max_length (n : nat) (v : option str) : option str + list rejection :=
  match v with
  | None => inl None
  | Some s => if (List.length s <=? n)%nat then inl (Some s) else inr [FieldTooLong]
  end.

(** [re.sub(r'<[^>]+>', '', v)] *)
Fixpoint strip_tags (fuel : nat) (v : str) : str :=
  match fuel with
  | O => v
  | S fuel' =>
      match v with
      | [] => []
      | c :: rest =>
          if (c =? 60)%N then
            let '(inside, after) := span (fun d => negb (d =? 62)%N) rest in
            match inside, after with
            | _ :: _, _ :: after' => strip_tags fuel' after'
            | _, _ => c :: strip_tags fuel' rest
            end
          else c :: strip_tags fuel' rest
      end
  end.

Definition clean_description (v : option str) : option str :=
  match v with
  | Some s =>
      if Str.truthy s
      then Some (strip (collapse_ws false (strip_tags (S (List.length s)) s)))
      else Some s
  | None => None
  end.

Definition errors_of {A} (r : A + list rejection) : list rejection :=
  match r with
  | inl _ => []
  | inr e => e
  end.

(** Construction of a [ProductSchema] from the keys of [product_data]:
    the validated record, or every violation found. *)
Definition ProductSchema (product_data : Raw.t) : Schema.t + list rejection :=
  let platform := validate_platform (Raw.platform product_data) in
  let product_id := validate_product_id (Raw.product_id product_data) in
  let name := validate_name (Raw.name product_data) in
  let price := validate_price (Raw.price product_data) in
  let original_price := validate_original_price (Raw.original_price product_data) in
  let url := validate_url (Raw.url product_data) in
  let brand := validate_max_length 100 (Raw.brand product_data) in
  let description := validate_max_length 2000 (Raw.description product_data) in
  match platform, product_id, name, price, original_price, url, brand, description with
  | inl platform, inl product_id, inl name, inl price, inl original_price,
    inl url, inl brand, inl description =>
      inl {| Schema.platform := platform;
             Schema.product_id := product_id;
             Schema.name := name;
             Schema.price := price;
             Schema.original_price := original_price;
             Schema.url := url;
             Schema.image_url := Raw.image_url product_data;
             Schema.brand := brand;
             Schema.description := clean_description description;
             Schema.availability := get (Raw.availability product_data) true;
             Schema.scraped_at := Raw.scraped_at product_data |}
  | _, _, _, _, _, _, _, _ =>
      inr (errors_of platform ++ errors_of product_id ++ errors_of name
           ++ errors_of price ++ errors_of original_price ++ errors_of url
           ++ errors_of brand ++ errors_of description)
  end.

(** [DataLoader._validate_products]: the loop over [enumerate(products)];
    an error entry carries [i+1] and the violations. *)
Fixpoint validate_from (i : nat) (products : list Raw.t)
  : list Schema.t * list (nat * list rejection) :=
  match products with
  | [] => ([], [])
  | product_data :: rest =>
      let '(validated_products, errors) := validate_from (S i) rest in
      match ProductSchema product_data with
      | inl validated_product => (validated_product :: validated_products, errors)
      | inr e => (validated_products, (S i, e) :: errors)
      end
  end.

Definition _validate_products (products : list Raw.t)
  : list Schema.t * list (nat * list rejection) :=
  validate_from 0 products.

Definition key_eqb (k1 k2 : str * str) : bool :=
  Str.eqb (fst k1) (fst k2) && Str.eqb (snd k1) (snd k2).

(** The loop of [validate_product_list] over the [seen] set. *)
Fixpoint check_duplicates (seen : list (str * str)) (v : list Schema.t) : option rejection :=
  match v with
  | [] => None
  | product :: rest =>
      let key := (Schema.platform product, Schema.product_id product) in
      if existsb (key_eqb key) seen
      then Some (DuplicateInBatch (Schema.platform product) (Schema.product_id product))
      else check_duplicates (key :: seen) rest
  end.

(** [BulkProductSchema.validate_product_list]: the list itself, or the
    [ValueError] that refuses the whole batch. *)
Definition validate_product_list (v : list Schema.t) : list Schema.t + rejection :=
  match v with
  | [] => inr EmptyBatch
  | _ =>
      match check_duplicates [] v with
      | Some e => inr e
      | None => inl v
      end
  end.

End Schemas.

(** ** A runtime for evaluation

    [ascii_runtime] is used to run the model on concrete records. Its
    character classes are those of CPython 3.11 (Unicode 14.0): [\s] and
    [str.isspace], [\d], [\w]. Its case mappings are those of ASCII, so
    [lower], [upper], [title] and the case-insensitive match agree with
    CPython on the strings whose cased letters are ASCII letters. Its
    [float] reads the numerals CPython reads, but for [inf], [infinity] and
    [nan], which have no rational value: these are read on binary64
    numbers, in the module [IEEE]. *)

Module Ascii_runtime.

Definition in_ranges (ranges : list (N * N)) (c : N) : bool :=
  existsb (fun r => (fst r <=? c)%N && (c <=? snd r)%N) ranges.

Definition space_ranges : list (N * N) :=
  [ (9, 13); (28, 32); (133, 133); (160, 160); (5760, 5760); (8192, 8202); (8232, 8233);
    (8239, 8239); (8287, 8287); (12288, 12288) ]%N.

(** The decimal digits (general category Nd): runs of ten digits, 0 to 9. *)
Definition digit_ranges : list (N * N) :=
  [ (48, 57); (1632, 1641); (1776, 1785); (1984, 1993); (2406, 2415); (2534, 2543); (2662,
    2671); (2790, 2799); (2918, 2927); (3046, 3055); (3174, 3183); (3302, 3311); (3430,
    3439); (3558, 3567); (3664, 3673); (3792, 3801); (3872, 3881); (4160, 4169); (4240,
    4249); (6112, 6121); (6160, 6169); (6470, 6479); (6608, 6617); (6784, 6793); (6800,
    6809); (6992, 7001); (7088, 7097); (7232, 7241); (7248, 7257); (42528, 42537); (43216,
    43225); (43264, 43273); (43472, 43481); (43504, 43513); (43600, 43609); (44016, 44025);
    (65296, 65305); (66720, 66729); (68912, 68921); (69734, 69743); (69872, 69881); (69942,
    69951); (70096, 70105); (70384, 70393); (70736, 70745); (70864, 70873); (71248, 71257);
    (71360, 71369); (71472, 71481); (71904, 71913); (72016, 72025); (72784, 72793); (73040,
    73049); (73120, 73129); (92768, 92777); (92864, 92873); (93008, 93017); (120782,
    120831); (123200, 123209); (123632, 123641); (125264, 125273); (130032, 130041) ]%N.

Definition word_ranges : list (N * N) :=
  [ (48, 57); (65, 90); (95, 95); (97, 122); (170, 170); (178, 179); (181, 181); (185, 186);
    (188, 190); (192, 214); (216, 246); (248, 705); (710, 721); (736, 740); (748, 748);
    (750, 750); (880, 884); (886, 887); (890, 893); (895, 895); (902, 902); (904, 906);
    (908, 908); (910, 929); (931, 1013); (1015, 1153); (1162, 1327); (1329, 1366); (1369,
    1369); (1376, 1416); (1488, 1514); (1519, 1522); (1568, 1610); (1632, 1641); (1646,
    1647); (1649, 1747); (1749, 1749); (1765, 1766); (1774, 1788); (1791, 1791); (1808,
    1808); (1810, 1839); (1869, 1957); (1969, 1969); (1984, 2026); (2036, 2037); (2042,
    2042); (2048, 2069); (2074, 2074); (2084, 2084); (2088, 2088); (2112, 2136); (2144,
    2154); (2160, 2183); (2185, 2190); (2208, 2249); (2308, 2361); (2365, 2365); (2384,
    2384); (2392, 2401); (2406, 2415); (2417, 2432); (2437, 2444); (2447, 2448); (2451,
    2472); (2474, 2480); (2482, 2482); (2486, 2489); (2493, 2493); (2510, 2510); (2524,
    2525); (2527, 2529); (2534, 2545); (2548, 2553); (2556, 2556); (2565, 2570); (2575,
    2576); (2579, 2600); (2602, 2608); (2610, 2611); (2613, 2614); (2616, 2617); (2649,
    2652); (2654, 2654); (2662, 2671); (2674, 2676); (2693, 2701); (2703, 2705); (2707,
    2728); (2730, 2736); (2738, 2739); (2741, 2745); (2749, 2749); (2768, 2768); (2784,
    2785); (2790, 2799); (2809, 2809); (2821, 2828); (2831, 2832); (2835, 2856); (2858,
    2864); (2866, 2867); (2869, 2873); (2877, 2877); (2908, 2909); (2911, 2913); (2918,
    2927); (2929, 2935); (2947, 2947); (2949, 2954); (2958, 2960); (2962, 2965); (2969,
    2970); (2972, 2972); (2974, 2975); (2979, 2980); (2984, 2986); (2990, 3001); (3024,
    3024); (3046, 3058); (3077, 3084); (3086, 3088); (3090, 3112); (3114, 3129); (3133,
    3133); (3160, 3162); (3165, 3165); (3168, 3169); (3174, 3183); (3192, 3198); (3200,
    3200); (3205, 3212); (3214, 3216); (3218, 3240); (3242, 3251); (3253, 3257); (3261,
    3261); (3293, 3294); (3296, 3297); (3302, 3311); (3313, 3314); (3332, 3340); (3342,
    3344); (3346, 3386); (3389, 3389); (3406, 3406); (3412, 3414); (3416, 3425); (3430,
    3448); (3450, 3455); (3461, 3478); (3482, 3505); (3507, 3515); (3517, 3517); (3520,
    3526); (3558, 3567); (3585, 3632); (3634, 3635); (3648, 3654); (3664, 3673); (3713,
    3714); (3716, 3716); (3718, 3722); (3724, 3747); (3749, 3749); (3751, 3760); (3762,
    3763); (3773, 3773); (3776, 3780); (3782, 3782); (3792, 3801); (3804, 3807); (3840,
    3840); (3872, 3891); (3904, 3911); (3913, 3948); (3976, 3980); (4096, 4138); (4159,
    4169); (4176, 4181); (4186, 4189); (4193, 4193); (4197, 4198); (4206, 4208); (4213,
    4225); (4238, 4238); (4240, 4249); (4256, 4293); (4295, 4295); (4301, 4301); (4304,
    4346); (4348, 4680); (4682, 4685); (4688, 4694); (4696, 4696); (4698, 4701); (4704,
    4744); (4746, 4749); (4752, 4784); (4786, 4789); (4792, 4798); (4800, 4800); (4802,
    4805); (4808, 4822); (4824, 4880); (4882, 4885); (4888, 4954); (4969, 4988); (4992,
    5007); (5024, 5109); (5112, 5117); (5121, 5740); (5743, 5759); (5761, 5786); (5792,
    5866); (5870, 5880); (5888, 5905); (5919, 5937); (5952, 5969); (5984, 5996); (5998,
    6000); (6016, 6067); (6103, 6103); (6108, 6108); (6112, 6121); (6128, 6137); (6160,
    6169); (6176, 6264); (6272, 6276); (6279, 6312); (6314, 6314); (6320, 6389); (6400,
    6430); (6470, 6509); (6512, 6516); (6528, 6571); (6576, 6601); (6608, 6618); (6656,
    6678); (6688, 6740); (6784, 6793); (6800, 6809); (6823, 6823); (6917, 6963); (6981,
    6988); (6992, 7001); (7043, 7072); (7086, 7141); (7168, 7203); (7232, 7241); (7245,
    7293); (7296, 7304); (7312, 7354); (7357, 7359); (7401, 7404); (7406, 7411); (7413,
    7414); (7418, 7418); (7424, 7615); (7680, 7957); (7960, 7965); (7968, 8005); (8008,
    8013); (8016, 8023); (8025, 8025); (8027, 8027); (8029, 8029); (8031, 8061); (8064,
    8116); (8118, 8124); (8126, 8126); (8130, 8132); (8134, 8140); (8144, 8147); (8150,
    8155); (8160, 8172); (8178, 8180); (8182, 8188); (8304, 8305); (8308, 8313); (8319,
    8329); (8336, 8348); (8450, 8450); (8455, 8455); (8458, 8467); (8469, 8469); (8473,
    8477); (8484, 8484); (8486, 8486); (8488, 8488); (8490, 8493); (8495, 8505); (8508,
    8511); (8517, 8521); (8526, 8526); (8528, 8585); (9312, 9371); (9450, 9471); (10102,
    10131); (11264, 11492); (11499, 11502); (11506, 11507); (11517, 11517); (11520, 11557);
    (11559, 11559); (11565, 11565); (11568, 11623); (11631, 11631); (11648, 11670); (11680,
    11686); (11688, 11694); (11696, 11702); (11704, 11710); (11712, 11718); (11720, 11726);
    (11728, 11734); (11736, 11742); (11823, 11823); (12293, 12295); (12321, 12329); (12337,
    12341); (12344, 12348); (12353, 12438); (12445, 12447); (12449, 12538); (12540, 12543);
    (12549, 12591); (12593, 12686); (12690, 12693); (12704, 12735); (12784, 12799); (12832,
    12841); (12872, 12879); (12881, 12895); (12928, 12937); (12977, 12991); (13312, 19903);
    (19968, 42124); (42192, 42237); (42240, 42508); (42512, 42539); (42560, 42606); (42623,
    42653); (42656, 42735); (42775, 42783); (42786, 42888); (42891, 42954); (42960, 42961);
    (42963, 42963); (42965, 42969); (42994, 43009); (43011, 43013); (43015, 43018); (43020,
    43042); (43056, 43061); (43072, 43123); (43138, 43187); (43216, 43225); (43250, 43255);
    (43259, 43259); (43261, 43262); (43264, 43301); (43312, 43334); (43360, 43388); (43396,
    43442); (43471, 43481); (43488, 43492); (43494, 43518); (43520, 43560); (43584, 43586);
    (43588, 43595); (43600, 43609); (43616, 43638); (43642, 43642); (43646, 43695); (43697,
    43697); (43701, 43702); (43705, 43709); (43712, 43712); (43714, 43714); (43739, 43741);
    (43744, 43754); (43762, 43764); (43777, 43782); (43785, 43790); (43793, 43798); (43808,
    43814); (43816, 43822); (43824, 43866); (43868, 43881); (43888, 44002); (44016, 44025);
    (44032, 55203); (55216, 55238); (55243, 55291); (63744, 64109); (64112, 64217); (64256,
    64262); (64275, 64279); (64285, 64285); (64287, 64296); (64298, 64310); (64312, 64316);
    (64318, 64318); (64320, 64321); (64323, 64324); (64326, 64433); (64467, 64829); (64848,
    64911); (64914, 64967); (65008, 65019); (65136, 65140); (65142, 65276); (65296, 65305);
    (65313, 65338); (65345, 65370); (65382, 65470); (65474, 65479); (65482, 65487); (65490,
    65495); (65498, 65500); (65536, 65547); (65549, 65574); (65576, 65594); (65596, 65597);
    (65599, 65613); (65616, 65629); (65664, 65786); (65799, 65843); (65856, 65912); (65930,
    65931); (66176, 66204); (66208, 66256); (66273, 66299); (66304, 66339); (66349, 66378);
    (66384, 66421); (66432, 66461); (66464, 66499); (66504, 66511); (66513, 66517); (66560,
    66717); (66720, 66729); (66736, 66771); (66776, 66811); (66816, 66855); (66864, 66915);
    (66928, 66938); (66940, 66954); (66956, 66962); (66964, 66965); (66967, 66977); (66979,
    66993); (66995, 67001); (67003, 67004); (67072, 67382); (67392, 67413); (67424, 67431);
    (67456, 67461); (67463, 67504); (67506, 67514); (67584, 67589); (67592, 67592); (67594,
    67637); (67639, 67640); (67644, 67644); (67647, 67669); (67672, 67702); (67705, 67742);
    (67751, 67759); (67808, 67826); (67828, 67829); (67835, 67867); (67872, 67897); (67968,
    68023); (68028, 68047); (68050, 68096); (68112, 68115); (68117, 68119); (68121, 68149);
    (68160, 68168); (68192, 68222); (68224, 68255); (68288, 68295); (68297, 68324); (68331,
    68335); (68352, 68405); (68416, 68437); (68440, 68466); (68472, 68497); (68521, 68527);
    (68608, 68680); (68736, 68786); (68800, 68850); (68858, 68899); (68912, 68921); (69216,
    69246); (69248, 69289); (69296, 69297); (69376, 69415); (69424, 69445); (69457, 69460);
    (69488, 69505); (69552, 69579); (69600, 69622); (69635, 69687); (69714, 69743); (69745,
    69746); (69749, 69749); (69763, 69807); (69840, 69864); (69872, 69881); (69891, 69926);
    (69942, 69951); (69956, 69956); (69959, 69959); (69968, 70002); (70006, 70006); (70019,
    70066); (70081, 70084); (70096, 70106); (70108, 70108); (70113, 70132); (70144, 70161);
    (70163, 70187); (70272, 70278); (70280, 70280); (70282, 70285); (70287, 70301); (70303,
    70312); (70320, 70366); (70384, 70393); (70405, 70412); (70415, 70416); (70419, 70440);
    (70442, 70448); (70450, 70451); (70453, 70457); (70461, 70461); (70480, 70480); (70493,
    70497); (70656, 70708); (70727, 70730); (70736, 70745); (70751, 70753); (70784, 70831);
    (70852, 70853); (70855, 70855); (70864, 70873); (71040, 71086); (71128, 71131); (71168,
    71215); (71236, 71236); (71248, 71257); (71296, 71338); (71352, 71352); (71360, 71369);
    (71424, 71450); (71472, 71483); (71488, 71494); (71680, 71723); (71840, 71922); (71935,
    71942); (71945, 71945); (71948, 71955); (71957, 71958); (71960, 71983); (71999, 71999);
    (72001, 72001); (72016, 72025); (72096, 72103); (72106, 72144); (72161, 72161); (72163,
    72163); (72192, 72192); (72203, 72242); (72250, 72250); (72272, 72272); (72284, 72329);
    (72349, 72349); (72368, 72440); (72704, 72712); (72714, 72750); (72768, 72768); (72784,
    72812); (72818, 72847); (72960, 72966); (72968, 72969); (72971, 73008); (73030, 73030);
    (73040, 73049); (73056, 73061); (73063, 73064); (73066, 73097); (73112, 73112); (73120,
    73129); (73440, 73458); (73648, 73648); (73664, 73684); (73728, 74649); (74752, 74862);
    (74880, 75075); (77712, 77808); (77824, 78894); (82944, 83526); (92160, 92728); (92736,
    92766); (92768, 92777); (92784, 92862); (92864, 92873); (92880, 92909); (92928, 92975);
    (92992, 92995); (93008, 93017); (93019, 93025); (93027, 93047); (93053, 93071); (93760,
    93846); (93952, 94026); (94032, 94032); (94099, 94111); (94176, 94177); (94179, 94179);
    (94208, 100343); (100352, 101589); (101632, 101640); (110576, 110579); (110581, 110587);
    (110589, 110590); (110592, 110882); (110928, 110930); (110948, 110951); (110960,
    111355); (113664, 113770); (113776, 113788); (113792, 113800); (113808, 113817);
    (119520, 119539); (119648, 119672); (119808, 119892); (119894, 119964); (119966,
    119967); (119970, 119970); (119973, 119974); (119977, 119980); (119982, 119993);
    (119995, 119995); (119997, 120003); (120005, 120069); (120071, 120074); (120077,
    120084); (120086, 120092); (120094, 120121); (120123, 120126); (120128, 120132);
    (120134, 120134); (120138, 120144); (120146, 120485); (120488, 120512); (120514,
    120538); (120540, 120570); (120572, 120596); (120598, 120628); (120630, 120654);
    (120656, 120686); (120688, 120712); (120714, 120744); (120746, 120770); (120772,
    120779); (120782, 120831); (122624, 122654); (123136, 123180); (123191, 123197);
    (123200, 123209); (123214, 123214); (123536, 123565); (123584, 123627); (123632,
    123641); (124896, 124902); (124904, 124907); (124909, 124910); (124912, 124926);
    (124928, 125124); (125127, 125135); (125184, 125251); (125259, 125259); (125264,
    125273); (126065, 126123); (126125, 126127); (126129, 126132); (126209, 126253);
    (126255, 126269); (126464, 126467); (126469, 126495); (126497, 126498); (126500,
    126500); (126503, 126503); (126505, 126514); (126516, 126519); (126521, 126521);
    (126523, 126523); (126530, 126530); (126535, 126535); (126537, 126537); (126539,
    126539); (126541, 126543); (126545, 126546); (126548, 126548); (126551, 126551);
    (126553, 126553); (126555, 126555); (126557, 126557); (126559, 126559); (126561,
    126562); (126564, 126564); (126567, 126570); (126572, 126578); (126580, 126583);
    (126585, 126588); (126590, 126590); (126592, 126601); (126603, 126619); (126625,
    126627); (126629, 126633); (126635, 126651); (127232, 127244); (130032, 130041);
    (131072, 173791); (173824, 177976); (177984, 178205); (178208, 183969); (183984,
    191456); (194560, 195101); (196608, 201546) ]%N.

Definition is_upper (c : N) : bool := (65 <=? c)%N && (c <=? 90)%N.
Definition is_lower (c : N) : bool := (97 <=? c)%N && (c <=? 122)%N.
Definition is_alpha (c : N) : bool := is_upper c || is_lower c.

Definition lower1 (c : N) : N := if is_upper c then (c + 32)%N else c.
Definition upper1 (c : N) : N := if is_lower c then (c - 32)%N else c.

Definition is_space (c : N) : bool := in_ranges space_ranges c.
Definition is_digit (c : N) : bool := in_ranges digit_ranges c.
Definition is_word (c : N) : bool := in_ranges word_ranges c.

(** [str.title]: a cased letter is upper-cased after an uncased code
    point and lower-cased after a cased one. *)
Fixpoint title_from (prev_cased : bool) (s : str) : str :=
  match s with
  | [] => []
  | c :: s' =>
      (if prev_cased then lower1 c else upper1 c) :: title_from (is_alpha c) s'
  end.

(** *** The numerals [float] reads

    Blanks around, a sign, decimal digits with an optional fraction and an
    optional exponent, single underscores allowed between digits. *)

Definition digit_value (c : N) : Z :=
  match find (fun r => (fst r <=? c)%N && (c <=? snd r)%N) digit_ranges with
  | Some r => Z.of_N ((c - fst r) mod 10)
  | None => 0
  end.

Fixpoint drop_blanks (s : str) : str :=
  match s with
  | [] => []
  | c :: s' => if is_space c then drop_blanks s' else s
  end.

Definition strip_blanks (s : str) : str := rev (drop_blanks (rev (drop_blanks s))).

(** An optional sign: whether it is a minus, and the rest. *)
Definition signed (s : str) : bool * str :=
  match s with
  | c :: s' => if (c =? 45)%N then (true, s')
               else if (c =? 43)%N then (false, s') else (false, s)
  | [] => (false, s)
  end.

(** [digit (["_"] digit)*] at the head of [s]: the digits read, most
    significant first, and the rest of the string. *)
Fixpoint digitpart (s : str) : list N * str :=
  match s with
  | c :: s' =>
      if is_digit c then
        match s' with
        | us :: (d :: _) as s'' =>
            if (us =? 95)%N && is_digit d
            then let '(ds, rest) := digitpart s'' in (c :: ds, rest)
            else let '(ds, rest) := digitpart s' in (c :: ds, rest)
        | _ => let '(ds, rest) := digitpart s' in (c :: ds, rest)
        end
      else ([], s)
  | [] => ([], [])
  end.

Definition value_of (ds : list N) : Z :=
  fold_left (fun acc c => acc * 10 + digit_value c)%Z ds 0%Z.

(** [[sign] digitpart] of an exponent, to the end of the string. *)
Definition exponent (s : str) : option Z :=
  let '(neg, s) := signed s in
  match digitpart s with
  | ((_ :: _) as ds, []) => Some (if neg then - value_of ds else value_of ds)%Z
  | _ => None
  end.

(** [number [exponent]] to the end of the string: the digits and the
    power of ten. *)
Definition floatnumber (s : str) : option (Z * Z) :=
  let '(int_part, rest) := digitpart s in
  let '(frac_part, rest) :=
    match rest with
    | c :: rest' => if (c =? 46)%N then digitpart rest' else ([], rest)
    | [] => ([], rest)
    end in
  match int_part, frac_part with
  | [], [] => None
  | _, _ =>
      let digits := value_of (int_part ++ frac_part) in
      let scale := (- Z.of_nat (List.length frac_part))%Z in
      match rest with
      | [] => Some (digits, scale)
      | c :: rest' =>
          if (c =? 101)%N || (c =? 69)%N
          then option_map (fun e => (digits, e + scale)%Z) (exponent rest')
          else None
      end
  end.

Definition float_of_str (s : str) : option Q :=
  let '(neg, s) := signed (strip_blanks s) in
  match floatnumber s with
  | Some (digits, exp10) =>
      let q := inject_Z digits * Qpower (inject_Z 10) exp10 in
      Some (if neg then - q else q)
  | None => None
  end.

End Ascii_runtime.

Definition ascii_runtime : PyRuntime :=
  {| lower := map Ascii_runtime.lower1;
     upper := map Ascii_runtime.upper1;
     title := Ascii_runtime.title_from false;
     is_space := Ascii_runtime.is_space;
     is_word := Ascii_runtime.is_word;
     is_digit := Ascii_runtime.is_digit;
     re_ieq := fun c d => (Ascii_runtime.lower1 c =? Ascii_runtime.lower1 d)%N;
     float_of_str := Ascii_runtime.float_of_str |}.

(** ** The matcher, pair by pair

    The pairs the two loops of [_find_product_matches] visit, in the order
    they visit them, and the edges they add. *)

Fixpoint batch_pairs (products : list Product.t) : list (Product.t * Product.t) :=
  match products with
  | [] => []
  | product_a :: rest => map (pair product_a) rest ++ batch_pairs rest
  end.

(** The session with [es] added to the objects waiting for a flush. *)
Definition with_new_matches (db : Db.t) (es : list ProductMatch.t) : Db.t :=
  {| Db.committed := Db.committed db; Db.stored := Db.stored db;
     Db.new_history := Db.new_history db;
     Db.new_matches := Db.new_matches db ++ es;
     Db.dirty := Db.dirty db; Db.clock := Db.clock db |}.

Section MatcherSpec.
Context `{PyRuntime}.

(** A pair for which the matcher adds an edge: different platforms, a
    composite of at least 0.7, and no stored edge between the two ids. *)
Definition inserts_edge (db : Db.t) (pr : Product.t * Product.t) : bool :=
  let '(product_a, product_b) := pr in
  negb (Product.platform_id product_a =? Product.platform_id product_b)%Z
  && Qle_bool (7 # 10) (_calculate_similarity product_a product_b)
  && negb (existsb (links (Product.id product_a) (Product.id product_b))
                   (Db.product_matches (Db.stored db))).

Definition edge_of (pr : Product.t * Product.t) : ProductMatch.t :=
  new_match (fst pr) (snd pr) (_calculate_similarity (fst pr) (snd pr)).

Definition added_edges (db : Db.t) (products : list Product.t) : list ProductMatch.t :=
  map edge_of (filter (inserts_edge db) (batch_pairs products)).

(** The two bonuses as [_calculate_similarity] computes them. *)
Definition code_brand_bonus (product_a product_b : Product.t) : Q :=
  match Product.brand product_a, Product.brand product_b with
  | Some brand_a, Some brand_b =>
      if Str.truthy brand_a && Str.truthy brand_b
      then (if Str.eqb (lower brand_a) (lower brand_b) then 3 # 10 else 0)
      else 0
  | _, _ => 0
  end.

Definition code_price_bonus (product_a product_b : Product.t) : Q :=
  match price_truthy (Product.current_price product_a),
        price_truthy (Product.current_price product_b) with
  | Some price_a, Some price_b =>
      if Qltb 0 (Qmax price_a price_b)
      then (if Qltb (7 # 10) (1 - Qabs (price_a - price_b) / Qmax price_a price_b)
            then 1 # 10 else 0)
      else 0
  | _, _ => 0
  end.

End MatcherSpec.

(** ** Sample data *)

(** A record as [mkraw platform product_id name price original_price]. *)
Definition mkraw (platform product_id name : str) (price original_price : option PyVal)
  : Raw.t :=
  {| Raw.name := Some name; Raw.platform := Some platform;
     Raw.product_id := Some product_id;
     Raw.price := price; Raw.original_price := original_price;
     Raw.availability := None; Raw.url := None; Raw.image_url := None;
     Raw.brand := None; Raw.description := None; Raw.scraped_at := None |}.

Definition raw_discounted : Raw.t :=
  mkraw (u "pchome") (u "A1") (u "iPhone 15 128GB") (Some (VNum 22299)) (Some (VNum 24900)).

Definition raw_negative_price : Raw.t :=
  mkraw (u "pchome") (u "A2") (u "iPhone 15 128GB") (Some (VNum (-5))) (Some (VNum 10)).

Definition raw_null_price : Raw.t :=
  mkraw (u "pchome") (u "A3") (u "iPhone 15 128GB") (Some VNone) None.

Definition raw_again : Raw.t :=
  {| Raw.name := Some (u "iPhone 15 128GB"); Raw.platform := Some (u "pchome");
     Raw.product_id := Some (u "A1");
     Raw.price := Some (VNum 21999); Raw.original_price := Some (VNum 24900);
     Raw.availability := Some false;
     Raw.url := Some (u "https://24h.pchome.com.tw/prod/A1");
     Raw.image_url := Some (u "https://img.pchome.com.tw/A1.jpg");
     Raw.brand := Some (u "Apple");
     Raw.description := Some (u "Apple iPhone 15");
     Raw.scraped_at := None |}.

Definition raw_other_platform : Raw.t :=
  mkraw (u "momo") (u "B1") (u "iPhone15 128GB") (Some (VNum 22990)) None.

Definition demo_platform (id : Z) (name : str) : Platform.t :=
  {| Platform.id := id; Platform.name := name; Platform.display_name := name;
     Platform.base_url := []; Platform.is_active := Some true |}.

Definition demo_tables : Db.tables :=
  {| Db.platforms := [demo_platform 1 (u "pchome"); demo_platform 2 (u "momo");
                      demo_platform 3 (u "yahoo")];
     Db.categories := [{| Category.id := 1; Category.name := u "Electronics";
                          Category.name_zh := None; Category.parent_id := None |}];
     Db.products := [];
     Db.price_history := [];
     Db.product_matches := [];
     Db.scrape_sessions := [] |}.

(** A freshly initialised store, as [init_database] leaves it. *)
Definition demo_db : Db.t :=
  {| Db.committed := demo_tables; Db.stored := demo_tables;
     Db.new_history := []; Db.new_matches := []; Db.dirty := []; Db.clock := 100 |}.

Definition demo_etl : ETL.t :=
  {| ETL.session_id := u "session-1";
     ETL.platform_cache := Db.platforms demo_tables;
     ETL.category_cache := Db.categories demo_tables |}.

(** A stored entry, as [mkproduct id platform_id normalized_name brand price]. *)
Definition mkproduct (id platform_id : Z) (normalized_name : str) (brand : option str)
           (price : option Q) : Product.t :=
  {| Product.id := id; Product.name := normalized_name;
     Product.normalized_name := Some normalized_name;
     Product.description := Some []; Product.brand := brand; Product.model := Some [];
     Product.platform_id := platform_id; Product.platform_product_id := [];
     Product.url := Some []; Product.image_url := Some [];
     Product.category_id := None;
     Product.current_price := price; Product.original_price := price;
     Product.discount_percentage := Some 0; Product.currency := Some (u "TWD");
     Product.is_available := Some true; Product.stock_status := None;
     Product.data_quality_score := Some (33 # 100); Product.last_scraped := Some 1%Z;
     Product.scrape_count := Some 1%Z; Product.created_at := Some 1%Z;
     Product.updated_at := Some 1%Z |}.

Definition galaxy_pchome : Product.t :=
  mkproduct 1 1 (u "samsung galaxy s24 ultra 256gb") (Some (u "Samsung")) (Some 38900).

Definition galaxy_momo : Product.t :=
  mkproduct 2 2 (u "samsung galaxy s24 ultra 256 gb") (Some (u "Samsung")) (Some 37900).

(** Two entries whose names difflib rates 0.25 in one order and 0.5 in the
    other. *)
Definition tide_pchome : Product.t :=
  mkproduct 1 1 (u "tide") (Some (u "Acme")) None.

Definition diet_momo : Product.t :=
  mkproduct 2 2 (u "diet") (Some (u "Acme")) None.

(** A batch in which one listing occurs twice. *)
Definition duplicate_batch : list Raw.t :=
  [raw_discounted; raw_discounted; raw_other_platform].

Definition no_failure (s : stage) : bool := false.

Definition duplicate_batch_run : Db.t * result report :=
  @process_scraper_results ascii_runtime demo_etl no_failure demo_db duplicate_batch
                           (u "iphone").

(** The store fails at the final commit, and nowhere else. *)
Definition fail_at_commit (s : stage) : bool :=
  match s with
  | AtCommit => true
  | _ => false
  end.

Definition failed_run : Db.t * result report :=
  @process_scraper_results ascii_runtime demo_etl fail_at_commit demo_db duplicate_batch
                           (u "iphone").

(** The key the duplicate check of [validate_product_list] compares. *)
Definition schema_key (product : Schema.t) : str * str :=
  (Schema.platform product, Schema.product_id product).

(** What one iteration of [_validate_products] appends to the accepted
    records. *)
Definition accepted_of `{PyRuntime} (product_data : Raw.t) : list Schema.t :=
  match ProductSchema product_data with
  | inl validated_product => [validated_product]
  | inr _ => []
  end.

(** The listing of [raw_again], scraped again at a lower price. *)
Definition raw_again_cheaper : Raw.t :=
  {| Raw.name := Raw.name raw_again; Raw.platform := Raw.platform raw_again;
     Raw.product_id := Raw.product_id raw_again;
     Raw.price := Some (VNum 20999); Raw.original_price := Raw.original_price raw_again;
     Raw.availability := Raw.availability raw_again;
     Raw.url := Raw.url raw_again; Raw.image_url := Raw.image_url raw_again;
     Raw.brand := Raw.brand raw_again; Raw.description := Raw.description raw_again;
     Raw.scraped_at := Raw.scraped_at raw_again |}.

Definition repeated_listing_batch : list Raw.t := [raw_again; raw_again_cheaper].

(** The first observation of a listing, then a second one of the same
    listing, on a fresh store. *)
Definition first_observation : Db.t * result (option nat) :=
  @_process_single_product ascii_runtime demo_etl demo_db raw_discounted.

Definition second_observation : Db.t * result (option nat) :=
  @_process_single_product ascii_runtime demo_etl (fst first_observation) raw_again.

(** The listing of [raw_again] once more, its price scraped as text:
    [float] reads it, the quality check cannot compare it with 0. *)
Definition raw_again_quoted : Raw.t :=
  {| Raw.name := Raw.name raw_again; Raw.platform := Raw.platform raw_again;
     Raw.product_id := Raw.product_id raw_again;
     Raw.price := Some (VStr (u "12.5")); Raw.original_price := Raw.original_price raw_again;
     Raw.availability := Raw.availability raw_again;
     Raw.url := Raw.url raw_again; Raw.image_url := Raw.image_url raw_again;
     Raw.brand := Raw.brand raw_again; Raw.description := Raw.description raw_again;
     Raw.scraped_at := Raw.scraped_at raw_again |}.

(** A record the update branch of [_process_single_product] accepts: a
    cleaned name of three code points or more, a platform of the cache and
    prices [float] accepts. The quality check is not run on that branch. *)
Definition updatable `{PyRuntime} (self : ETL.t) (raw_product : Raw.t) : Prop :=
  (3 <= List.length (_clean_text (get (Raw.name raw_product) [])))%nat
  /\ platform_cache_get (ETL.platform_cache self)
                        (lower (get (Raw.platform raw_product) [])) <> None
  /\ (exists pd, _extract_pricing raw_product = Ok pd).

(** A record [_process_single_product] accepts on both branches: a cleaned
    name of three code points or more, a platform of the cache, prices
    [float] accepts and a price the quality check can compare with 0. *)
Definition processable `{PyRuntime} (self : ETL.t) (raw_product : Raw.t) : Prop :=
  (3 <= List.length (_clean_text (get (Raw.name raw_product) [])))%nat
  /\ platform_cache_get (ETL.platform_cache self)
                        (lower (get (Raw.platform raw_product) [])) <> None
  /\ (exists pd, _extract_pricing raw_product = Ok pd)
  /\ (exists quality, _calculate_quality_score raw_product = Ok quality).

Definition history_count (db : Db.t) : nat :=
  (List.length (Db.price_history (Db.stored db)) + List.length (Db.new_history db))%nat.

(** The pair the existence query of the upsert filters on. *)
Definition listing_key (p : Product.t) : Z * str :=
  (Product.platform_id p, Product.platform_product_id p).

(** References that point into the products table. *)
Definition valid_refs (db : Db.t) (refs : list nat) : Prop :=
  Forall (fun pos => (pos < List.length (Db.products (Db.stored db)))%nat) refs.

(** The session ids of the price observations, stored and waiting for a
    flush, in the order they were added. *)
Definition history_sessions (db : Db.t) : list (option str) :=
  map PriceHistory.scrape_session_id (Db.price_history (Db.stored db) ++ Db.new_history db).

(** The success rate [process_scraper_results] computes. *)
Definition rate_of (n_processed n_results : nat) : Q :=
  if (n_results =? 0)%nat then 0
  else inject_Z (Z.of_nat n_processed) / inject_Z (Z.of_nat n_results).

(** ** [src/database/connection.py]: [init_database] *)

(** Name, display name and base url of the default platforms. *)
Definition default_platforms : list (str * str * str) :=
  [ (u "pchome", u "PChome線上購物", u "https://24h.pchome.com.tw");
    (u "momo", u "momo購物網", u "https://www.momoshop.com.tw");
    (u "yahoo", u "Yahoo購物中心", u "https://tw.buy.yahoo.com") ].

(** Name and Chinese name of the default categories. *)
Definition default_categories : list (str * str) :=
  [ (u "Electronics", u "電子產品"); (u "Fashion", u "時尚"); (u "Home", u "居家");
    (u "Gaming", u "遊戲"); (u "Beauty", u "美妝"); (u "Sports", u "運動");
    (u "Books", u "書籍"); (u "Food", u "食品") ].

(** The rows the flush writes for the added objects: keys from [next] on,
    column defaults filled in. *)
Fixpoint new_platforms (next : Z) (rows : list (str * str * str)) : list Platform.t :=
  match rows with
  | [] => []
  | (name, display_name, base_url) :: rows' =>
      {| Platform.id := next; Platform.name := name;
         Platform.display_name := display_name; Platform.base_url := base_url;
         Platform.is_active := Some true |}
        :: new_platforms (next + 1) rows'
  end.

Fixpoint new_categories (next : Z) (rows : list (str * str)) : list Category.t :=
  match rows with
  | [] => []
  | (name, name_zh) :: rows' =>
      {| Category.id := next; Category.name := name;
         Category.name_zh := Some name_zh; Category.parent_id := None |}
        :: new_categories (next + 1) rows'
  end.

(** The two commits of [init_database], where the store may fail. *)
Inductive init_stage :=
| AtPlatformCommit
| AtCategoryCommit.

Definition with_platforms (tb : Db.tables) (ps : list Platform.t) : Db.tables :=
  {| Db.platforms := ps; Db.categories := Db.categories tb; Db.products := Db.products tb;
     Db.price_history := Db.price_history tb; Db.product_matches := Db.product_matches tb;
     Db.scrape_sessions := Db.scrape_sessions tb |}.

Definition with_categories (tb : Db.tables) (cs : list Category.t) : Db.tables :=
  {| Db.platforms := Db.platforms tb; Db.categories := cs; Db.products := Db.products tb;
     Db.price_history := Db.price_history tb; Db.product_matches := Db.product_matches tb;
     Db.scrape_sessions := Db.scrape_sessions tb |}.

(** [init_database] on the committed tables [tb], with a session of its
    own: the defaults are added to a table that holds no row; an exception
    is caught and answered with a rollback, which keeps what an earlier
    commit wrote and skips the rest. The result is the committed tables
    after [db.close()]. *)
Definition init_database (fails : init_stage -> bool) (tb : Db.tables) : Db.tables :=
  let platforms_step : result Db.tables :=
    if (List.length (Db.platforms tb) =? 0)%nat
    then
      if fails AtPlatformCommit then Err StoreError
      else Ok (with_platforms tb
                 (Db.platforms tb
                  ++ new_platforms (Db.next_id (map Platform.id (Db.platforms tb)))
                                   default_platforms))
    else Ok tb in
  match platforms_step with
  | Err _ => tb
  | Ok tb =>
      if (List.length (Db.categories tb) =? 0)%nat
      then
        if fails AtCategoryCommit then tb
        else with_categories tb
               (Db.categories tb
                ++ new_categories (Db.next_id (map Category.id (Db.categories tb)))
                                  default_categories)
      else tb
  end.

Definition init_succeeds (s : init_stage) : bool := false.

(** The tables of a database that has just been created. *)
Definition empty_tables : Db.tables :=
  {| Db.platforms := []; Db.categories := []; Db.products := [];
     Db.price_history := []; Db.product_matches := []; Db.scrape_sessions := [] |}.

(** A session on freshly committed tables, as [get_db] hands it out. *)
Definition session_on (tb : Db.tables) (clock : Z) : Db.t :=
  {| Db.committed := tb; Db.stored := tb;
     Db.new_history := []; Db.new_matches := []; Db.dirty := []; Db.clock := clock |}.

Definition raw_shopee : Raw.t :=
  mkraw (u "shopee") (u "S1") (u "iPhone 15 128GB") (Some (VNum 21000)) None.

(** ** [src/etl/load.py]: [LoadResult] and [DataLoader.load_products] *)

(** The messages [DataLoader] writes itself, by what they report. *)
Inductive load_error :=
| DatabaseError (e : exn)
| PipelineFailure (e : exn).

Module LoadResult.
Record t := {
  success_count : Z;
  failed_count : Z;
  duplicate_count : Z;
  validation_errors : list (nat * list rejection);
  transformation_errors : list str;
  database_errors : list load_error;
  processing_time_ms : Z;
}.

(** [LoadResult()] *)
Definition default : t :=
  {| success_count := 0; failed_count := 0; duplicate_count := 0;
     validation_errors := []; transformation_errors := []; database_errors := [];
     processing_time_ms := 0 |}.

Definition total_processed (self : t) : Z :=
  (success_count self + failed_count self)%Z.

Definition success_rate (self : t) : Q :=
  if (total_processed self =? 0)%Z then 0
  else inject_Z (success_count self) / inject_Z (total_processed self).

End LoadResult.

(** The dict [_load_to_database] returns. *)
Module DbResult.
Record t := {
  success : Z;
  failed : Z;
  duplicates : Z;
  errors : list load_error;
}.
End DbResult.

Section Loader.
Context `{PyRuntime}.

(** The two collaborators of a [DataLoader]: [self.transformer], whose
    batch transformation returns the surviving records and its error
    messages, or raises; and [self.db], whose [save_products] returns the
    number of saved records, or raises. The loader is modelled for every
    behaviour of the two. *)
Variable transform_product_batch : list Raw.t -> str -> result (list Raw.t * list str).
Variable save_products : list Schema.t -> result Z.

(** The milliseconds between the two readings of the clock. *)
Variable elapsed_ms : Z.

Definition _load_to_database (products : list Schema.t) : DbResult.t :=
  match save_products products with
  | Ok saved_count =>
      {| DbResult.success := saved_count; DbResult.failed := 0;
         DbResult.duplicates := 0; DbResult.errors := [] |}
  | Err e =>
      {| DbResult.success := 0; DbResult.failed := Z.of_nat (List.length products);
         DbResult.duplicates := 0; DbResult.errors := [DatabaseError e] |}
  end.

Definition load_products (raw_products : list Raw.t) (source : str) : LoadResult.t :=
  let result := LoadResult.default in
  match transform_product_batch raw_products source with
  | Err e =>
      {| LoadResult.success_count := LoadResult.success_count result;
         LoadResult.failed_count := LoadResult.failed_count result;
         LoadResult.duplicate_count := LoadResult.duplicate_count result;
         LoadResult.validation_errors := LoadResult.validation_errors result;
         LoadResult.transformation_errors := LoadResult.transformation_errors result;
         LoadResult.database_errors :=
           LoadResult.database_errors result ++ [PipelineFailure e];
         LoadResult.processing_time_ms := LoadResult.processing_time_ms result |}
  | Ok (transformed_products, transformation_errors) =>
      match transformed_products with
      | [] =>
          {| LoadResult.success_count := 0; LoadResult.failed_count := 0;
             LoadResult.duplicate_count := 0; LoadResult.validation_errors := [];
             LoadResult.transformation_errors := transformation_errors;
             LoadResult.database_errors := []; LoadResult.processing_time_ms := 0 |}
      | _ :: _ =>
          let '(validated_products, validation_errors) :=
            _validate_products transformed_products in
          match validated_products with
          | [] =>
              {| LoadResult.success_count := 0; LoadResult.failed_count := 0;
                 LoadResult.duplicate_count := 0;
                 LoadResult.validation_errors := validation_errors;
                 LoadResult.transformation_errors := transformation_errors;
                 LoadResult.database_errors := [];
                 LoadResult.processing_time_ms := elapsed_ms |}
          | _ :: _ =>
              let db_result := _load_to_database validated_products in
              {| LoadResult.success_count := DbResult.success db_result;
                 LoadResult.failed_count := DbResult.failed db_result;
                 LoadResult.duplicate_count := DbResult.duplicates db_result;
                 LoadResult.validation_errors := validation_errors;
                 LoadResult.transformation_errors := transformation_errors;
                 LoadResult.database_errors := DbResult.errors db_result;
                 LoadResult.processing_time_ms := elapsed_ms |}
          end
      end
  end.

End Loader.

(** * The arithmetic of the code: binary64

    The definitions above carry the numbers of the code as exact
    rationals, which is the code in real arithmetic. This part follows
    the arithmetic CPython performs: a [float] is an IEEE 754 binary64
    number, with its signed zeros, infinities and NaN, and every operation
    rounds to nearest, ties to even. The functions of the pipeline that
    compute with floats ([_extract_pricing], [difflib]'s ratio,
    [_calculate_similarity], [_find_product_matches]) are embedded again on
    these numbers, under their own names in the module [IEEE]. *)

Module Float.
Import SpecFloat.

Definition t := spec_float.

Definition prec : Z := 53.
Definition emax : Z := 1024.

(** The arithmetic of the processor, as the standard library specifies
    it in [SpecFloat] (the specification of Rocq's primitive floats), at
    precision 53 and maximal exponent 1024. Python's [/] raises
    [ZeroDivisionError] on a zero divisor, where [div] follows IEEE 754;
    every division of the pipeline is guarded by a test that the divisor
    is greater than zero. *)
Definition add : t -> t -> t := SFadd prec emax.
Definition sub : t -> t -> t := SFsub prec emax.
Definition mul : t -> t -> t := SFmul prec emax.
Definition div : t -> t -> t := SFdiv prec emax.
Definition abs : t -> t := SFabs.

(** The nearest float of an integer; an infinity beyond the range. *)
Definition of_Z (z : Z) : t := binary_normalize prec emax z 0 false.

(** The nearest float of [(-1)^neg * digits * 10^exp10]: what a decimal
    numeral of a program or of a string denotes. For a negative exponent
    the division is carried out on the two integers, so that the quotient
    is rounded once. *)
Definition of_decimal (neg : bool) (digits : positive) (exp10 : Z) : t :=
  match exp10 with
  | Zneg p => div (S754_finite neg digits 0) (S754_finite false (10 ^ p) 0)
  | _ => binary_normalize prec emax (cond_Zopp neg (Zpos digits * 10 ^ exp10)) 0 false
  end.

Definition zero : t := S754_zero false.          (* 0.0 *)
Definition one : t := of_Z 1.                    (* 1.0 *)
Definition two : t := of_Z 2.                    (* 2.0 *)
Definition hundred : t := of_Z 100.              (* float(100) *)
Definition tenth : t := of_decimal false 1 (-1).        (* 0.1 *)
Definition three_tenths : t := of_decimal false 3 (-1). (* 0.3 *)
Definition seven_tenths : t := of_decimal false 7 (-1). (* 0.7 *)
Definition nine_tenths : t := of_decimal false 9 (-1).  (* 0.9 *)
Definition nan : t := S754_nan.                  (* float('nan') *)

(** Comparison by value: an infinity is beyond every number, the two
    zeros are equal, NaN compares with nothing. Two finite numbers are
    compared as integers once brought to their smaller exponent. *)
Definition compare (x y : t) : option comparison :=
  match x, y with
  | S754_nan, _ | _, S754_nan => None
  | S754_infinity sx, S754_infinity sy =>
      Some (match sx, sy with
            | true, false => Lt
            | false, true => Gt
            | _, _ => Eq
            end)
  | S754_infinity sx, _ => Some (if sx then Lt else Gt)
  | _, S754_infinity sy => Some (if sy then Gt else Lt)
  | S754_zero _, S754_zero _ => Some Eq
  | S754_zero _, S754_finite sy _ _ => Some (if sy then Gt else Lt)
  | S754_finite sx _ _, S754_zero _ => Some (if sx then Lt else Gt)
  | S754_finite sx mx ex, S754_finite sy my ey =>
      let ez := Z.min ex ey in
      Some (Z.compare (cond_Zopp sx (Zpos (fst (shl_align mx ex ez))))
                      (cond_Zopp sy (Zpos (fst (shl_align my ey ez)))))
  end.

(** [x < y], [x <= y], [x == y] *)
Definition ltb (x y : t) : bool :=
  match compare x y with Some Lt => true | _ => false end.

Definition leb (x y : t) : bool :=
  match compare x y with Some Lt | Some Eq => true | _ => false end.

Definition eqb (x y : t) : bool :=
  match compare x y with Some Eq => true | _ => false end.

(** [bool(x)]: every float but the zeros, NaN included. *)
Definition truthy (x : t) : bool := negb (eqb x zero).

(** The builtins [max(x, y)] and [min(x, y)]: the first argument unless
    the second is greater, respectively smaller. *)
Definition max (x y : t) : t := if ltb x y then y else x.
Definition min (x y : t) : t := if ltb y x then y else x.

Definition is_infinite (x : t) : bool :=
  match x with S754_infinity _ => true | _ => false end.


(** Below zero: a negative number or minus infinity. *)
Definition is_negative (x : t) : bool :=
  match x with
  | S754_finite true _ _ | S754_infinity true => true
  | _ => false
  end.

(** [x] carries the sign bit [s], or is NaN. *)
Definition has_sign (s : bool) (x : t) : Prop :=
  match x with
  | S754_nan => True
  | S754_zero s' | S754_infinity s' | S754_finite s' _ _ => s' = s
  end.

End Float.

(** ** [float(s)] on a string

    The numerals of [Ascii_runtime], and after the sign the words [inf],
    [infinity] and [nan] in any case. *)

Module FloatSyntax.

Definition float_of_str (s : str) : option Float.t :=
  let '(neg, s) := Ascii_runtime.signed (Ascii_runtime.strip_blanks s) in
  let word := map Ascii_runtime.lower1 s in
  if Str.eqb word (u "inf") || Str.eqb word (u "infinity")
  then Some (SpecFloat.S754_infinity neg)
  else if Str.eqb word (u "nan") then Some Float.nan
  else
    match Ascii_runtime.floatnumber s with
    | Some (Zpos digits, exp10) => Some (Float.of_decimal neg digits exp10)
    | Some (_, _) => Some (SpecFloat.S754_zero neg)
    | None => None
    end.

End FloatSyntax.

(** ** The pipeline on floats *)

Module IEEE.

(** What [float(s)] makes of a string; [None] when it raises
    [ValueError]. The embedding is generic in it. *)
Class FloatRuntime := {
  float_of_str : str -> option Float.t;
}.

(** A value of a raw record: [None], a [bool], an [int], a [float] or a
    [str]. *)
Inductive Value :=
| VNone
| VBool (b : bool)
| VInt (z : Z)
| VFloat (f : Float.t)
| VStr (s : str).

(** [float(z)] on an [int]: the nearest float, or [OverflowError] when
    the int is beyond the range of the floats. *)
Definition float_of_int (z : Z) : result Float.t :=
  let f := Float.of_Z z in
  if Float.is_infinite f then Err OverflowError else Ok f.

(** [float(v)] *)
Definition py_float `{FloatRuntime} (v : Value) : result Float.t :=
  match v with
  | VFloat f => Ok f
  | VInt z => float_of_int z
  | VBool b => Ok (if b then Float.one else Float.zero)
  | VStr s => match float_of_str s with
              | Some f => Ok f
              | None => Err ValueError
              end
  | VNone => Err TypeError
  end.

(** The two keys of a raw record [_extract_pricing] reads; a field is
    [None] when the key is absent from the dict. *)
Module Raw.
Record t := {
  price : option Value;
  original_price : option Value;
}.
End Raw.

Module Pricing.
Record t := {
  current_price : Float.t;
  original_price : Float.t;
  discount : Float.t;
}.
End Pricing.

Definition _extract_pricing `{FloatRuntime} (raw_product : Raw.t) : result Pricing.t :=
  current_price <- py_float (get (Raw.price raw_product) (VInt 0)) ;;
  original_price <-
    py_float (get (Raw.original_price raw_product) (VFloat current_price)) ;;
  let discount :=
    if Float.ltb current_price original_price && Float.ltb Float.zero original_price
    then Float.mul (Float.div (Float.sub original_price current_price) original_price)
                   Float.hundred
    else Float.zero in
  Ok {| Pricing.current_price := current_price;
        Pricing.original_price := original_price;
        Pricing.discount := discount |}.

(** The discount of [_extract_pricing] as a function of the two prices. *)
Definition discount_of (current_price original_price : Float.t) : Float.t :=
  if Float.ltb current_price original_price && Float.ltb Float.zero original_price
  then Float.mul (Float.div (Float.sub original_price current_price) original_price)
                 Float.hundred
  else Float.zero.

(** [difflib._calculate_ratio] and [SequenceMatcher.ratio], on the
    matching blocks of [Difflib]. *)
Definition _calculate_ratio (matches length : nat) : Float.t :=
  if length =? 0 then Float.one
  else Float.div (Float.mul Float.two (Float.of_Z (Z.of_nat matches)))
                 (Float.of_Z (Z.of_nat length)).

Definition ratio (a b : str) : Float.t :=
  let matches := list_sum (map Difflib.bestsize (Difflib.get_matching_blocks a b)) in
  _calculate_ratio matches (List.length a + List.length b).

(** The tables the matcher works on, their [Float] columns holding
    floats. *)
Module Product.
Record t := {
  id : Z;
  name : str;
  normalized_name : option str;
  description : option str;
  brand : option str;
  model : option str;
  platform_id : Z;
  platform_product_id : str;
  url : option str;
  image_url : option str;
  category_id : option Z;
  current_price : option Float.t;
  original_price : option Float.t;
  discount_percentage : option Float.t;
  currency : option str;
  is_available : option bool;
  stock_status : option str;
  data_quality_score : option Float.t;
  last_scraped : option Z;
  scrape_count : option Z;
  created_at : option Z;
  updated_at : option Z;
}.
End Product.

Module ProductMatch.
Record t := {
  id : option Z;
  product_a_id : Z;
  product_b_id : Z;
  similarity_score : Float.t;
  match_type : option str;
  match_algorithm : option str;
  is_verified : option bool;
  is_active : option bool;
  created_at : option Z;
}.
End ProductMatch.

(** The part of the SQLAlchemy session the matcher touches:
    [product_matches] holds the rows its query sees, [new_matches] the
    objects passed to [db.add] and not flushed, which the query does not
    see since the session is built with [autoflush=False]. *)
Module Db.
Record t := {
  product_matches : list ProductMatch.t;
  new_matches : list ProductMatch.t;
}.

(** [db.add(match)] *)
Definition add_match (db : t) (r : ProductMatch.t) : t :=
  {| product_matches := product_matches db; new_matches := new_matches db ++ [r] |}.
End Db.

Section Matcher.
Context `{PyRuntime}.

Definition _calculate_similarity (product_a product_b : Product.t) : Float.t :=
  let name_a := or_empty (Product.normalized_name product_a) in
  let name_b := or_empty (Product.normalized_name product_b) in
  let name_sim := ratio name_a name_b in
  let brand_sim :=
    match Product.brand product_a, Product.brand product_b with
    | Some brand_a, Some brand_b =>
        if Str.truthy brand_a && Str.truthy brand_b
        then (if Str.eqb (lower brand_a) (lower brand_b)
              then Float.three_tenths else Float.zero)
        else Float.zero
    | _, _ => Float.zero
    end in
  let price_sim :=
    match Product.current_price product_a, Product.current_price product_b with
    | Some price_a, Some price_b =>
        if Float.truthy price_a && Float.truthy price_b
        then
          let price_diff := Float.abs (Float.sub price_a price_b) in
          let max_price := Float.max price_a price_b in
          if Float.ltb Float.zero max_price
          then
            let price_ratio := Float.sub Float.one (Float.div price_diff max_price) in
            if Float.ltb Float.seven_tenths price_ratio then Float.tenth else Float.zero
          else Float.zero
        else Float.zero
    | _, _ => Float.zero
    end in
  let total_similarity := Float.add (Float.add name_sim brand_sim) price_sim in
  Float.min total_similarity Float.one.

(** The filter of the existence query: an edge between the two ids, in
    either order. *)
Definition links (a_id b_id : Z) (m : ProductMatch.t) : bool :=
  ((ProductMatch.product_a_id m =? a_id)%Z && (ProductMatch.product_b_id m =? b_id)%Z)
  || ((ProductMatch.product_a_id m =? b_id)%Z && (ProductMatch.product_b_id m =? a_id)%Z).

Definition new_match (product_a product_b : Product.t) (similarity : Float.t)
  : ProductMatch.t :=
  {| ProductMatch.id := None;
     ProductMatch.product_a_id := Product.id product_a;
     ProductMatch.product_b_id := Product.id product_b;
     ProductMatch.similarity_score := similarity;
     ProductMatch.match_type :=
       Some (if Float.ltb similarity Float.nine_tenths then u "similar" else u "exact");
     ProductMatch.match_algorithm := Some (u "name_similarity");
     ProductMatch.is_verified := None;
     ProductMatch.is_active := None;
     ProductMatch.created_at := None |}.

(** Body of the inner loop for one pair. *)
Definition match_pair (product_a : Product.t) (acc : Db.t * nat) (product_b : Product.t)
  : Db.t * nat :=
  let '(db, matches_found) := acc in
  if (Product.platform_id product_a =? Product.platform_id product_b)%Z then acc
  else
    let similarity := _calculate_similarity product_a product_b in
    if Float.leb Float.seven_tenths similarity
    then
      match find_first (links (Product.id product_a) (Product.id product_b))
                       (Db.product_matches db) with
      | Some _ => acc
      | None =>
          (Db.add_match db (new_match product_a product_b similarity),
           S matches_found)
      end
    else acc.

(** The two nested loops: [product_a] against [products[i+1:]]. *)
Fixpoint match_loop (products : list Product.t) (acc : Db.t * nat) : Db.t * nat :=
  match products with
  | [] => acc
  | product_a :: rest => match_loop rest (fold_left (match_pair product_a) rest acc)
  end.

(** [_find_product_matches]: the session state and [matches_found]. *)
Definition _find_product_matches (db : Db.t) (products : list Product.t) : Db.t * nat :=
  match_loop products (db, 0%nat).

(** The pairs the two loops visit, in the order they visit them. *)
Fixpoint batch_pairs (products : list Product.t) : list (Product.t * Product.t) :=
  match products with
  | [] => []
  | product_a :: rest => map (pair product_a) rest ++ batch_pairs rest
  end.

(** The session with [es] added to the objects waiting for a flush. *)
Definition with_new_matches (db : Db.t) (es : list ProductMatch.t) : Db.t :=
  {| Db.product_matches := Db.product_matches db;
     Db.new_matches := Db.new_matches db ++ es |}.

(** A pair for which the matcher adds an edge. *)
Definition inserts_edge (db : Db.t) (pr : Product.t * Product.t) : bool :=
  let '(product_a, product_b) := pr in
  negb (Product.platform_id product_a =? Product.platform_id product_b)%Z
  && Float.leb Float.seven_tenths (_calculate_similarity product_a product_b)
  && negb (existsb (links (Product.id product_a) (Product.id product_b))
                   (Db.product_matches db)).

Definition edge_of (pr : Product.t * Product.t) : ProductMatch.t :=
  new_match (fst pr) (snd pr) (_calculate_similarity (fst pr) (snd pr)).

Definition added_edges (db : Db.t) (products : list Product.t) : list ProductMatch.t :=
  map edge_of (filter (inserts_edge db) (batch_pairs products)).

(** The two bonuses in words: 0.3 when both brands are present, not empty
    and equal once lower-cased; 0.1 when both prices are present and not
    zero, the greater one is above zero and 1 - |a - b| / max(a, b) is
    above 0.7. *)
Definition brand_bonus (product_a product_b : Product.t) : Float.t :=
  match Product.brand product_a, Product.brand product_b with
  | Some brand_a, Some brand_b =>
      if Str.truthy brand_a && Str.truthy brand_b
         && Str.eqb (lower brand_a) (lower brand_b)
      then Float.three_tenths else Float.zero
  | _, _ => Float.zero
  end.

Definition price_bonus (product_a product_b : Product.t) : Float.t :=
  match Product.current_price product_a, Product.current_price product_b with
  | Some price_a, Some price_b =>
      if Float.truthy price_a && Float.truthy price_b
         && Float.ltb Float.zero (Float.max price_a price_b)
         && Float.ltb Float.seven_tenths
              (Float.sub Float.one
                 (Float.div (Float.abs (Float.sub price_a price_b))
                            (Float.max price_a price_b)))
      then Float.tenth else Float.zero
  | _, _ => Float.zero
  end.

(** The price test as the specification words it: min / max above 0.7. *)
Definition min_over_max_above (price_a price_b : Float.t) : bool :=
  Float.ltb Float.seven_tenths
            (Float.div (Float.min price_a price_b) (Float.max price_a price_b)).

End Matcher.

(** *** Sample data *)

#[export] Instance ascii_floats : FloatRuntime :=
  {| float_of_str := FloatSyntax.float_of_str |}.

Definition mkraw (price original_price : option Value) : Raw.t :=
  {| Raw.price := price; Raw.original_price := original_price |}.

Definition raw_discounted : Raw.t := mkraw (Some (VInt 22299)) (Some (VInt 24900)).
Definition raw_negative_price : Raw.t := mkraw (Some (VInt (-5))) (Some (VInt 10)).
Definition raw_null_price : Raw.t := mkraw (Some VNone) None.
Definition raw_no_price : Raw.t := mkraw None None.
Definition raw_text_price : Raw.t := mkraw (Some (VStr (u " 1_299.50 "))) None.
Definition raw_worded_price : Raw.t := mkraw (Some (VStr (u "NT$1299"))) None.
Definition raw_odd_price : Raw.t := mkraw (Some (VInt (2 ^ 53 + 1))) None.
Definition raw_huge_price : Raw.t := mkraw (Some (VInt (10 ^ 400))) None.

(** A stored entry, as [mkproduct id platform_id normalized_name brand price]. *)
Definition mkproduct (id platform_id : Z) (normalized_name : str) (brand : option str)
           (price : option Float.t) : Product.t :=
  {| Product.id := id; Product.name := normalized_name;
     Product.normalized_name := Some normalized_name;
     Product.description := Some []; Product.brand := brand; Product.model := Some [];
     Product.platform_id := platform_id; Product.platform_product_id := [];
     Product.url := Some []; Product.image_url := Some [];
     Product.category_id := None;
     Product.current_price := price; Product.original_price := price;
     Product.discount_percentage := Some Float.zero; Product.currency := Some (u "TWD");
     Product.is_available := Some true; Product.stock_status := None;
     Product.data_quality_score := Some Float.one; Product.last_scraped := Some 1%Z;
     Product.scrape_count := Some 1%Z; Product.created_at := Some 1%Z;
     Product.updated_at := Some 1%Z |}.

Definition galaxy_pchome : Product.t :=
  mkproduct 1 1 (u "samsung galaxy s24 ultra 256gb") (Some (u "Samsung"))
            (Some (Float.of_Z 38900)).

Definition galaxy_momo : Product.t :=
  mkproduct 2 2 (u "samsung galaxy s24 ultra 256 gb") (Some (u "Samsung"))
            (Some (Float.of_Z 37900)).

(** Two names of ratio 0.6 under one brand: 0.6 + 0.3 in floats. *)
Definition usb_pchome : Product.t :=
  mkproduct 3 1 (u "usb") (Some (u "Anker")) None.

Definition usb_momo : Product.t :=
  mkproduct 4 2 (u "usb pro") (Some (u "anker")) None.

(** Two entries priced 2.1 and 3.0. *)
Definition pen_pchome : Product.t :=
  mkproduct 5 1 (u "gel pen 0.5 black") None (Some (Float.of_decimal false 21 (-1))).

Definition pen_momo : Product.t :=
  mkproduct 6 2 (u "gel pen 0.5 blue") None (Some (Float.of_Z 3)).

(** Two entries stored from records whose raw price was negative. *)
Definition refund_pchome : Product.t :=
  mkproduct 7 1 (u "samsung galaxy s24 ultra 256gb") None (Some (Float.of_Z (-10))).

Definition refund_momo : Product.t :=
  mkproduct 8 2 (u "galaxy s24 ultra samsung 256 gb black") None (Some (Float.of_Z (-8))).

Definition empty_db : Db.t := {| Db.product_matches := []; Db.new_matches := [] |}.

(** A store in which the two galaxy entries are linked already, the momo
    entry first. *)
Definition linked_db : Db.t :=
  {| Db.product_matches :=
       [ {| ProductMatch.id := Some 1%Z;
            ProductMatch.product_a_id := 2; ProductMatch.product_b_id := 1;
            ProductMatch.similarity_score := Float.one;
            ProductMatch.match_type := Some (u "exact");
            ProductMatch.match_algorithm := Some (u "name_similarity");
            ProductMatch.is_verified := Some false; ProductMatch.is_active := Some true;
            ProductMatch.created_at := Some 1%Z |} ];
     Db.new_matches := [] |}.

End IEEE.

(** * Properties *)

(** ** Strings and comparisons *)

Module StrFacts.

Lemma eqb_eq (a b : str) : Str.eqb a b = true <-> a = b.
Proof.
  unfold Str.eqb. destruct (list_eq_dec N.eq_dec a b); split; congruence.
Qed.

Lemma eqb_refl (a : str) : Str.eqb a a = true.
Proof. now apply eqb_eq. Qed.

End StrFacts.

Lemma Qltb_lt (a b : Q) : Qltb a b = true <-> a < b.
Proof.
  unfold Qltb. rewrite negb_true_iff.
  split; intro Hx.
  - apply Qnot_le_lt. intro Hle. apply Qle_bool_iff in Hle. congruence.
  - destruct (Qle_bool b a) eqn:E; [|reflexivity].
    apply Qle_bool_iff in E. exfalso. exact (Qlt_not_le _ _ Hx E).
Qed.

Lemma Qltb_ge (a b : Q) : Qltb a b = false <-> b <= a.
Proof.
  unfold Qltb. rewrite negb_false_iff. apply Qle_bool_iff.
Qed.

(** ** The upsert *)

Lemma find_first_some {A} (p : A -> bool) (l : list A) (n : nat) (x : A) :
  find_first p l = Some (n, x) ->
  nth_error l n = Some x /\ p x = true /\ (n < List.length l)%nat.
Proof.
  revert n. induction l as [|y l IH]; intros n; cbn; [discriminate|].
  destruct (p y) eqn:Ey.
  - intros [= <- <-]. cbn. repeat split; [exact Ey | lia].
  - destruct (find_first p l) as [[m z]|] eqn:Ef; [|discriminate].
    intros [= <- <-]. destruct (IH m eq_refl) as (Hn & Hp & Hl).
    cbn. repeat split; [exact Hn | exact Hp | lia].
Qed.



Lemma update_nth_length {A} (n : nat) (f : A -> A) (l : list A) :
  List.length (update_nth n f l) = List.length l.
Proof.
  revert n. induction l as [|y l IH]; intros [|n]; cbn; auto.
Qed.

Lemma nth_error_update_nth {A} (n : nat) (f : A -> A) (l : list A) (x : A) :
  nth_error l n = Some x -> nth_error (update_nth n f l) n = Some (f x).
Proof.
  revert n. induction l as [|y l IH]; intros [|n]; cbn; try discriminate.
  - intros [= ->]. reflexivity.
  - apply IH.
Qed.

Lemma nth_error_update_nth_other {A} (n m : nat) (f : A -> A) (l : list A) :
  n <> m -> nth_error (update_nth n f l) m = nth_error l m.
Proof.
  revert n m. induction l as [|y l IH]; intros [|n] [|m] Hne; cbn; auto;
    try contradiction.
Qed.

Lemma touch_dirty_length (t0 : Z) (dirty : list nat) (pos : nat) (ps : list Product.t) :
  List.length (Db.touch_dirty t0 dirty pos ps) = List.length ps.
Proof.
  revert pos. induction ps as [|p ps IH]; intros pos; cbn; auto.
Qed.

Lemma touch_dirty_find_none (p : Product.t -> bool) (t0 : Z) (dirty : list nat) (pos : nat)
      (ps : list Product.t) :
  (forall x, p (Db.touch t0 x) = p x) ->
  find_first p ps = None ->
  find_first p (Db.touch_dirty t0 dirty pos ps) = None.
Proof.
  intros Hp. revert pos. induction ps as [|x ps IH]; intros pos; cbn; auto.
  destruct (p x) eqn:Ex; [discriminate|].
  destruct (find_first p ps) as [[m z]|] eqn:Ef; [discriminate|].
  intros _. rewrite (IH (S pos) eq_refl).
  destruct (existsb (Nat.eqb pos) dirty); [rewrite Hp|]; rewrite Ex; reflexivity.
Qed.

Lemma assign_history_ids_length (next : Z) (rows : list PriceHistory.t) :
  List.length (Db.assign_history_ids next rows) = List.length rows.
Proof.
  revert next. induction rows as [|r rows IH]; intros next; cbn; auto.
Qed.

Section UpsertFacts.
Context `{PyRuntime}.

Lemma same_listing_touch (platform_id : Z) (product_id : str) (t0 : Z) (p : Product.t) :
  same_listing platform_id product_id (Db.touch t0 p) = same_listing platform_id product_id p.
Proof. reflexivity. Qed.

(** What a successful call of [_process_single_product] has done. *)
Lemma process_single_product_inv (self : ETL.t) (db db' : Db.t) (raw_product : Raw.t)
      (pos : nat) :
  _process_single_product self db raw_product = (db', Ok (Some pos)) ->
  exists platform pd product h base,
    platform_cache_get (ETL.platform_cache self) (lower (get (Raw.platform raw_product) []))
    = Some platform
    /\ _extract_pricing raw_product = Ok pd
    /\ nth_error (Db.products (Db.stored db')) pos = Some product
    /\ Db.new_history db' = base ++ [h]
    /\ PriceHistory.scrape_session_id h = Some (ETL.session_id self)
    /\ PriceHistory.product_id h = Product.id product
    /\ history_count db' = S (history_count db)
    /\ let name := _clean_text (get (Raw.name raw_product) []) in
       let key := same_listing (Platform.id platform) (get (Raw.product_id raw_product) []) in
       (3 <= List.length name)%nat
       /\ ((exists existing,
              find_first key (Db.products (Db.stored db)) = Some (pos, existing)
              /\ product = update_existing name (_normalize_name name) pd raw_product
                                           (Db.clock db) existing
              /\ Db.products (Db.stored db')
                 = update_nth pos (fun _ => product) (Db.products (Db.stored db))
              /\ base = Db.new_history db)
           \/ (exists rows,
                 find_first key (Db.products (Db.stored db)) = None
                 /\ pos = List.length (Db.products (Db.stored db))
                 /\ List.length rows = List.length (Db.products (Db.stored db))
                 /\ find_first key rows = None
                 /\ Db.products (Db.stored db') = rows ++ [product]
                 /\ key product = true
                 /\ Product.scrape_count product = Some 1%Z
                 /\ base = [])).
Proof.
  unfold _process_single_product.
  set (name := _clean_text (get (Raw.name raw_product) [])).
  generalize (_normalize_name name) as normalized_name.
  generalize (_categorize_product self name) as category.
  intros category normalized_name.
  destruct (negb (Str.truthy name) || (List.length name <? 3)%nat) eqn:Ename;
    [discriminate|].
  apply orb_false_iff in Ename. destruct Ename as [_ Elen].
  apply Nat.ltb_ge in Elen.
  destruct (platform_cache_get (ETL.platform_cache self)
              (lower (get (Raw.platform raw_product) []))) as [platform|] eqn:Eplat;
    [|discriminate].
  destruct (_extract_pricing raw_product) as [pd|e] eqn:Epd; [|discriminate].
  destruct (_extract_brand_model name) as [brand model].
  set (key := same_listing (Platform.id platform) (get (Raw.product_id raw_product) [])).
  destruct (find_first key (Db.products (Db.stored db))) as [[pos0 existing]|] eqn:Efind.
  - cbn. intros [= <- <-].
    exists platform, pd. eexists. eexists. eexists.
    split; [reflexivity|]. split; [reflexivity|].
    destruct (find_first_some _ _ Efind) as (Hnth & Hkey & Hlt).
    split. { cbn. apply (nth_error_update_nth _ (fun _ => _) _ Hnth). }
    split; [reflexivity|].
    split; [reflexivity|]. split; [reflexivity|].
    split. { unfold history_count. cbn. rewrite length_app. cbn. lia. }
    split; [exact Elen|]. left. exists existing.
    split; [exact Efind|]. repeat split.
  - destruct (_calculate_quality_score raw_product) as [quality|e]; [|discriminate].
    cbn. intros [= <- <-].
    exists platform, pd. eexists. eexists. exists (@nil PriceHistory.t).
    split; [reflexivity|]. split; [reflexivity|].
    split. { cbn. rewrite nth_error_app2; rewrite touch_dirty_length; [|lia].
             rewrite Nat.sub_diag. reflexivity. }
    split. { cbn. reflexivity. }
    split; [reflexivity|]. split; [reflexivity|].
    split. { unfold history_count. cbn. rewrite length_app, assign_history_ids_length. lia. }
    split; [exact Elen|]. right.
    exists (Db.touch_dirty (Db.clock db + 1) (Db.dirty db) 0 (Db.products (Db.stored db))).
    split; [exact Efind|]. split. { rewrite touch_dirty_length. reflexivity. }
    split. { apply touch_dirty_length. }
    split. { apply touch_dirty_find_none; [reflexivity | exact Efind]. }
    split; [reflexivity|].
    split. { unfold key, same_listing. cbn. rewrite Z.eqb_refl, StrFacts.eqb_refl. reflexivity. }
    split; reflexivity.
Qed.



Lemma long_name_passes (name : str) :
  (3 <= List.length name)%nat ->
  negb (Str.truthy name) || (List.length name <? 3)%nat = false.
Proof.
  intros Hlen. destruct name as [|c name]; [cbn in Hlen; lia|].
  cbn [Str.truthy negb orb]. apply Nat.ltb_ge. exact Hlen.
Qed.


(** A record the update branch accepts is processed when its listing is
    stored: the call returns the stored entry. *)
Lemma process_single_product_updates (self : ETL.t) (db : Db.t) (raw_product : Raw.t)
      (platform : Platform.t) (pos : nat) (existing : Product.t) :
  updatable self raw_product ->
  platform_cache_get (ETL.platform_cache self) (lower (get (Raw.platform raw_product) []))
  = Some platform ->
  find_first (same_listing (Platform.id platform) (get (Raw.product_id raw_product) []))
             (Db.products (Db.stored db))
  = Some (pos, existing) ->
  exists db', _process_single_product self db raw_product = (db', Ok (Some pos)).
Proof.
  intros (Hlen & _ & (pd & Hpd)) Hplatform Hstored.
  unfold _process_single_product.
  set (name := _clean_text (get (Raw.name raw_product) [])) in *.
  generalize (_normalize_name name) as normalized_name.
  generalize (_categorize_product self name) as category.
  intros category normalized_name.
  rewrite (long_name_passes name Hlen), Hplatform, Hpd.
  destruct (_extract_brand_model name) as [brand model].
  rewrite Hstored. cbn. eexists. reflexivity.
Qed.

(** The scrape count after [(existing.scrape_count or 0) + 1]. *)
Lemma update_existing_scrape_count (name normalized_name : str) (pd : Pricing.t)
      (raw_product : Raw.t) (t0 : Z) (existing : Product.t) :
  let updated := update_existing name normalized_name pd raw_product t0 existing in
  (forall n, Product.scrape_count existing = Some n ->
             Product.scrape_count updated = Some (n + 1)%Z)
  /\ (Product.scrape_count existing = None -> Product.scrape_count updated = Some 1%Z).
Proof.
  cbv zeta. unfold update_existing. cbn [Product.scrape_count].
  split; [intros n Hn | intros Hn]; rewrite Hn; reflexivity.
Qed.



(** C6, as amended: a later observation of a stored listing, valid for the
    update (a name of three code points or more, a known platform, prices
    [float] accepts), is processed and rewrites, in place, the name, the
    normalized name, the three price fields, the availability, the two
    urls, last-scraped and the scrape count, a count [n] becoming [n + 1]
    and a null count 1; the id, created-at, the quality score, brand,
    model, description, category, currency, stock status and the listing
    key stay as they were, and no other row changes. *)
Theorem update_in_place_fields
        (self : ETL.t) (db : Db.t) (raw_product : Raw.t) (platform : Platform.t)
        (pos : nat) (existing : Product.t) :
  updatable self raw_product ->
  platform_cache_get (ETL.platform_cache self) (lower (get (Raw.platform raw_product) []))
  = Some platform ->
  find_first (same_listing (Platform.id platform) (get (Raw.product_id raw_product) []))
             (Db.products (Db.stored db))
  = Some (pos, existing) ->
  exists db' updated pd,
    _process_single_product self db raw_product = (db', Ok (Some pos))
    /\ nth_error (Db.products (Db.stored db')) pos = Some updated
    /\ _extract_pricing raw_product = Ok pd
    /\ (Product.name updated = _clean_text (get (Raw.name raw_product) [])
        /\ Product.normalized_name updated
           = Some (_normalize_name (_clean_text (get (Raw.name raw_product) [])))
        /\ Product.current_price updated = Some (Pricing.current_price pd)
        /\ Product.original_price updated = Some (Pricing.original_price pd)
        /\ Product.discount_percentage updated = Some (Pricing.discount pd)
        /\ Product.is_available updated = Some (get (Raw.availability raw_product) true)
        /\ Product.url updated = Some (get (Raw.url raw_product) [])
        /\ Product.image_url updated = Some (get (Raw.image_url raw_product) [])
        /\ Product.last_scraped updated = Some (Db.clock db)
        /\ (forall n, Product.scrape_count existing = Some n ->
                      Product.scrape_count updated = Some (n + 1)%Z)
        /\ (Product.scrape_count existing = None ->
            Product.scrape_count updated = Some 1%Z))
    /\ (Product.id updated = Product.id existing
        /\ Product.created_at updated = Product.created_at existing
        /\ Product.data_quality_score updated = Product.data_quality_score existing
        /\ Product.brand updated = Product.brand existing
        /\ Product.model updated = Product.model existing
        /\ Product.description updated = Product.description existing
        /\ Product.category_id updated = Product.category_id existing
        /\ Product.currency updated = Product.currency existing
        /\ Product.stock_status updated = Product.stock_status existing
        /\ Product.platform_id updated = Product.platform_id existing
        /\ Product.platform_product_id updated = Product.platform_product_id existing)
    /\ (forall i, i <> pos ->
                  nth_error (Db.products (Db.stored db')) i
                  = nth_error (Db.products (Db.stored db)) i).
Proof.
  intros Hraw Hplatform Hstored.
  destruct (@process_single_product_updates self db raw_product platform pos existing
              Hraw Hplatform Hstored) as (db' & Hrun).
  pose proof Hrun as Hinv. apply process_single_product_inv in Hinv.
  destruct Hinv as (platform' & pd & product & h & base & Hplat & Hpd & Hnth & _ & _ & _ & _
                    & Hcase).
  cbv zeta in Hcase. destruct Hcase as [_ Hcase].
  rewrite Hplatform in Hplat. injection Hplat as <-.
  destruct Hcase as [(existing' & Hfind & Hprod & Hrows & _)
                    | (rows & Hnone & _)]; [|congruence].
  rewrite Hstored in Hfind. injection Hfind as <-.
  exists db', product, pd.
  split; [exact Hrun|]. split; [exact Hnth|]. split; [exact Hpd|].
  rewrite Hprod.
  split.
  { do 9 (split; [reflexivity|]). apply update_existing_scrape_count. }
  split; [repeat split|].
  intros i Hi. rewrite Hrows. apply nth_error_update_nth_other. congruence.
Qed.

End UpsertFacts.

Lemma sample_records_processable :
  @processable ascii_runtime demo_etl raw_discounted
  /\ @updatable ascii_runtime demo_etl raw_again_quoted.
Proof.
  split.
  - split; [vm_compute; lia|]. split; [vm_compute; discriminate|].
    split; eexists; vm_compute; reflexivity.
  - split; [vm_compute; lia|]. split; [vm_compute; discriminate|].
    eexists; vm_compute; reflexivity.
Defined.

(** The update branch takes a record the quality check refuses. *)
Lemma quoted_price_not_scored :
  _calculate_quality_score raw_again_quoted = Err TypeError.
Proof. vm_compute. reflexivity. Qed.


Lemma pchome_listing_stored :
  platform_cache_get (ETL.platform_cache demo_etl)
                     (@lower ascii_runtime (get (Raw.platform raw_again_quoted) []))
  = Some (demo_platform 1 (u "pchome"))
  /\ exists existing,
       find_first (same_listing (Platform.id (demo_platform 1 (u "pchome")))
                                (get (Raw.product_id raw_again_quoted) []))
                  (Db.products (Db.stored (fst first_observation)))
       = Some (0%nat, existing)
       /\ Product.scrape_count existing = Some 1%Z.
Proof.
  split; [vm_compute; reflexivity|]. eexists. split; vm_compute; reflexivity.
Defined.

Lemma update_in_place_fields_witness :
  exists existing db' updated,
    nth_error (Db.products (Db.stored (fst first_observation))) 0 = Some existing
    /\ @_process_single_product ascii_runtime demo_etl (fst first_observation)
         raw_again_quoted
       = (db', Ok (Some 0%nat))
    /\ nth_error (Db.products (Db.stored db')) 0 = Some updated
    /\ Product.id updated = Product.id existing
    /\ Product.data_quality_score updated = Product.data_quality_score existing
    /\ Product.scrape_count existing = Some 1%Z
    /\ Product.scrape_count updated = Some 2%Z.
Proof.
  destruct pchome_listing_stored as (Hplatform & existing & Hstored & Hcount).
  destruct (@update_in_place_fields ascii_runtime demo_etl (fst first_observation)
              raw_again_quoted (demo_platform 1 (u "pchome")) 0 existing
              (proj2 sample_records_processable) Hplatform Hstored)
    as (db' & updated & pd & Hrun & Hu & _ & Hnew & Hkept & _).
  destruct Hnew as (_ & _ & _ & _ & _ & _ & _ & _ & _ & Hsome & _).
  destruct Hkept as (Hid & _ & Hquality & _).
  exists existing, db', updated.
  split; [exact (proj1 (find_first_some _ _ Hstored))|].
  split; [exact Hrun|]. split; [exact Hu|].
  split; [exact Hid|]. split; [exact Hquality|].
  split; [exact Hcount|]. exact (Hsome 1%Z Hcount).
Defined.

(** C6, as stated, fails on the quality score: the second observation
    carries a url, an image, a brand and a description, so its score is 1,
    yet the stored entry keeps the score 0.33 of the first observation. *)
Lemma update_quality_score_counterexample :
  snd first_observation = Ok (Some 0%nat)
  /\ snd second_observation = Ok (Some 0%nat)
  /\ _calculate_quality_score raw_again = Ok (100 # 100)
  /\ option_map Product.data_quality_score
       (nth_error (Db.products (Db.stored (fst second_observation))) 0)
     = Some (Some (33 # 100))
  /\ ~ (33 # 100 == 100 # 100).
Proof.
  split; [vm_compute; reflexivity|].
  split; [vm_compute; reflexivity|].
  split; [vm_compute; reflexivity|].
  split; [vm_compute; reflexivity|].
  intros Heq. vm_compute in Heq. discriminate.
Qed.

(** ** The matcher *)

Lemma find_first_none_existsb {A} (p : A -> bool) (l : list A) :
  find_first p l = None <-> existsb p l = false.
Proof.
  induction l as [|x l IH]; cbn; [tauto|].
  destruct (p x); cbn; [split; discriminate|].
  destruct (find_first p l) as [[n y]|].
  - split; [discriminate|]. intros Hx. apply IH in Hx. discriminate.
  - split; intros _; [apply IH|]; reflexivity.
Qed.

Lemma with_new_matches_nil (db : Db.t) : with_new_matches db [] = db.
Proof. destruct db. unfold with_new_matches. cbn. rewrite app_nil_r. reflexivity. Qed.

Section MatcherFacts.
Context `{PyRuntime}.

Lemma match_pair_spec (db : Db.t) (es : list ProductMatch.t) (n : nat)
      (product_a product_b : Product.t) :
  match_pair product_a (with_new_matches db es, n) product_b
  = if inserts_edge db (product_a, product_b)
    then (with_new_matches db (es ++ [edge_of (product_a, product_b)]), S n)
    else (with_new_matches db es, n).
Proof.
  unfold match_pair, inserts_edge, edge_of.
  cbn [fst snd Db.stored with_new_matches].
  destruct (Product.platform_id product_a =? Product.platform_id product_b)%Z;
    cbn [negb andb]; [reflexivity|].
  destruct (Qle_bool (7 # 10) (_calculate_similarity product_a product_b));
    cbn [andb]; [|reflexivity].
  destruct (find_first (links (Product.id product_a) (Product.id product_b))
                       (Db.product_matches (Db.stored db))) as [[k m]|] eqn:Efind.
  - destruct (existsb (links (Product.id product_a) (Product.id product_b))
                      (Db.product_matches (Db.stored db))) eqn:Eex; [reflexivity|].
    apply find_first_none_existsb in Eex. congruence.
  - apply find_first_none_existsb in Efind. rewrite Efind. cbn [negb].
    unfold Db.add_match, with_new_matches. cbn. rewrite <- app_assoc. reflexivity.
Qed.

Lemma inner_loop_spec (db : Db.t) (product_a : Product.t) (rest : list Product.t)
      (es : list ProductMatch.t) (n : nat) :
  fold_left (match_pair product_a) rest (with_new_matches db es, n)
  = (with_new_matches db
       (es ++ map edge_of (filter (inserts_edge db) (map (pair product_a) rest))),
     (n + List.length (filter (inserts_edge db) (map (pair product_a) rest)))%nat).
Proof.
  revert es n. induction rest as [|product_b rest IH]; intros es n.
  - cbn. rewrite app_nil_r, Nat.add_0_r. reflexivity.
  - cbn [fold_left map filter]. rewrite match_pair_spec.
    destruct (inserts_edge db (product_a, product_b)).
    + rewrite IH. cbn [map List.length]. rewrite <- app_assoc. cbn [app].
      f_equal. lia.
    + apply IH.
Qed.

Lemma match_loop_spec (db : Db.t) (products : list Product.t)
      (es : list ProductMatch.t) (n : nat) :
  match_loop products (with_new_matches db es, n)
  = (with_new_matches db (es ++ added_edges db products),
     (n + List.length (added_edges db products))%nat).
Proof.
  unfold added_edges.
  revert es n. induction products as [|product_a rest IH]; intros es n.
  - cbn. rewrite app_nil_r, Nat.add_0_r. reflexivity.
  - cbn [match_loop batch_pairs]. rewrite inner_loop_spec, IH.
    rewrite filter_app, map_app, !length_map, length_app, !length_map.
    rewrite <- app_assoc. f_equal. lia.
Qed.

(** The matcher adds the edges of [added_edges], in order, to the objects
    waiting for a flush, and changes nothing else. *)
Lemma find_product_matches_spec (db : Db.t) (products : list Product.t) :
  _find_product_matches db products
  = (with_new_matches db (added_edges db products),
     List.length (added_edges db products)).
Proof.
  unfold _find_product_matches.
  rewrite <- (with_new_matches_nil db) at 1.
  rewrite match_loop_spec. reflexivity.
Qed.

Lemma filter_none {A} (p : A -> bool) (l : list A) :
  (forall x, In x l -> p x = false) -> filter p l = [].
Proof.
  induction l as [|x l IH]; cbn; intros Hp; [reflexivity|].
  rewrite (Hp x (or_introl eq_refl)). apply IH. intros y Hy. apply Hp. now right.
Qed.

Lemma batch_pairs_in (products : list Product.t) (product_a product_b : Product.t) :
  In (product_a, product_b) (batch_pairs products) ->
  In product_a products /\ In product_b products.
Proof.
  induction products as [|x rest IH]; cbn; [tauto|].
  rewrite in_app_iff, in_map_iff.
  intros [(y & [= <- <-] & Hy) | Hin]; [tauto|].
  destruct (IH Hin). tauto.
Qed.

Lemma in_added_edges (db : Db.t) (products : list Product.t) (e : ProductMatch.t) :
  In e (added_edges db products) <->
  exists product_a product_b,
    In (product_a, product_b) (batch_pairs products)
    /\ inserts_edge db (product_a, product_b) = true
    /\ e = edge_of (product_a, product_b).
Proof.
  unfold added_edges. rewrite in_map_iff. split.
  - intros ([a b] & <- & Hin). apply filter_In in Hin. exists a, b. tauto.
  - intros (a & b & Hin & Hins & ->). exists (a, b). split; [reflexivity|].
    apply filter_In. tauto.
Qed.

Lemma inserts_edge_true (db : Db.t) (product_a product_b : Product.t) :
  inserts_edge db (product_a, product_b) = true <->
  Product.platform_id product_a <> Product.platform_id product_b
  /\ 7 # 10 <= _calculate_similarity product_a product_b
  /\ existsb (links (Product.id product_a) (Product.id product_b))
             (Db.product_matches (Db.stored db)) = false.
Proof.
  unfold inserts_edge. rewrite !andb_true_iff, !negb_true_iff, Z.eqb_neq, Qle_bool_iff.
  tauto.
Qed.

(** C4: every edge the matcher creates joins two batch entries whose
    platform ids differ. *)
Theorem matcher_edges_join_different_platforms (db : Db.t) (products : list Product.t) :
  exists created,
    Db.new_matches (fst (_find_product_matches db products)) = Db.new_matches db ++ created
    /\ Db.stored (fst (_find_product_matches db products)) = Db.stored db
    /\ forall e, In e created ->
         exists product_a product_b,
           In product_a products /\ In product_b products
           /\ ProductMatch.product_a_id e = Product.id product_a
           /\ ProductMatch.product_b_id e = Product.id product_b
           /\ Product.platform_id product_a <> Product.platform_id product_b.
Proof.
  exists (added_edges db products). rewrite find_product_matches_spec.
  split; [reflexivity|]. split; [reflexivity|].
  intros e He. apply in_added_edges in He.
  destruct He as (a & b & Hin & Hins & ->).
  apply inserts_edge_true in Hins. apply batch_pairs_in in Hin.
  exists a, b. cbn. tauto.
Qed.

(** When an id names one platform throughout the batch, the entries an
    edge refers to are on different platforms, whichever batch entries
    carry the two ids. *)
Lemma matcher_edges_by_id (db : Db.t) (products : list Product.t) (e : ProductMatch.t) :
  (forall x y, In x products -> In y products ->
               Product.id x = Product.id y -> Product.platform_id x = Product.platform_id y) ->
  In e (added_edges db products) ->
  forall p q, In p products -> In q products ->
              Product.id p = ProductMatch.product_a_id e ->
              Product.id q = ProductMatch.product_b_id e ->
              Product.platform_id p <> Product.platform_id q.
Proof.
  intros Hid He p q Hp Hq Hpa Hqb. apply in_added_edges in He.
  destruct He as (a & b & Hin & Hins & ->).
  apply inserts_edge_true in Hins. destruct Hins as (Hplat & _).
  apply batch_pairs_in in Hin. destruct Hin as [Ha Hb].
  cbn in Hpa, Hqb.
  rewrite (Hid p a Hp Ha Hpa), (Hid q b Hq Hb Hqb). exact Hplat.
Qed.

Lemma links_sym (x y : Z) (m : ProductMatch.t) : links x y m = links y x m.
Proof. unfold links. apply orb_comm. Qed.

Lemma links_ids (x y : Z) (m : ProductMatch.t) :
  links x y m = true ->
  forall m', links x y m' = true ->
             links (ProductMatch.product_a_id m') (ProductMatch.product_b_id m') m = true.
Proof.
  unfold links. intros Hm m' Hm'.
  rewrite !orb_true_iff, !andb_true_iff, !Z.eqb_eq in *.
  destruct Hm' as [[-> ->] | [-> ->]]; tauto.
Qed.

Lemma links_edge_of (product_a product_b : Product.t) :
  links (Product.id product_a) (Product.id product_b) (edge_of (product_a, product_b)) = true.
Proof.
  unfold links, edge_of, new_match. cbn. rewrite !Z.eqb_refl. reflexivity.
Qed.

Lemma existsb_links_assign (x y next t0 : Z) (rows : list ProductMatch.t) :
  existsb (links x y) (Db.assign_match_ids next t0 rows) = existsb (links x y) rows.
Proof.
  revert next. induction rows as [|r rows IH]; intros next; cbn [Db.assign_match_ids existsb].
  - reflexivity.
  - rewrite IH. reflexivity.
Qed.

(** A stored edge between two ids, whatever its flags, keeps the matcher
    from adding another edge between them. *)
Lemma stored_edge_blocks_pair (db : Db.t) (products : list Product.t) (x y : Z) :
  existsb (links x y) (Db.product_matches (Db.stored db)) = true ->
  forall e, In e (added_edges db products) -> links x y e = false.
Proof.
  intros Hstored e He. apply in_added_edges in He.
  destruct He as (a & b & _ & Hins & ->).
  apply inserts_edge_true in Hins. destruct Hins as (_ & _ & Hnone).
  destruct (links x y (edge_of (a, b))) eqn:El; [|reflexivity].
  apply existsb_exists in Hstored. destruct Hstored as (m & Hm & Hlm).
  pose proof (links_ids _ _ _ Hlm _ El) as Hx. cbn in Hx.
  assert (Hex : existsb (links (Product.id a) (Product.id b))
                        (Db.product_matches (Db.stored db)) = true).
  { apply existsb_exists. exists m. tauto. }
  congruence.
Qed.

(** [db.flush()] and [db.commit()] both write the pending edges after the
    stored ones and leave nothing pending. *)
Lemma synced_product_matches (sync : Db.t -> Db.t) (db : Db.t) :
  sync = Db.flush \/ sync = Db.commit ->
  Db.new_matches (sync db) = []
  /\ exists next t0,
       Db.product_matches (Db.stored (sync db))
       = Db.product_matches (Db.stored db)
           ++ Db.assign_match_ids next t0 (Db.new_matches db).
Proof.
  intros [-> | ->]; (split; [reflexivity|]); eexists; eexists; reflexivity.
Qed.

(** After a run of the matcher and a flush or a commit, no pair of the
    batch asks for an edge any more. *)
Lemma no_pair_left (sync : Db.t -> Db.t) (db : Db.t) (products : list Product.t)
      (pr : Product.t * Product.t) :
  sync = Db.flush \/ sync = Db.commit ->
  In pr (batch_pairs products) ->
  inserts_edge (sync (fst (_find_product_matches db products))) pr = false.
Proof.
  intros Hsync Hin. destruct pr as [a b].
  destruct (inserts_edge (sync (fst (_find_product_matches db products))) (a, b))
    eqn:Eafter; [|reflexivity].
  apply inserts_edge_true in Eafter. destruct Eafter as (Hplat & Hsim & Hnone).
  destruct (synced_product_matches (fst (_find_product_matches db products)) Hsync)
    as (_ & next & t0 & Hrows).
  rewrite Hrows in Hnone. rewrite find_product_matches_spec in Hnone.
  cbn [fst with_new_matches Db.stored Db.new_matches] in Hnone.
  rewrite existsb_app, existsb_links_assign, existsb_app in Hnone.
  apply orb_false_iff in Hnone. destruct Hnone as [Hstored Hnew].
  apply orb_false_iff in Hnew. destruct Hnew as [_ Hadded].
  assert (Hins : inserts_edge db (a, b) = true).
  { apply inserts_edge_true. tauto. }
  assert (Hedge : existsb (links (Product.id a) (Product.id b)) (added_edges db products)
                  = true).
  { apply existsb_exists. exists (edge_of (a, b)). split.
    - apply in_added_edges. exists a, b. tauto.
    - apply links_edge_of. }
  congruence.
Qed.

(** The existence query, spelled out: an edge is stored between two ids in
    one order or the other. *)
Lemma existsb_links_iff (x y : Z) (rows : list ProductMatch.t) :
  existsb (links x y) rows = true <->
  exists m, In m rows
            /\ ((ProductMatch.product_a_id m = x /\ ProductMatch.product_b_id m = y)
                \/ (ProductMatch.product_a_id m = y /\ ProductMatch.product_b_id m = x)).
Proof.
  rewrite existsb_exists. unfold links.
  split; intros (m & Hm & Hl); exists m; (split; [exact Hm|]);
    rewrite orb_true_iff, !andb_true_iff, !Z.eqb_eq in *; exact Hl.
Qed.

(** C2, as amended: once the edges of a run are flushed or committed, a
    second run of the matcher on the same entries in the same order
    creates no edge: it reports zero matches, leaves nothing to flush and
    leaves the stored edges, which contain every edge stored before the
    first run, as they are. In any run the existence query looks at both
    orders: no edge is created between two ids that a stored edge joins
    already, as (a, b) or as (b, a). *)
Theorem matcher_second_run_adds_nothing
        (sync : Db.t -> Db.t) (db : Db.t) (products : list Product.t) :
  sync = Db.flush \/ sync = Db.commit ->
  let db1 := sync (fst (_find_product_matches db products)) in
  let second := _find_product_matches db1 products in
  (snd second = 0%nat
   /\ Db.new_matches (fst second) = []
   /\ Db.product_matches (Db.stored (fst second)) = Db.product_matches (Db.stored db1)
   /\ (forall m, In m (Db.product_matches (Db.stored db)) ->
                 In m (Db.product_matches (Db.stored (fst second)))))
  /\ exists created,
       Db.new_matches (fst (_find_product_matches db products))
       = Db.new_matches db ++ created
       /\ forall e m,
            In e created -> In m (Db.product_matches (Db.stored db)) ->
            ~ (ProductMatch.product_a_id m = ProductMatch.product_a_id e
               /\ ProductMatch.product_b_id m = ProductMatch.product_b_id e)
            /\ ~ (ProductMatch.product_a_id m = ProductMatch.product_b_id e
                  /\ ProductMatch.product_b_id m = ProductMatch.product_a_id e).
Proof.
  intros Hsync db1 second. split.
  - assert (Hnone : added_edges db1 products = []).
    { unfold added_edges. rewrite filter_none; [reflexivity|].
      intros pr Hin. apply no_pair_left; assumption. }
    destruct (synced_product_matches (fst (_find_product_matches db products)) Hsync)
      as (Hpending & next & t0 & Hrows).
    unfold second. rewrite find_product_matches_spec, Hnone.
    cbn [fst snd List.length with_new_matches Db.new_matches Db.stored].
    split; [reflexivity|].
    split. { rewrite app_nil_r. exact Hpending. }
    split; [reflexivity|].
    intros m Hm. unfold db1.
    rewrite Hrows, find_product_matches_spec. cbn [fst with_new_matches Db.stored].
    apply in_or_app. left. exact Hm.
  - exists (added_edges db products). rewrite find_product_matches_spec.
    split; [reflexivity|].
    intros e m He Hm. apply in_added_edges in He.
    destruct He as (a & b & _ & Hins & ->).
    apply inserts_edge_true in Hins. destruct Hins as (_ & _ & Hnone).
    cbn [edge_of new_match fst snd ProductMatch.product_a_id ProductMatch.product_b_id].
    split; intros [Ha Hb];
      (assert (Hex : existsb (links (Product.id a) (Product.id b))
                             (Db.product_matches (Db.stored db)) = true)
        by (apply existsb_links_iff; exists m; tauto));
      congruence.
Qed.

Lemma calculate_similarity_unfold (product_a product_b : Product.t) :
  _calculate_similarity product_a product_b
  = Qmin (Difflib.ratio (or_empty (Product.normalized_name product_a))
                        (or_empty (Product.normalized_name product_b))
          + code_brand_bonus product_a product_b
          + code_price_bonus product_a product_b) 1.
Proof. reflexivity. Qed.

End MatcherFacts.

Lemma matcher_second_run_witness :
  snd (@_find_product_matches ascii_runtime demo_db [galaxy_pchome; galaxy_momo]) = 1%nat
  /\ snd (@_find_product_matches ascii_runtime
            (Db.commit (fst (@_find_product_matches ascii_runtime demo_db
                               [galaxy_pchome; galaxy_momo])))
            [galaxy_pchome; galaxy_momo]) = 0%nat.
Proof.
  split; [vm_compute; reflexivity|].
  exact (proj1 (proj1 (@matcher_second_run_adds_nothing ascii_runtime Db.commit demo_db
                         [galaxy_pchome; galaxy_momo] (or_intror eq_refl)))).
Defined.

(** C2, as stated, fails twice. Called twice in a row, with no flush in
    between, the matcher adds the edge (1, 2) a second time: its query
    does not see the pending edge. And after a committed run on two
    entries that found nothing, a run on the same two entries in the other
    order adds an edge: the difflib ratio depends on the order of its
    arguments. *)
Lemma matcher_second_run_counterexample :
  (let first := @_find_product_matches ascii_runtime demo_db [galaxy_pchome; galaxy_momo] in
   let second := @_find_product_matches ascii_runtime (fst first)
                   [galaxy_pchome; galaxy_momo] in
   snd first = 1%nat /\ snd second = 1%nat
   /\ map (fun e => (ProductMatch.product_a_id e, ProductMatch.product_b_id e))
          (Db.new_matches (fst second))
      = [(1, 2); (1, 2)]%Z)
  /\ (let first := @_find_product_matches ascii_runtime demo_db [tide_pchome; diet_momo] in
      let second := @_find_product_matches ascii_runtime (Db.commit (fst first))
                      [diet_momo; tide_pchome] in
      snd first = 0%nat /\ snd second = 1%nat
      /\ Db.product_matches (Db.stored (Db.commit (fst first))) = []
      /\ map (fun e => (ProductMatch.product_a_id e, ProductMatch.product_b_id e))
             (Db.new_matches (fst second))
         = [(2, 1)]%Z).
Proof.
  split; cbv zeta.
  - split; [vm_compute; reflexivity|]. split; vm_compute; reflexivity.
  - split; [vm_compute; reflexivity|]. split; [vm_compute; reflexivity|].
    split; vm_compute; reflexivity.
Qed.

(** C10 at the failing input: the batch holds the pchome listing twice and
    a matching momo listing; the run succeeds and leaves two stored edges
    between the entries 1 and 2. *)
Lemma duplicate_batch_stores_two_edges :
  (exists r, snd duplicate_batch_run = Ok r /\ report_products r = [0; 0; 1]%nat)
  /\ map (fun m => (ProductMatch.product_a_id m, ProductMatch.product_b_id m))
         (Db.product_matches (Db.stored (fst duplicate_batch_run)))
     = [(1, 2); (1, 2)]%Z.
Proof.
  split.
  - eexists. split; vm_compute; reflexivity.
  - vm_compute. reflexivity.
Qed.

(** ** The orchestrator *)

Section OrchestratorFacts.
Context `{PyRuntime}.

(** Nothing but [commit] changes what a rollback restores. *)
Lemma process_single_product_committed (self : ETL.t) (db : Db.t) (raw_product : Raw.t) :
  Db.committed (fst (_process_single_product self db raw_product)) = Db.committed db.
Proof.
  unfold _process_single_product.
  set (name := _clean_text (get (Raw.name raw_product) [])).
  generalize (_normalize_name name) as normalized_name.
  generalize (_categorize_product self name) as category.
  intros category normalized_name.
  destruct (negb (Str.truthy name) || (List.length name <? 3)%nat); [reflexivity|].
  destruct (platform_cache_get (ETL.platform_cache self)
              (lower (get (Raw.platform raw_product) []))) as [platform|]; [|reflexivity].
  destruct (_extract_pricing raw_product) as [pd|e]; [|reflexivity].
  destruct (_extract_brand_model name) as [brand model].
  destruct (find_first
              (same_listing (Platform.id platform) (get (Raw.product_id raw_product) []))
              (Db.products (Db.stored db))) as [[pos existing]|].
  - reflexivity.
  - destruct (_calculate_quality_score raw_product) as [quality|e]; reflexivity.
Qed.

Lemma process_products_committed (self : ETL.t) (scraper_results : list Raw.t) :
  forall (db : Db.t) (processed_products : list nat),
    Db.committed (fst (process_products self db scraper_results processed_products))
    = Db.committed db.
Proof.
  induction scraper_results as [|raw_product rest IH]; intros db processed_products.
  - reflexivity.
  - cbn [process_products].
    pose proof (process_single_product_committed self db raw_product) as Hone.
    destruct (_process_single_product self db raw_product) as [db1 [[product|]|e]];
      cbn [fst] in Hone; rewrite IH; exact Hone.
Qed.

Lemma create_scrape_session_committed (self : ETL.t) (db : Db.t) (query : str)
      (results : list Raw.t) :
  Db.committed (fst (_create_scrape_session self db query results)) = Db.committed db.
Proof. reflexivity. Qed.

Lemma find_product_matches_committed (db : Db.t) (products : list Product.t) :
  Db.committed (fst (_find_product_matches db products)) = Db.committed db.
Proof. rewrite find_product_matches_spec. reflexivity. Qed.

(** When the [try] block raises, the committed tables are those of the
    start of the run. *)
Lemma try_block_raises (self : ETL.t) (fails : stage -> bool) (db : Db.t)
      (scraper_results : list Raw.t) (query : str) (e : exn) :
  snd (try_block self fails db scraper_results query) = Err e ->
  e = StoreError
  /\ Db.committed (fst (try_block self fails db scraper_results query)) = Db.committed db.
Proof.
  unfold try_block.
  destruct (fails AtCreateSession); [intros [= <-]; split; reflexivity|].
  pose proof (create_scrape_session_committed self db query scraper_results) as Hcreate.
  destruct (_create_scrape_session self db query scraper_results) as [db1 session].
  cbn [fst] in Hcreate.
  destruct (fails AtBuildCaches); [intros [= <-]; split; [reflexivity | exact Hcreate]|].
  pose proof (process_products_committed (_build_caches self db1) scraper_results db1 [])
    as Hloop.
  destruct (process_products (_build_caches self db1) db1 scraper_results [])
    as [db2 processed_products].
  cbn [fst] in Hloop.
  destruct (fails AtFindMatches);
    [intros [= <-]; split; [reflexivity | cbn [fst]; congruence]|].
  pose proof (find_product_matches_committed db2 (deref db2 processed_products)) as Hmatch.
  destruct (_find_product_matches db2 (deref db2 processed_products)) as [db3 found].
  cbn [fst] in Hmatch.
  cbn [Db.now].
  destruct (fails AtCommit); [|discriminate].
  intros [= <-]. split; [reflexivity|]. cbn [fst Db.with_stored Db.committed]. congruence.
Qed.

Lemma try_block_fails_when_told (self : ETL.t) (fails : stage -> bool) (db : Db.t)
      (scraper_results : list Raw.t) (query : str) :
  (fails AtCreateSession || fails AtBuildCaches || fails AtFindMatches || fails AtCommit)
  = true ->
  snd (try_block self fails db scraper_results query) = Err StoreError.
Proof.
  unfold try_block.
  destruct (fails AtCreateSession); [reflexivity|].
  destruct (_create_scrape_session self db query scraper_results) as [db1 session].
  destruct (fails AtBuildCaches); [reflexivity|].
  destruct (process_products (_build_caches self db1) db1 scraper_results [])
    as [db2 processed_products].
  destruct (fails AtFindMatches); [reflexivity|].
  destruct (_find_product_matches db2 (deref db2 processed_products)) as [db3 found].
  cbn [Db.now].
  destruct (fails AtCommit); [reflexivity|discriminate].
Qed.

(** C9, as amended: when a store operation of the run fails after the
    session record was created, the caller receives the exception and the
    transaction is rolled back: the store holds the committed tables of
    the start of the run, so the session record of the run is discarded
    with the other writes of the run, and nothing is left to flush. *)
Theorem failed_run_is_rolled_back (self : ETL.t) (fails : stage -> bool) (db : Db.t)
        (scraper_results : list Raw.t) (query : str) :
  fails AtCreateSession = false ->
  (fails AtBuildCaches || fails AtFindMatches || fails AtCommit) = true ->
  let run := process_scraper_results self fails db scraper_results query in
  snd run = Err StoreError
  /\ Db.stored (fst run) = Db.committed db
  /\ Db.committed (fst run) = Db.committed db
  /\ Db.scrape_sessions (Db.stored (fst run)) = Db.scrape_sessions (Db.committed db)
  /\ Db.new_history (fst run) = []
  /\ Db.new_matches (fst run) = [].
Proof.
  intros Hcreate Hfail run. unfold run, process_scraper_results.
  assert (Herr : snd (try_block self fails db scraper_results query) = Err StoreError).
  { apply try_block_fails_when_told. rewrite Hcreate. exact Hfail. }
  destruct (try_block_raises _ _ _ _ _ Herr) as [_ Hcommitted].
  destruct (try_block self fails db scraper_results query) as [db' r].
  cbn [fst snd] in *. subst r.
  cbn [fst snd close Db.rollback Db.stored Db.committed Db.new_history Db.new_matches].
  rewrite Hcommitted. repeat split.
Qed.

End OrchestratorFacts.

Lemma failed_run_is_rolled_back_witness :
  snd failed_run = Err StoreError
  /\ Db.stored (fst failed_run) = Db.committed demo_db
  /\ Db.scrape_sessions (Db.stored (fst failed_run)) = Db.scrape_sessions (Db.committed demo_db).
Proof.
  pose proof (@failed_run_is_rolled_back ascii_runtime demo_etl fail_at_commit demo_db
                duplicate_batch (u "iphone") eq_refl eq_refl) as Hx.
  cbv zeta in Hx. destruct Hx as (Herr & Hstored & _ & Hsessions & _).
  exact (conj Herr (conj Hstored Hsessions)).
Defined.

(** C9, as stated, fails: when the final commit fails, the caller gets the
    exception, but no session record marked failed remains; the record of
    the run is gone with the rollback. *)
Lemma failed_run_session_counterexample :
  snd failed_run = Err StoreError
  /\ Db.scrape_sessions (Db.stored (fst failed_run)) = []
  /\ ~ (exists s, In s (Db.scrape_sessions (Db.stored (fst failed_run)))
                  /\ ScrapeSession.status s = Some (u "failed")).
Proof.
  assert (Hnone : Db.scrape_sessions (Db.stored (fst failed_run)) = []).
  { vm_compute. reflexivity. }
  split; [vm_compute; reflexivity|]. split; [exact Hnone|].
  intros (s & Hin & _). rewrite Hnone in Hin. exact Hin.
Qed.

(** ** Validation of a batch *)

Lemma key_eqb_eq (k1 k2 : str * str) : key_eqb k1 k2 = true <-> k1 = k2.
Proof.
  destruct k1 as [a b], k2 as [c d]. unfold key_eqb. cbn [fst snd].
  rewrite andb_true_iff, !StrFacts.eqb_eq. split; [intros [-> ->]; reflexivity|].
  intros [= -> ->]. tauto.
Qed.

Lemma existsb_key_in (k : str * str) (seen : list (str * str)) :
  existsb (key_eqb k) seen = true <-> In k seen.
Proof.
  rewrite existsb_exists. split.
  - intros (x & Hin & Heq). apply key_eqb_eq in Heq. congruence.
  - intros Hin. exists k. split; [exact Hin | now apply key_eqb_eq].
Qed.

Lemma check_duplicates_none (v : list Schema.t) :
  forall seen,
    check_duplicates seen v = None <->
    NoDup (map schema_key v) /\ (forall x, In x v -> ~ In (schema_key x) seen).
Proof.
  induction v as [|product rest IH]; intros seen; cbn [check_duplicates map].
  - split; [intros _|reflexivity]. split; [constructor | intros x []].
  - fold (schema_key product).
    destruct (existsb (key_eqb (schema_key product)) seen) eqn:Eseen.
    + split; [discriminate|]. intros [_ Hfresh]. exfalso.
      apply (Hfresh product (or_introl eq_refl)). now apply existsb_key_in.
    + assert (Hnew : ~ In (schema_key product) seen).
      { intros Hin. apply existsb_key_in in Hin. congruence. }
      rewrite IH. split.
      * intros [Hnodup Hfresh]. split.
        -- constructor; [|exact Hnodup]. intros Hin. apply in_map_iff in Hin.
           destruct Hin as (x & Hkey & Hx). apply (Hfresh x Hx). left. now symmetry.
        -- intros x [<- | Hx]; [exact Hnew|]. intros Hin. apply (Hfresh x Hx). now right.
      * intros [Hnodup Hfresh]. inversion Hnodup as [|k ks Hnotin Hrest]; subst.
        split; [exact Hrest|]. intros x Hx [Heq | Hin].
        -- apply Hnotin. rewrite Heq. apply in_map. exact Hx.
        -- apply (Hfresh x (or_intror Hx)). exact Hin.
Qed.

Lemma check_duplicates_some (v : list Schema.t) :
  forall seen e,
    check_duplicates seen v = Some e ->
    exists product,
      In product v /\ e = DuplicateInBatch (Schema.platform product) (Schema.product_id product).
Proof.
  induction v as [|product rest IH]; intros seen e; cbn [check_duplicates]; [discriminate|].
  destruct (existsb _ seen).
  - intros [= <-]. exists product. split; [now left | reflexivity].
  - intros Hx. destruct (IH _ _ Hx) as (p & Hin & ->). exists p. split; [now right | reflexivity].
Qed.

Section SchemaFacts.
Context `{PyRuntime}.

Lemma validate_from_accepted (products : list Raw.t) :
  forall i, fst (validate_from i products) = flat_map accepted_of products.
Proof.
  induction products as [|product_data rest IH]; intros i; [reflexivity|].
  cbn [validate_from flat_map]. specialize (IH (S i)).
  destruct (validate_from (S i) rest) as [validated_products errors]. cbn [fst] in IH.
  unfold accepted_of at 1.
  destruct (ProductSchema product_data); cbn [fst app]; rewrite IH; reflexivity.
Qed.

(** C5, as amended: [_validate_products] checks every record on its own,
    so it accepts exactly the records that pass [ProductSchema], in order,
    both occurrences of a repeated (platform, product id) included, and a
    refused record does not stop the loop; [validate_product_list] refuses
    the empty batch, returns a batch exactly when it is not empty and its
    keys are pairwise different, then unchanged, and refuses a batch with a
    repeated key as a whole, with the duplicate error for a record of the
    batch. *)
Theorem batch_validation (products : list Raw.t) (v : list Schema.t) :
  fst (_validate_products products) = flat_map accepted_of products
  /\ validate_product_list [] = inr EmptyBatch
  /\ (forall accepted,
        validate_product_list v = inl accepted
        <-> accepted = v /\ v <> [] /\ NoDup (map schema_key v))
  /\ (~ NoDup (map schema_key v) ->
      exists product,
        In product v
        /\ validate_product_list v
           = inr (DuplicateInBatch (Schema.platform product) (Schema.product_id product))).
Proof.
  split; [apply validate_from_accepted|].
  split; [reflexivity|].
  unfold validate_product_list. split.
  - intros accepted. destruct v as [|x rest].
    + split; [discriminate|]. intros (_ & Hne & _). now contradiction Hne.
    + destruct (check_duplicates [] (x :: rest)) as [e|] eqn:Echeck.
      * split; [discriminate|]. intros (_ & _ & Hnodup). exfalso.
        assert (Hnone : check_duplicates [] (x :: rest) = None).
        { apply check_duplicates_none. split; [exact Hnodup | intros ? _ []]. }
        congruence.
      * apply check_duplicates_none in Echeck. destruct Echeck as [Hnodup _].
        split.
        -- intros [= <-]. split; [reflexivity|]. split; [discriminate | exact Hnodup].
        -- intros (-> & _). reflexivity.
  - intros Hdup. destruct v as [|x rest]; [exfalso; apply Hdup; constructor|].
    destruct (check_duplicates [] (x :: rest)) as [e|] eqn:Echeck.
    + destruct (check_duplicates_some _ _ Echeck) as (p & Hin & ->).
      exists p. split; [exact Hin | reflexivity].
    + apply check_duplicates_none in Echeck. tauto.
Qed.

End SchemaFacts.

Lemma repeated_listing_keys :
  ~ NoDup (map schema_key (fst (@_validate_products ascii_runtime repeated_listing_batch))).
Proof.
  intros Hnodup. vm_compute in Hnodup.
  inversion Hnodup as [|k ks Hnotin _]. apply Hnotin. left. reflexivity.
Defined.

Lemma batch_validation_witness :
  exists product,
    In product (fst (@_validate_products ascii_runtime repeated_listing_batch))
    /\ validate_product_list (fst (@_validate_products ascii_runtime repeated_listing_batch))
       = inr (DuplicateInBatch (Schema.platform product) (Schema.product_id product)).
Proof.
  pose proof (@batch_validation ascii_runtime repeated_listing_batch
                (fst (@_validate_products ascii_runtime repeated_listing_batch))) as Hx.
  destruct Hx as (_ & _ & _ & Hdup).
  exact (Hdup repeated_listing_keys).
Defined.

(** C5, as stated, fails on both paths: for a batch holding one listing
    twice with different prices, [_validate_products] accepts the two
    records and reports no error, and [validate_product_list] refuses the
    batch, first occurrence included. *)
Lemma repeated_listing_counterexample :
  map Schema.price (fst (@_validate_products ascii_runtime repeated_listing_batch))
  = [21999; 20999]
  /\ snd (@_validate_products ascii_runtime repeated_listing_batch) = []
  /\ validate_product_list (fst (@_validate_products ascii_runtime repeated_listing_batch))
     = inr (DuplicateInBatch (u "pchome") (u "A1")).
Proof.
  split; [vm_compute; reflexivity|].
  split; vm_compute; reflexivity.
Qed.

(** * Further properties of the pipeline *)

(** ** Invariants of the upsert *)

Lemma touch_dirty_map {A} (f : Product.t -> A) (t0 : Z) (dirty : list nat) (ps : list Product.t) :
  (forall p, f (Db.touch t0 p) = f p) ->
  forall pos, map f (Db.touch_dirty t0 dirty pos ps) = map f ps.
Proof.
  intros Hf. induction ps as [|p ps IH]; intros pos; cbn [Db.touch_dirty map]; [reflexivity|].
  rewrite IH. destruct (existsb (Nat.eqb pos) dirty); [rewrite Hf|]; reflexivity.
Qed.

Lemma update_nth_map {A B} (f : A -> B) (g : A -> A) (l : list A) :
  (forall x, f (g x) = f x) ->
  forall n, map f (update_nth n g l) = map f l.
Proof.
  intros Hf. induction l as [|x l IH]; intros [|n]; cbn [update_nth map];
    try reflexivity.
  - rewrite Hf. reflexivity.
  - rewrite IH. reflexivity.
Qed.

Lemma update_nth_const_map {A B} (f : A -> B) (y : A) (l : list A) (n : nat) (x : A) :
  nth_error l n = Some x -> f y = f x ->
  map f (update_nth n (fun _ => y) l) = map f l.
Proof.
  revert n. induction l as [|z l IH]; intros [|n]; cbn [update_nth map nth_error];
    try discriminate.
  - intros [= ->] Hf. rewrite Hf. reflexivity.
  - intros Hn Hf. rewrite (IH n Hn Hf). reflexivity.
Qed.

Lemma find_first_none_forall {A} (p : A -> bool) (l : list A) :
  find_first p l = None -> forall x, In x l -> p x = false.
Proof.
  intros Hnone x Hin. apply find_first_none_existsb in Hnone.
  destruct (p x) eqn:Ex; [|reflexivity].
  assert (Hex : existsb p l = true) by (apply existsb_exists; exists x; tauto).
  congruence.
Qed.

Lemma NoDup_app_iff_snoc {A} (l : list A) (x : A) :
  NoDup l -> ~ In x l -> NoDup (l ++ [x]).
Proof.
  intros Hl Hx. apply NoDup_rev in Hl. rewrite <- (rev_involutive (l ++ [x])).
  apply NoDup_rev. rewrite rev_app_distr. cbn. constructor; [|exact Hl].
  intros Hin. apply Hx. apply in_rev. exact Hin.
Qed.

Lemma next_id_fresh (ids : list Z) : ~ In (Db.next_id ids) ids.
Proof.
  assert (Hmax : forall i, In i ids -> (i <= fold_right Z.max 0 ids)%Z).
  { induction ids as [|j ids IH]; intros i; cbn [In fold_right]; [tauto|].
    intros [<- | Hin]; [lia|]. specialize (IH i Hin). lia. }
  intros Hin. apply Hmax in Hin. unfold Db.next_id in Hin. lia.
Qed.

Section UpsertInvariants.
Context `{PyRuntime}.

(** The three ways a call of [_process_single_product] can leave the
    products table: untouched with nothing returned, one row rewritten in
    place, or one row appended after the flush. *)
Lemma process_single_product_shape (self : ETL.t) (db : Db.t) (raw_product : Raw.t) :
  let run := _process_single_product self db raw_product in
  (fst run = db /\ (snd run = Ok None \/ exists e, snd run = Err e))
  \/ (exists pos existing product,
         snd run = Ok (Some pos)
         /\ nth_error (Db.products (Db.stored db)) pos = Some existing
         /\ Product.id product = Product.id existing
         /\ listing_key product = listing_key existing
         /\ Product.created_at product = Product.created_at existing
         /\ Db.products (Db.stored (fst run))
            = update_nth pos (fun _ => product) (Db.products (Db.stored db)))
  \/ (exists product t0,
         snd run = Ok (Some (List.length (Db.products (Db.stored db))))
         /\ (forall p, In p (Db.products (Db.stored db)) ->
                       listing_key p <> listing_key product)
         /\ Product.id product
            = Db.next_id (map Product.id (Db.products (Db.stored db)))
         /\ Product.scrape_count product = Some 1%Z
         /\ Db.products (Db.stored (fst run))
            = Db.touch_dirty t0 (Db.dirty db) 0 (Db.products (Db.stored db)) ++ [product]).
Proof.
  unfold _process_single_product.
  set (name := _clean_text (get (Raw.name raw_product) [])).
  generalize (_normalize_name name) as normalized_name.
  generalize (_categorize_product self name) as category.
  intros category normalized_name.
  destruct (negb (Str.truthy name) || (List.length name <? 3)%nat);
    [left; cbn; auto|].
  destruct (platform_cache_get (ETL.platform_cache self)
              (lower (get (Raw.platform raw_product) []))) as [platform|];
    [|left; cbn; auto].
  destruct (_extract_pricing raw_product) as [pd|e]; [|left; cbn; eauto].
  destruct (_extract_brand_model name) as [brand model].
  destruct (find_first
              (same_listing (Platform.id platform) (get (Raw.product_id raw_product) []))
              (Db.products (Db.stored db))) as [[pos existing]|] eqn:Efind.
  - right. left. destruct (find_first_some _ _ Efind) as (Hnth & _ & _).
    cbn.
    exists pos, existing,
      (update_existing name normalized_name pd raw_product (Db.clock db) existing).
    repeat split. exact Hnth.
  - destruct (_calculate_quality_score raw_product) as [quality|e]; [|left; cbn; eauto].
    right. right. cbn. eexists _, _.
    refine (conj _ (conj _ (conj _ (conj _ _)))); cycle 4.
    { reflexivity. }
    { rewrite touch_dirty_length. reflexivity. }
    { intros p Hp Hkey. pose proof (find_first_none_forall _ _ Efind p Hp) as Hfalse.
      unfold same_listing in Hfalse. unfold listing_key in Hkey. cbn in Hkey.
      injection Hkey as Hpid Hppid. rewrite Hpid, Hppid, Z.eqb_refl, StrFacts.eqb_refl in Hfalse.
      discriminate. }
    { cbn. rewrite (touch_dirty_map Product.id); reflexivity. }
    { reflexivity. }
Qed.
Lemma touch_dirty_nth (t0 : Z) (dirty : list nat) (ps : list Product.t) :
  forall pos i p,
    nth_error ps i = Some p ->
    exists p', nth_error (Db.touch_dirty t0 dirty pos ps) i = Some p'
               /\ (p' = p \/ p' = Db.touch t0 p).
Proof.
  induction ps as [|x ps IH]; intros pos [|i] p; cbn [nth_error Db.touch_dirty];
    try discriminate.
  - intros [= ->]. destruct (existsb (Nat.eqb pos) dirty); eexists; split; eauto.
  - intros Hn. apply IH. exact Hn.
Qed.

(** X1: a record that is not stored, because [_process_single_product]
    returns [None] or raises, leaves the session exactly as it was. *)
Theorem rejected_record_changes_nothing (self : ETL.t) (db : Db.t) (raw_product : Raw.t) :
  (snd (_process_single_product self db raw_product) = Ok None
   \/ exists e, snd (_process_single_product self db raw_product) = Err e) ->
  fst (_process_single_product self db raw_product) = db.
Proof.
  intros Hout.
  destruct (process_single_product_shape self db raw_product)
    as [[Hsame _] | [(pos & existing & product & Hret & _) | (product & t0 & Hret & _)]].
  - exact Hsame.
  - rewrite Hret in Hout. destruct Hout as [Hx | [e Hx]]; discriminate.
  - rewrite Hret in Hout. destruct Hout as [Hx | [e Hx]]; discriminate.
Qed.

Lemma process_single_product_keys (self : ETL.t) (db : Db.t) (raw_product : Raw.t) :
  NoDup (map listing_key (Db.products (Db.stored db))) ->
  NoDup (map listing_key
             (Db.products (Db.stored (fst (_process_single_product self db raw_product))))).
Proof.
  intros Hnodup.
  destruct (process_single_product_shape self db raw_product)
    as [[Hsame _] | [(pos & existing & product & _ & Hnth & _ & Hkey & _ & Hrows)
                    | (product & t0 & _ & Hfresh & _ & _ & Hrows)]].
  - rewrite Hsame. exact Hnodup.
  - rewrite Hrows, (update_nth_const_map listing_key _ _ _ Hnth Hkey). exact Hnodup.
  - rewrite Hrows, map_app, (touch_dirty_map listing_key) by reflexivity.
    cbn [map]. apply NoDup_app_iff_snoc; [exact Hnodup|].
    intros Hin. apply in_map_iff in Hin. destruct Hin as (p & Hkey & Hp).
    exact (Hfresh p Hp Hkey).
Qed.

Lemma process_single_product_ids (self : ETL.t) (db : Db.t) (raw_product : Raw.t) :
  NoDup (map Product.id (Db.products (Db.stored db))) ->
  NoDup (map Product.id
             (Db.products (Db.stored (fst (_process_single_product self db raw_product))))).
Proof.
  intros Hnodup.
  destruct (process_single_product_shape self db raw_product)
    as [[Hsame _] | [(pos & existing & product & _ & Hnth & Hid & _ & _ & Hrows)
                    | (product & t0 & _ & _ & Hid & _ & Hrows)]].
  - rewrite Hsame. exact Hnodup.
  - rewrite Hrows, (update_nth_const_map Product.id _ _ _ Hnth Hid). exact Hnodup.
  - rewrite Hrows, map_app, (touch_dirty_map Product.id) by reflexivity.
    cbn [map]. apply NoDup_app_iff_snoc; [exact Hnodup|].
    rewrite Hid. apply next_id_fresh.
Qed.

Lemma process_single_product_rows (self : ETL.t) (db : Db.t) (raw_product : Raw.t) :
  let before := Db.products (Db.stored db) in
  let after := Db.products (Db.stored (fst (_process_single_product self db raw_product))) in
  (List.length after = List.length before \/ List.length after = S (List.length before))
  /\ forall i p,
       nth_error before i = Some p ->
       exists p',
         nth_error after i = Some p'
         /\ Product.id p' = Product.id p
         /\ listing_key p' = listing_key p
         /\ Product.created_at p' = Product.created_at p.
Proof.
  cbv zeta.
  destruct (process_single_product_shape self db raw_product)
    as [[Hsame _] | [(pos & existing & product & _ & Hnth & Hid & Hkey & Hcreated & Hrows)
                    | (product & t0 & _ & _ & _ & _ & Hrows)]].
  - rewrite Hsame. split; [now left|]. intros i p Hp. exists p. auto.
  - rewrite Hrows. split; [left; apply update_nth_length|].
    intros i p Hp. destruct (Nat.eq_dec pos i) as [<- | Hne].
    + exists product. rewrite (nth_error_update_nth _ (fun _ => product) _ Hnth).
      rewrite Hnth in Hp. injection Hp as <-. auto.
    + exists p. rewrite (nth_error_update_nth_other _ _ Hne). auto.
  - rewrite Hrows. split.
    { right. rewrite length_app, touch_dirty_length. cbn. lia. }
    intros i p Hp.
    destruct (touch_dirty_nth t0 (Db.dirty db) _ 0 i Hp) as (p' & Hp' & Hcase).
    exists p'. split.
    { rewrite nth_error_app1; [exact Hp'|].
      rewrite touch_dirty_length. apply nth_error_Some. congruence. }
    destruct Hcase as [-> | ->]; auto.
Qed.

Lemma process_single_product_ref (self : ETL.t) (db : Db.t) (raw_product : Raw.t)
      (pos : nat) :
  snd (_process_single_product self db raw_product) = Ok (Some pos) ->
  (pos < List.length
           (Db.products (Db.stored (fst (_process_single_product self db raw_product)))))%nat.
Proof.
  intros Hret.
  destruct (process_single_product_shape self db raw_product)
    as [[_ [Hx | [e Hx]]] | [(pos' & existing & product & Hret' & Hnth & _ & _ & _ & Hrows)
                    | (product & t0 & Hret' & _ & _ & _ & Hrows)]];
    try congruence.
  - rewrite Hrows, update_nth_length. rewrite Hret in Hret'. injection Hret' as <-.
    apply nth_error_Some. congruence.
  - rewrite Hrows, length_app, touch_dirty_length. rewrite Hret in Hret'.
    injection Hret' as ->. cbn. lia.
Qed.

(** X2: the upsert keeps the catalog invariant: when no two stored
    products share (platform id, platform product id), the same holds
    after any call of [_process_single_product]. *)
Theorem upsert_keeps_listings_unique (self : ETL.t) (db : Db.t) (raw_product : Raw.t) :
  NoDup (map listing_key (Db.products (Db.stored db))) ->
  NoDup (map listing_key
             (Db.products (Db.stored (fst (_process_single_product self db raw_product))))).
Proof. apply process_single_product_keys. Qed.

(** X3: the upsert keeps the primary key: when the stored product ids are
    pairwise different they stay so, an inserted product receiving an id
    no stored product has. *)
Theorem upsert_keeps_ids_unique (self : ETL.t) (db : Db.t) (raw_product : Raw.t) :
  NoDup (map Product.id (Db.products (Db.stored db))) ->
  NoDup (map Product.id
             (Db.products (Db.stored (fst (_process_single_product self db raw_product))))).
Proof. apply process_single_product_ids. Qed.

(** X4: the upsert never deletes or moves a product: the table keeps its
    length or grows by one row, and every row stored before is still at
    its position with the same id, the same listing key and the same
    created-at. *)
Theorem upsert_is_append_only (self : ETL.t) (db : Db.t) (raw_product : Raw.t) :
  let before := Db.products (Db.stored db) in
  let after := Db.products (Db.stored (fst (_process_single_product self db raw_product))) in
  (List.length after = List.length before \/ List.length after = S (List.length before))
  /\ forall i p,
       nth_error before i = Some p ->
       exists p',
         nth_error after i = Some p'
         /\ Product.id p' = Product.id p
         /\ listing_key p' = listing_key p
         /\ Product.created_at p' = Product.created_at p.
Proof. apply process_single_product_rows. Qed.

(** X5: the loop over the batch only hands out references to stored
    products, at most one per record, after the references it was given;
    and it keeps the listing keys and the ids of the products table
    pairwise different. *)
Theorem process_products_invariants (self : ETL.t) (scraper_results : list Raw.t) :
  forall (db : Db.t) (processed_products : list nat),
    let run := process_products self db scraper_results processed_products in
    (valid_refs db processed_products -> valid_refs (fst run) (snd run))
    /\ (exists added, snd run = processed_products ++ added
                      /\ (List.length added <= List.length scraper_results)%nat)
    /\ (NoDup (map listing_key (Db.products (Db.stored db))) ->
        NoDup (map listing_key (Db.products (Db.stored (fst run)))))
    /\ (NoDup (map Product.id (Db.products (Db.stored db))) ->
        NoDup (map Product.id (Db.products (Db.stored (fst run))))).
Proof.
  induction scraper_results as [|raw_product rest IH]; intros db processed_products; cbv zeta.
  - cbn [process_products fst snd]. split; [auto|]. split; [|auto].
    exists []. rewrite app_nil_r. split; [reflexivity | cbn; lia].
  - cbn [process_products].
    pose proof (process_single_product_keys self db raw_product) as Hkeys.
    pose proof (process_single_product_ids self db raw_product) as Hids.
    pose proof (process_single_product_rows self db raw_product) as Happend.
    pose proof (process_single_product_ref self db raw_product) as Href.
    cbv zeta in Happend. destruct Happend as [Hlen _].
    destruct (_process_single_product self db raw_product) as [db1 r].
    cbn [fst snd] in *.
    assert (Hkeep : forall refs, valid_refs db refs -> valid_refs db1 refs).
    { intros refs Hv. unfold valid_refs in *. rewrite Forall_forall in *.
      intros pos Hpos. specialize (Hv pos Hpos). destruct Hlen as [-> | ->]; lia. }
    destruct r as [[product|]|e].
    + specialize (IH db1 (processed_products ++ [product])). cbv zeta in IH.
      destruct IH as (IHv & (added & Hadded & Hcount) & IHk & IHi).
      split.
      { intros Hv. apply IHv. apply Forall_app. split; [apply Hkeep; exact Hv|].
        constructor; [|constructor]. apply Href. reflexivity. }
      split.
      { exists (product :: added). rewrite Hadded, <- app_assoc. split; [reflexivity|].
        cbn. lia. }
      split; auto.
    + specialize (IH db1 processed_products). cbv zeta in IH.
      destruct IH as (IHv & (added & Hadded & Hcount) & IHk & IHi).
      split; [auto|]. split; [|split; auto].
      exists added. split; [exact Hadded | cbn; lia].
    + specialize (IH db1 processed_products). cbv zeta in IH.
      destruct IH as (IHv & (added & Hadded & Hcount) & IHk & IHi).
      split; [auto|]. split; [|split; auto].
      exists added. split; [exact Hadded | cbn; lia].
Qed.
End UpsertInvariants.

Lemma rejected_record_changes_nothing_witness :
  fst (@_process_single_product ascii_runtime demo_etl demo_db raw_null_price) = demo_db.
Proof.
  apply (@rejected_record_changes_nothing ascii_runtime demo_etl demo_db raw_null_price).
  right. exists TypeError. vm_compute. reflexivity.
Defined.

Lemma one_listing_stored :
  NoDup (map listing_key (Db.products (Db.stored (fst first_observation))))
  /\ NoDup (map Product.id (Db.products (Db.stored (fst first_observation)))).
Proof.
  split; vm_compute; (constructor; [intros [] | constructor]).
Defined.

Lemma upsert_keeps_listings_unique_witness :
  NoDup (map listing_key
             (Db.products
                (Db.stored (fst (@_process_single_product ascii_runtime demo_etl
                                   (fst first_observation) raw_other_platform))))).
Proof.
  exact (@upsert_keeps_listings_unique ascii_runtime demo_etl (fst first_observation)
           raw_other_platform (proj1 one_listing_stored)).
Defined.

Lemma upsert_keeps_ids_unique_witness :
  NoDup (map Product.id
             (Db.products
                (Db.stored (fst (@_process_single_product ascii_runtime demo_etl
                                   (fst first_observation) raw_other_platform))))).
Proof.
  exact (@upsert_keeps_ids_unique ascii_runtime demo_etl (fst first_observation)
           raw_other_platform (proj2 one_listing_stored)).
Defined.

(** ** Text helpers *)

Lemma contains_tail (c : N) (p s : str) :
  Str.contains (c :: p) s = true -> Str.contains p s = true.
Proof.
  induction s as [|d s IH]; cbn [Str.contains Str.startswith].
  - rewrite orb_false_r. discriminate.
  - intros Hx. apply orb_true_iff in Hx. destruct Hx as [Hhead | Htail].
    + apply andb_true_iff in Hhead. destruct Hhead as [_ Hp].
      apply orb_true_iff. right.
      destruct s as [|e s]; cbn [Str.contains] in *; rewrite Hp; reflexivity.
    + apply orb_true_iff. right. apply IH. exact Htail.
Qed.

Lemma Forall_firstn {A} (P : A -> Prop) (n : nat) (l : list A) :
  Forall P l -> Forall P (firstn n l).
Proof.
  intros Hl. revert n. induction Hl as [|x l Hx Hl IH]; intros [|n]; cbn; constructor; auto.
Qed.

Section TextFacts.
Context `{PyRuntime}.

(** X6: the cleaned text fits the 500-character name column and holds
    only code points of the allow-list of [_clean_text]: word characters,
    whitespace, U+4E00..U+9FFF and - ( ) [ ] /. *)
Theorem clean_text_bounded (text : str) :
  (List.length (_clean_text text) <= 500)%nat
  /\ Forall (fun c => clean_keep c = true) (_clean_text text).
Proof.
  unfold _clean_text. destruct (negb (Str.truthy text)).
  - split; [cbn; lia | constructor].
  - unfold Str.take. split.
    + rewrite length_firstn. lia.
    + apply Forall_firstn. apply Forall_forall. intros c Hc.
      apply filter_In in Hc. tauto.
Qed.

Lemma running_shoes_first_category (name : str) :
  Str.contains (u "跑鞋") (lower name) = true ->
  first_category name = Some (u "Electronics")
  \/ first_category name = Some (u "Fashion").
Proof.
  intros Hrun.
  assert (Hshoe : Str.contains (u "鞋") (lower name) = true).
  { change (u "跑鞋") with (36305%N :: u "鞋") in Hrun. exact (contains_tail _ _ _ Hrun). }
  unfold first_category, category_keywords.
  set (s := lower name) in *.
  cbn [find snd].
  destruct (existsb (fun keyword => Str.contains keyword s) _) eqn:Eelectronics.
  - left. reflexivity.
  - right.
    replace (existsb (fun keyword => Str.contains keyword s)
               [u "運動鞋"; u "鞋"; u "包包"; u "手錶"; u "衣服"; u "褲子"; u "牛仔褲"; u "外套"])
      with true; [reflexivity|].
    symmetry. apply existsb_exists. exists (u "鞋"). split; [|exact Hshoe].
    right. left. reflexivity.
Qed.

(** X7: the keyword for running shoes of the Sports category is dead: a
    name that contains it also contains the shoe keyword of Fashion, which
    comes first, so [_categorize_product] answers with the cache entry of
    Electronics or of Fashion and never with the one of Sports. *)
Theorem running_shoes_never_sports (self : ETL.t) (name : str) :
  Str.contains (u "跑鞋") (lower name) = true ->
  _categorize_product self name
    = category_cache_get (ETL.category_cache self) (u "Electronics")
  \/ _categorize_product self name
     = category_cache_get (ETL.category_cache self) (u "Fashion").
Proof.
  intros Hrun. unfold _categorize_product.
  destruct (running_shoes_first_category name Hrun) as [-> | ->]; [left | right]; reflexivity.
Qed.

End TextFacts.

(** X8: the quality score is a value between 0 and 1 whenever the raw
    price is missing or a number, and the check raises [TypeError] when
    the raw price is [None] or a string. *)
Theorem quality_score_range (raw_product : Raw.t) :
  (forall q, get (Raw.price raw_product) (VNum 0) = VNum q ->
             exists score, _calculate_quality_score raw_product = Ok score
                           /\ 0 <= score /\ score <= 1)
  /\ ((get (Raw.price raw_product) (VNum 0) = VNone
       \/ exists s, get (Raw.price raw_product) (VNum 0) = VStr s) ->
      _calculate_quality_score raw_product = Err TypeError).
Proof.
  unfold _calculate_quality_score, rbind. split.
  - intros q ->. cbn [py_gt0].
    destruct (match Raw.name raw_product with
              | Some n => Str.truthy n && (5 <? List.length n)%nat
              | None => false
              end);
      destruct (Qltb 0 q);
      destruct (truthy_opt (Raw.url raw_product));
      destruct (truthy_opt (Raw.image_url raw_product));
      destruct (truthy_opt (Raw.brand raw_product));
      destruct (truthy_opt (Raw.description raw_product));
      (eexists; split; [reflexivity|]; split; vm_compute; discriminate).
  - intros [-> | [s ->]]; reflexivity.
Qed.

Lemma running_shoes_never_sports_witness :
  @_categorize_product ascii_runtime demo_etl (u "Nike 跑鞋 Air")
    = category_cache_get (ETL.category_cache demo_etl) (u "Electronics")
  \/ @_categorize_product ascii_runtime demo_etl (u "Nike 跑鞋 Air")
     = category_cache_get (ETL.category_cache demo_etl) (u "Fashion").
Proof.
  apply (@running_shoes_never_sports ascii_runtime demo_etl (u "Nike 跑鞋 Air")).
  vm_compute. reflexivity.
Defined.

(** ** The record schema *)

Section RecordSchemaFacts.
Context `{PyRuntime}.

Lemma price_in_range_bounds (v : Q) :
  price_in_range v = true <-> 0 <= v /\ v <= 10000000.
Proof.
  unfold price_in_range. rewrite andb_true_iff, !Qle_bool_iff. tauto.
Qed.

(** X9: a record [ProductSchema] accepts has a platform of the allowed
    list (in lower case), a product id that is not empty, a price and, if
    any, an original price between 0 and 10,000,000, a url that starts
    with http:// or https://, a brand of at most 100 and a raw
    description of at most 2000 code points. *)
Theorem accepted_record_constraints (product_data : Raw.t) (v : Schema.t) :
  ProductSchema product_data = inl v ->
  In (Schema.platform v) allowed_platforms
  /\ Schema.product_id v <> []
  /\ (0 <= Schema.price v /\ Schema.price v <= 10000000)
  /\ (forall o, Schema.original_price v = Some o -> 0 <= o /\ o <= 10000000)
  /\ (Str.startswith (u "http://") (Schema.url v) = true
      \/ Str.startswith (u "https://") (Schema.url v) = true)
  /\ (forall b, Schema.brand v = Some b -> (List.length b <= 100)%nat)
  /\ (forall d, Raw.description product_data = Some d -> (List.length d <= 2000)%nat).
Proof.
  unfold ProductSchema.
  destruct (validate_platform (Raw.platform product_data)) as [platform|] eqn:Eplatform;
    [|discriminate].
  destruct (validate_product_id (Raw.product_id product_data)) as [product_id|] eqn:Eid;
    [|discriminate].
  destruct (validate_name (Raw.name product_data)) as [name|] eqn:Ename; [|discriminate].
  destruct (validate_price (Raw.price product_data)) as [price|] eqn:Eprice; [|discriminate].
  destruct (validate_original_price (Raw.original_price product_data))
    as [original_price|] eqn:Eoriginal; [|discriminate].
  destruct (validate_url (Raw.url product_data)) as [url|] eqn:Eurl; [|discriminate].
  destruct (validate_max_length 100 (Raw.brand product_data)) as [brand|] eqn:Ebrand;
    [|discriminate].
  destruct (validate_max_length 2000 (Raw.description product_data))
    as [description|] eqn:Edescription; [|discriminate].
  intros [= <-]. cbn [Schema.platform Schema.product_id Schema.price Schema.original_price
                      Schema.url Schema.brand].
  split.
  { unfold validate_platform in Eplatform.
    destruct (Raw.platform product_data) as [p|]; [|discriminate].
    destruct (existsb (Str.eqb (lower p)) allowed_platforms) eqn:Eallowed; [|discriminate].
    injection Eplatform as <-. apply existsb_exists in Eallowed.
    destruct Eallowed as (x & Hin & Heq). apply StrFacts.eqb_eq in Heq. congruence. }
  split.
  { unfold validate_product_id in Eid.
    destruct (Raw.product_id product_data) as [p|]; [|discriminate].
    destruct (1 <=? List.length p)%nat eqn:Elen; [|discriminate].
    injection Eid as <-. intros ->. discriminate. }
  split.
  { unfold validate_price in Eprice.
    destruct (Raw.price product_data) as [p|]; [|discriminate].
    destruct (py_float p) as [q|]; [|discriminate].
    destruct (price_in_range q) eqn:Erange; [|discriminate].
    injection Eprice as <-. apply price_in_range_bounds. exact Erange. }
  split.
  { intros o ->. unfold validate_original_price in Eoriginal.
    destruct (Raw.original_price product_data) as [p|]; [|discriminate].
    destruct p as [|q|s]; [discriminate| |].
    - cbn [py_float] in Eoriginal.
      destruct (price_in_range q) eqn:Erange; [|discriminate].
      injection Eoriginal as <-. apply price_in_range_bounds. exact Erange.
    - destruct (py_float (VStr s)) as [q|]; [|discriminate].
      destruct (price_in_range q) eqn:Erange; [|discriminate].
      injection Eoriginal as <-. apply price_in_range_bounds. exact Erange. }
  split.
  { unfold validate_url in Eurl.
    destruct (Raw.url product_data) as [p|]; [|discriminate].
    destruct (Str.startswith (u "http://") p || Str.startswith (u "https://") p) eqn:Escheme;
      cbn [negb] in Eurl; [|discriminate].
    destruct (negb (url_pattern_match p)); [discriminate|].
    injection Eurl as <-. apply orb_true_iff. exact Escheme. }
  split.
  { intros b ->. unfold validate_max_length in Ebrand.
    destruct (Raw.brand product_data) as [p|]; [|discriminate].
    destruct (List.length p <=? 100)%nat eqn:Elen; [|discriminate].
    injection Ebrand as <-. apply Nat.leb_le. exact Elen. }
  { intros d Hd. unfold validate_max_length in Edescription. rewrite Hd in Edescription.
    destruct (List.length d <=? 2000)%nat eqn:Elen; [|discriminate].
    apply Nat.leb_le. exact Elen. }
Qed.


Lemma validate_from_errors (products : list Raw.t) :
  forall i,
    (List.length (fst (validate_from i products))
     + List.length (snd (validate_from i products)) = List.length products)%nat
    /\ forall n e, In (n, e) (snd (validate_from i products)) ->
                   (i < n <= i + List.length products)%nat
                   /\ exists product_data,
                        nth_error products (n - i - 1) = Some product_data
                        /\ ProductSchema product_data = inr e.
Proof.
  induction products as [|product_data rest IH]; intros i.
  - cbn. split; [reflexivity | intros n e []].
  - cbn [validate_from]. specialize (IH (S i)).
    destruct (validate_from (S i) rest) as [validated_products errors].
    cbn [fst snd] in IH. destruct IH as [Hcount Herrors].
    destruct (ProductSchema product_data) as [validated_product|e0] eqn:Eschema;
      cbn [fst snd List.length].
    + split; [lia|]. intros n e Hin. destruct (Herrors n e Hin) as (Hn & p & Hp & He).
      split; [lia|]. exists p. split; [|exact He].
      replace (n - i - 1)%nat with (S (n - S i - 1)) by lia. exact Hp.
    + split; [lia|]. intros n e [[= <- <-] | Hin].
      * split; [lia|]. exists product_data.
        replace (S i - i - 1)%nat with 0%nat by lia. split; [reflexivity | exact Eschema].
      * destruct (Herrors n e Hin) as (Hn & p & Hp & He).
        split; [lia|]. exists p. split; [|exact He].
        replace (n - i - 1)%nat with (S (n - S i - 1)) by lia. exact Hp.
Qed.

(** X11: [_validate_products] accounts for every record exactly once: the
    accepted records and the error entries add up to the batch, and an
    error entry numbered n carries the violations of the n-th record,
    counted from 1. *)
Theorem validate_products_accounts_for_all (products : list Raw.t) :
  (List.length (fst (_validate_products products))
   + List.length (snd (_validate_products products)) = List.length products)%nat
  /\ forall n e, In (n, e) (snd (_validate_products products)) ->
                 (1 <= n <= List.length products)%nat
                 /\ exists product_data,
                      nth_error products (n - 1) = Some product_data
                      /\ ProductSchema product_data = inr e.
Proof.
  unfold _validate_products.
  destruct (validate_from_errors products 0) as [Hcount Herrors].
  split; [exact Hcount|]. intros n e Hin.
  destruct (Herrors n e Hin) as (Hn & p & Hp & He).
  split; [lia|]. exists p. split; [|exact He].
  replace (n - 1)%nat with (n - 0 - 1)%nat by lia. exact Hp.
Qed.

End RecordSchemaFacts.

Lemma accepted_record_constraints_witness :
  exists v,
    @ProductSchema ascii_runtime raw_again = inl v
    /\ In (Schema.platform v) allowed_platforms
    /\ 0 <= Schema.price v.
Proof.
  assert (Hrun : exists v, @ProductSchema ascii_runtime raw_again = inl v).
  { eexists. vm_compute. reflexivity. }
  destruct Hrun as [v Hv]. exists v. split; [exact Hv|].
  destruct (@accepted_record_constraints ascii_runtime raw_again v Hv)
    as (Hplatform & _ & (Hprice & _) & _).
  exact (conj Hplatform Hprice).
Defined.


(** ** The matcher *)

Section MatcherBounds.
Context `{PyRuntime}.

Lemma brand_bonus_upper (product_a product_b : Product.t) :
  code_brand_bonus product_a product_b <= 3 # 10
  /\ (Str.truthy (or_empty (Product.brand product_a)) = false
      \/ Str.truthy (or_empty (Product.brand product_b)) = false ->
      code_brand_bonus product_a product_b = 0).
Proof.
  unfold code_brand_bonus, or_empty.
  destruct (Product.brand product_a) as [brand_a|];
    destruct (Product.brand product_b) as [brand_b|];
    try (split; [lra | reflexivity]).
  destruct (Str.truthy brand_a) eqn:Ea; destruct (Str.truthy brand_b) eqn:Eb;
    cbn [andb]; try (split; [lra | reflexivity]).
  split.
  - destruct (Str.eqb (lower brand_a) (lower brand_b)); lra.
  - intros [Hx | Hx]; discriminate.
Qed.

Lemma price_bonus_upper (product_a product_b : Product.t) :
  code_price_bonus product_a product_b <= 1 # 10.
Proof.
  unfold code_price_bonus.
  destruct (price_truthy (Product.current_price product_a)) as [price_a|]; [|lra].
  destruct (price_truthy (Product.current_price product_b)) as [price_b|]; [|lra].
  destruct (Qltb 0 (Qmax price_a price_b)); [|lra].
  destruct (Qltb (7 # 10) (1 - Qabs (price_a - price_b) / Qmax price_a price_b)); lra.
Qed.

Lemma similarity_needs_names (product_a product_b : Product.t) :
  7 # 10 <= _calculate_similarity product_a product_b ->
  let name_sim := Difflib.ratio (or_empty (Product.normalized_name product_a))
                                (or_empty (Product.normalized_name product_b)) in
  3 # 10 <= name_sim
  /\ (Str.truthy (or_empty (Product.brand product_a)) = false
      \/ Str.truthy (or_empty (Product.brand product_b)) = false ->
      6 # 10 <= name_sim).
Proof.
  rewrite calculate_similarity_unfold. cbv zeta.
  set (name_sim := Difflib.ratio _ _).
  intros Hsim.
  destruct (brand_bonus_upper product_a product_b) as [Hbrand Hnone].
  pose proof (price_bonus_upper product_a product_b) as Hprice.
  assert (Htotal : 7 # 10 <= name_sim + code_brand_bonus product_a product_b
                             + code_price_bonus product_a product_b).
  { destruct (Q.min_spec (name_sim + code_brand_bonus product_a product_b
                          + code_price_bonus product_a product_b) 1) as [[Hlt Hmin] | [Hle Hmin]];
      rewrite Hmin in Hsim; lra. }
  split; [lra|].
  intros Hbrandless. rewrite (Hnone Hbrandless) in Htotal. lra.
Qed.

(** X12: the bonuses alone never link two entries: for every edge the
    matcher adds, the normalized names of the two entries have a difflib
    ratio of at least 0.3, and of at least 0.6 when one of the two has no
    brand (absent or empty). *)
Theorem matched_names_are_similar (db : Db.t) (products : list Product.t) :
  exists created,
    Db.new_matches (fst (_find_product_matches db products)) = Db.new_matches db ++ created
    /\ forall e, In e created ->
         exists product_a product_b,
           In product_a products /\ In product_b products
           /\ ProductMatch.product_a_id e = Product.id product_a
           /\ ProductMatch.product_b_id e = Product.id product_b
           /\ 3 # 10 <= Difflib.ratio (or_empty (Product.normalized_name product_a))
                                      (or_empty (Product.normalized_name product_b))
           /\ (Str.truthy (or_empty (Product.brand product_a)) = false
               \/ Str.truthy (or_empty (Product.brand product_b)) = false ->
               6 # 10 <= Difflib.ratio (or_empty (Product.normalized_name product_a))
                                       (or_empty (Product.normalized_name product_b))).
Proof.
  exists (added_edges db products). rewrite find_product_matches_spec.
  split; [reflexivity|].
  intros e He. apply in_added_edges in He.
  destruct He as (a & b & Hin & Hins & ->).
  apply inserts_edge_true in Hins. destruct Hins as (_ & Hsim & _).
  apply batch_pairs_in in Hin. destruct Hin as [Ha Hb].
  destruct (similarity_needs_names a b Hsim) as [Hname Hbrandless].
  exists a, b. cbn [edge_of new_match fst snd ProductMatch.product_a_id
                     ProductMatch.product_b_id].
  repeat (split; [first [assumption | reflexivity]|]). exact Hbrandless.
Qed.

(** X13: the matcher never links a product to itself, and the two ends of
    an edge are entries of the batch: when entries of the batch with the
    same id are on the same platform, as the rows of one products table
    are, every edge it adds joins two different ids. *)
Theorem matcher_adds_no_self_loop (db : Db.t) (products : list Product.t) :
  (forall x y, In x products -> In y products ->
               Product.id x = Product.id y -> Product.platform_id x = Product.platform_id y) ->
  exists created,
    Db.new_matches (fst (_find_product_matches db products)) = Db.new_matches db ++ created
    /\ snd (_find_product_matches db products) = List.length created
    /\ forall e, In e created ->
         ProductMatch.product_a_id e <> ProductMatch.product_b_id e
         /\ In (ProductMatch.product_a_id e) (map Product.id products)
         /\ In (ProductMatch.product_b_id e) (map Product.id products).
Proof.
  intros Hid.
  exists (added_edges db products). rewrite find_product_matches_spec.
  split; [reflexivity|]. split; [reflexivity|].
  intros e He. apply in_added_edges in He.
  destruct He as (a & b & Hin & Hins & ->).
  apply inserts_edge_true in Hins. destruct Hins as (Hplat & _ & _).
  apply batch_pairs_in in Hin. destruct Hin as [Ha Hb].
  cbn [edge_of new_match fst snd ProductMatch.product_a_id ProductMatch.product_b_id].
  split; [|split; apply in_map; assumption].
  intros Heq. apply Hplat. apply Hid; assumption.
Qed.

End MatcherBounds.

Lemma matcher_adds_no_self_loop_witness :
  exists created,
    Db.new_matches (fst (@_find_product_matches ascii_runtime demo_db
                           [galaxy_pchome; galaxy_momo]))
    = Db.new_matches demo_db ++ created
    /\ snd (@_find_product_matches ascii_runtime demo_db [galaxy_pchome; galaxy_momo])
       = List.length created
    /\ forall e, In e created ->
         ProductMatch.product_a_id e <> ProductMatch.product_b_id e
         /\ In (ProductMatch.product_a_id e) (map Product.id [galaxy_pchome; galaxy_momo])
         /\ In (ProductMatch.product_b_id e) (map Product.id [galaxy_pchome; galaxy_momo]).
Proof.
  apply (@matcher_adds_no_self_loop ascii_runtime demo_db [galaxy_pchome; galaxy_momo]).
  intros x y [<- | [<- | []]] [<- | [<- | []]]; vm_compute; congruence.
Defined.

(** ** A run that meets no store failure *)

Lemma assign_history_ids_sessions (rows : list PriceHistory.t) :
  forall next,
    map PriceHistory.scrape_session_id (Db.assign_history_ids next rows)
    = map PriceHistory.scrape_session_id rows.
Proof.
  induction rows as [|r rows IH]; intros next; cbn [Db.assign_history_ids map]; [reflexivity|].
  rewrite IH. reflexivity.
Qed.

Lemma flush_history_sessions (db : Db.t) :
  history_sessions (Db.flush db) = history_sessions db.
Proof.
  unfold history_sessions. cbn. rewrite app_nil_r, !map_app, assign_history_ids_sessions.
  reflexivity.
Qed.

Lemma update_nth_snoc {A} (f : A -> A) (l : list A) (x : A) :
  update_nth (List.length l) f (l ++ [x]) = l ++ [f x].
Proof.
  induction l as [|y l IH]; cbn; [reflexivity|]. rewrite IH. reflexivity.
Qed.

Lemma rate_of_bounds (n_processed n_results : nat) :
  (n_processed <= n_results)%nat ->
  0 <= rate_of n_processed n_results /\ rate_of n_processed n_results <= 1.
Proof.
  intros Hle. unfold rate_of.
  destruct (n_results =? 0)%nat eqn:Ezero; [split; lra|].
  apply Nat.eqb_neq in Ezero.
  assert (Hpos : 0 < inject_Z (Z.of_nat n_results)).
  { change 0 with (inject_Z 0). rewrite <- Zlt_Qlt. lia. }
  assert (Hnum : 0 <= inject_Z (Z.of_nat n_processed)).
  { change 0 with (inject_Z 0). rewrite <- Zle_Qle. lia. }
  assert (Hcmp : inject_Z (Z.of_nat n_processed) <= inject_Z (Z.of_nat n_results)).
  { rewrite <- Zle_Qle. lia. }
  split.
  - apply Qle_shift_div_l; [exact Hpos | lra].
  - apply Qle_shift_div_r; [exact Hpos | lra].
Qed.

Section RunFacts.
Context `{PyRuntime}.

(** What one call of [_process_single_product] does to the session table
    and to the price observations. *)
Lemma process_single_product_effect (self : ETL.t) (db : Db.t) (raw_product : Raw.t) :
  let run := _process_single_product self db raw_product in
  Db.scrape_sessions (Db.stored (fst run)) = Db.scrape_sessions (Db.stored db)
  /\ history_sessions (fst run)
     = history_sessions db
       ++ match snd run with
          | Ok (Some _) => [Some (ETL.session_id self)]
          | _ => []
          end.
Proof.
  unfold _process_single_product.
  set (name := _clean_text (get (Raw.name raw_product) [])).
  generalize (_normalize_name name) as normalized_name.
  generalize (_categorize_product self name) as category.
  intros category normalized_name.
  destruct (negb (Str.truthy name) || (List.length name <? 3)%nat);
    [cbn; rewrite app_nil_r; auto|].
  destruct (platform_cache_get (ETL.platform_cache self)
              (lower (get (Raw.platform raw_product) []))) as [platform|];
    [|cbn; rewrite app_nil_r; auto].
  destruct (_extract_pricing raw_product) as [pd|e]; [|cbn; rewrite app_nil_r; auto].
  destruct (_extract_brand_model name) as [brand model].
  destruct (find_first
              (same_listing (Platform.id platform) (get (Raw.product_id raw_product) []))
              (Db.products (Db.stored db))) as [[pos existing]|].
  - cbn. split; [reflexivity|].
    unfold history_sessions. cbn. rewrite !map_app. cbn. apply app_assoc.
  - destruct (_calculate_quality_score raw_product) as [quality|e];
      [|cbn; rewrite app_nil_r; auto].
    cbn. split; [reflexivity|].
    unfold history_sessions. cbn. rewrite !map_app, assign_history_ids_sessions. cbn.
    reflexivity.
Qed.

(** What the loop over the batch does: the references it adds, the session
    table, the price observations and the committed tables. *)
Lemma process_products_effect (self : ETL.t) (scraper_results : list Raw.t) :
  forall (db : Db.t) (processed_products : list nat),
    let run := process_products self db scraper_results processed_products in
    exists added,
      snd run = processed_products ++ added
      /\ (List.length added <= List.length scraper_results)%nat
      /\ (valid_refs db processed_products -> valid_refs (fst run) (snd run))
      /\ Db.scrape_sessions (Db.stored (fst run)) = Db.scrape_sessions (Db.stored db)
      /\ history_sessions (fst run)
         = history_sessions db ++ repeat (Some (ETL.session_id self)) (List.length added).
Proof.
  induction scraper_results as [|raw_product rest IH]; intros db processed_products; cbv zeta.
  - cbn [process_products fst snd]. exists []. rewrite !app_nil_r.
    repeat split; auto.
  - cbn [process_products].
    pose proof (process_single_product_effect self db raw_product) as Heffect.
    pose proof (process_single_product_rows self db raw_product) as Hrows.
    pose proof (process_single_product_ref self db raw_product) as Href.
    cbv zeta in Heffect, Hrows. destruct Heffect as [Hsessions Hhistory].
    destruct Hrows as [Hlen _].
    destruct (_process_single_product self db raw_product) as [db1 r].
    cbn [fst snd] in *.
    assert (Hkeep : forall refs, valid_refs db refs -> valid_refs db1 refs).
    { intros refs Hv. unfold valid_refs in *. rewrite Forall_forall in *.
      intros pos Hpos. specialize (Hv pos Hpos). destruct Hlen as [-> | ->]; lia. }
    destruct r as [[product|]|e].
    + destruct (IH db1 (processed_products ++ [product]))
        as (added & Hadded & Hcount & Hvalid & Hs & Hh).
      exists (product :: added). rewrite Hadded, <- app_assoc.
      split; [reflexivity|]. split; [cbn; lia|]. split.
      { intros Hv. rewrite app_assoc, <- Hadded. apply Hvalid. apply Forall_app.
        split; [apply Hkeep; exact Hv|]. constructor; [|constructor].
        apply Href. reflexivity. }
      split; [congruence|].
      rewrite Hh, Hhistory, <- app_assoc. reflexivity.
    + destruct (IH db1 processed_products) as (added & Hadded & Hcount & Hvalid & Hs & Hh).
      exists added. split; [exact Hadded|]. split; [cbn; lia|]. split; [auto|].
      split; [congruence|]. rewrite Hh, Hhistory, app_nil_r. reflexivity.
    + destruct (IH db1 processed_products) as (added & Hadded & Hcount & Hvalid & Hs & Hh).
      exists added. split; [exact Hadded|]. split; [cbn; lia|]. split; [auto|].
      split; [congruence|]. rewrite Hh, Hhistory, app_nil_r. reflexivity.
Qed.

(** The state a run without store failure ends in, step by step. *)
Lemma successful_run_steps (self : ETL.t) (fails : stage -> bool) (db : Db.t)
      (scraper_results : list Raw.t) (query : str) :
  (forall s, fails s = false) ->
  let created := _create_scrape_session self db query scraper_results in
  let looped := process_products (_build_caches self (fst created)) (fst created)
                                 scraper_results [] in
  let matched := _find_product_matches (fst looped) (deref (fst looped) (snd looped)) in
  let n_processed := List.length (snd looped) in
  let n_results := List.length scraper_results in
  let before_commit :=
    Db.with_stored (snd (Db.now (fst matched)))
      (Db.with_sessions (Db.stored (fst matched))
         (update_nth (snd created)
                     (finish_session n_processed n_results (Db.clock (fst matched)))
                     (Db.scrape_sessions (Db.stored (fst matched))))) in
  process_scraper_results self fails db scraper_results query
  = (close (Db.commit before_commit),
     Ok {| report_session_id := ETL.session_id self;
           products_processed := n_processed;
           report_success_rate := rate_of n_processed n_results;
           report_products := snd looped |}).
Proof.
  intros Hfails. cbv zeta.
  unfold process_scraper_results, try_block. rewrite !Hfails.
  destruct (_create_scrape_session self db query scraper_results) as [db1 session].
  cbn [fst snd].
  destruct (process_products (_build_caches self db1) db1 scraper_results [])
    as [db2 processed_products].
  cbn [fst snd].
  destruct (_find_product_matches db2 (deref db2 processed_products)) as [db3 found].
  reflexivity.
Qed.

(** X14: a run that meets no store failure returns a report: the session
    id of the pipeline object, one reference per stored record and no more
    references than records, each pointing to a committed product, and a
    success rate between 0 and 1 that is 0 for an empty batch (no division
    by zero) and processed/received otherwise. *)
Theorem successful_run_report (self : ETL.t) (fails : stage -> bool) (db : Db.t)
        (scraper_results : list Raw.t) (query : str) :
  (forall s, fails s = false) ->
  let run := process_scraper_results self fails db scraper_results query in
  exists r,
    snd run = Ok r
    /\ report_session_id r = ETL.session_id self
    /\ products_processed r = List.length (report_products r)
    /\ (products_processed r <= List.length scraper_results)%nat
    /\ Forall (fun pos => (pos < List.length (Db.products (Db.committed (fst run))))%nat)
              (report_products r)
    /\ (0 <= report_success_rate r /\ report_success_rate r <= 1)
    /\ (scraper_results = [] -> report_success_rate r = 0)
    /\ (scraper_results <> [] ->
        report_success_rate r
        = inject_Z (Z.of_nat (products_processed r))
          / inject_Z (Z.of_nat (List.length scraper_results))).
Proof.
  intros Hfails. cbv zeta.
  rewrite (@successful_run_steps self fails db scraper_results query Hfails). cbv zeta.
  set (created := _create_scrape_session self db query scraper_results).
  destruct (process_products_effect (_build_caches self (fst created)) scraper_results
              (fst created) []) as (added & Hadded & Hcount & Hvalid & _ & _).
  cbv zeta in Hvalid.
  set (looped := process_products (_build_caches self (fst created)) (fst created)
                                  scraper_results []) in *.
  rewrite find_product_matches_spec.
  cbn [app] in Hadded.
  eexists. split; [reflexivity|].
  cbn [report_session_id products_processed report_products report_success_rate fst snd].
  split; [reflexivity|]. split; [reflexivity|].
  split; [rewrite Hadded; exact Hcount|].
  split.
  { specialize (Hvalid (Forall_nil _)). unfold valid_refs in Hvalid.
    cbn [close Db.rollback Db.commit Db.committed Db.stored Db.flush Db.now Db.with_stored
         Db.with_sessions Db.products with_new_matches fst snd Db.dirty Db.clock].
    rewrite touch_dirty_length. exact Hvalid. }
  split; [apply rate_of_bounds; rewrite Hadded; exact Hcount|].
  unfold rate_of. split.
  - intros ->. reflexivity.
  - intros Hne. destruct scraper_results; [contradiction | reflexivity].
Qed.

(** X15: after a run that meets no store failure everything is committed
    and nothing waits for a flush; the session table holds the rows it
    held plus one row for the run, marked completed, with the session id
    of the pipeline object, the query, the number of stored records and
    the success rate of the report; and session ids stay pairwise
    different when the one of the pipeline object was not in the table. *)
Theorem successful_run_session (self : ETL.t) (fails : stage -> bool) (db : Db.t)
        (scraper_results : list Raw.t) (query : str) :
  (forall s, fails s = false) ->
  ~ In (ETL.session_id self)
       (map ScrapeSession.session_id (Db.scrape_sessions (Db.stored db))) ->
  let run := process_scraper_results self fails db scraper_results query in
  Db.stored (fst run) = Db.committed (fst run)
  /\ Db.new_history (fst run) = [] /\ Db.new_matches (fst run) = [] /\ Db.dirty (fst run) = []
  /\ exists r session,
       snd run = Ok r
       /\ Db.scrape_sessions (Db.committed (fst run))
          = Db.scrape_sessions (Db.stored db) ++ [session]
       /\ ScrapeSession.session_id session = ETL.session_id self
       /\ ScrapeSession.query session = Some query
       /\ ScrapeSession.status session = Some (u "completed")
       /\ ScrapeSession.products_found session = Some (Z.of_nat (products_processed r))
       /\ ScrapeSession.success_rate session = Some (report_success_rate r)
       /\ ScrapeSession.completed_at session <> None
       /\ (NoDup (map ScrapeSession.session_id (Db.scrape_sessions (Db.stored db))) ->
           NoDup (map ScrapeSession.session_id
                      (Db.scrape_sessions (Db.committed (fst run))))).
Proof.
  intros Hfails Hfresh. cbv zeta.
  rewrite (@successful_run_steps self fails db scraper_results query Hfails). cbv zeta.
  set (created := _create_scrape_session self db query scraper_results).
  destruct (process_products_effect (_build_caches self (fst created)) scraper_results
              (fst created) []) as (added & _ & _ & _ & Hsessions & _).
  set (looped := process_products (_build_caches self (fst created)) (fst created)
                                  scraper_results []) in *.
  rewrite find_product_matches_spec.
  cbn [fst snd].
  split; [reflexivity|]. split; [reflexivity|]. split; [reflexivity|]. split; [reflexivity|].
  eexists. eexists. split; [reflexivity|].
  cbn [close Db.rollback Db.commit Db.committed Db.stored Db.flush Db.now Db.with_stored
       Db.with_sessions Db.scrape_sessions with_new_matches fst snd Db.dirty Db.clock
       products_processed report_success_rate].
  rewrite Hsessions.
  unfold created, _create_scrape_session.
  cbn [fst snd Db.now Db.flush Db.stored Db.with_stored Db.with_sessions Db.scrape_sessions].
  rewrite update_nth_snoc.
  split; [reflexivity|].
  cbn [finish_session ScrapeSession.session_id ScrapeSession.query ScrapeSession.status
       ScrapeSession.products_found ScrapeSession.success_rate ScrapeSession.completed_at].
  split; [reflexivity|]. split; [reflexivity|]. split; [reflexivity|].
  split; [reflexivity|]. split; [reflexivity|]. split; [discriminate|].
  intros Hnodup. rewrite map_app. cbn [map ScrapeSession.session_id].
  apply NoDup_app_iff_snoc; assumption.
Qed.

(** X16: a run that meets no store failure commits exactly one price
    observation per stored record, after the observations the session
    already held, and each of them carries the session id of the pipeline
    object. *)
Theorem successful_run_price_history (self : ETL.t) (fails : stage -> bool) (db : Db.t)
        (scraper_results : list Raw.t) (query : str) :
  (forall s, fails s = false) ->
  let run := process_scraper_results self fails db scraper_results query in
  exists r,
    snd run = Ok r
    /\ map PriceHistory.scrape_session_id (Db.price_history (Db.committed (fst run)))
       = history_sessions db
         ++ repeat (Some (ETL.session_id self)) (products_processed r).
Proof.
  intros Hfails. cbv zeta.
  rewrite (@successful_run_steps self fails db scraper_results query Hfails). cbv zeta.
  set (created := _create_scrape_session self db query scraper_results).
  destruct (process_products_effect (_build_caches self (fst created)) scraper_results
              (fst created) []) as (added & Hadded & _ & _ & _ & Hhistory).
  cbv zeta in Hhistory.
  set (looped := process_products (_build_caches self (fst created)) (fst created)
                                  scraper_results []) in *.
  rewrite find_product_matches_spec.
  eexists. split; [reflexivity|].
  cbn [products_processed fst snd].
  cbn [app] in Hadded. rewrite Hadded.
  replace (history_sessions db) with (history_sessions (fst created)).
  2:{ unfold created, _create_scrape_session. cbn [fst Db.now].
      set (db0 := {| Db.committed := _ |}).
      change (history_sessions (Db.flush db0) = history_sessions db).
      rewrite flush_history_sessions. reflexivity. }
  change (ETL.session_id self) with (ETL.session_id (_build_caches self (fst created))).
  rewrite <- Hhistory.
  unfold history_sessions.
  cbn [close Db.rollback Db.commit Db.committed Db.stored Db.flush Db.now Db.with_stored
       Db.with_sessions Db.price_history with_new_matches fst snd Db.new_history Db.clock].
  rewrite !map_app, assign_history_ids_sessions. reflexivity.
Qed.

End RunFacts.

Lemma successful_run_report_witness :
  exists r,
    snd duplicate_batch_run = Ok r
    /\ (products_processed r <= 3)%nat
    /\ report_success_rate r <= 1.
Proof.
  destruct (@successful_run_report ascii_runtime demo_etl no_failure demo_db duplicate_batch
              (u "iphone") (fun s => eq_refl))
    as (r & Hr & _ & _ & Hcount & _ & (_ & Hrate) & _).
  exists r. exact (conj Hr (conj Hcount Hrate)).
Defined.

Lemma successful_run_session_witness :
  Db.stored (fst duplicate_batch_run) = Db.committed (fst duplicate_batch_run)
  /\ Db.new_matches (fst duplicate_batch_run) = [].
Proof.
  destruct (@successful_run_session ascii_runtime demo_etl no_failure demo_db duplicate_batch
              (u "iphone") (fun s => eq_refl) (fun x : False => x))
    as (Hstored & _ & Hmatches & _).
  exact (conj Hstored Hmatches).
Defined.

Lemma successful_run_price_history_witness :
  exists r,
    snd duplicate_batch_run = Ok r
    /\ map PriceHistory.scrape_session_id
           (Db.price_history (Db.committed (fst duplicate_batch_run)))
       = history_sessions demo_db ++ repeat (Some (u "session-1")) (products_processed r).
Proof.
  exact (@successful_run_price_history ascii_runtime demo_etl no_failure demo_db
           duplicate_batch (u "iphone") (fun s => eq_refl)).
Defined.

(** ** Database defaults *)

Lemma platform_cache_get_none (cache : list Platform.t) (key : str) :
  ~ In key (map Platform.name cache) -> platform_cache_get cache key = None.
Proof.
  intros Hnot. unfold platform_cache_get.
  destruct (find (fun p => Str.eqb (Platform.name p) key) (rev cache)) as [p|] eqn:Efind;
    [|reflexivity].
  apply find_some in Efind. destruct Efind as [Hin Heq].
  apply StrFacts.eqb_eq in Heq. exfalso. apply Hnot. rewrite <- Heq.
  apply in_map. apply in_rev. exact Hin.
Qed.

(** X17: [init_database] only fills empty tables and never touches a row:
    the platforms and categories held before stay as they are, defaults
    are added to a table only if it held no row, the other tables are not
    changed; without a store failure both tables hold rows afterwards and
    a second call changes nothing. *)
Theorem init_database_fills_empty_tables (fails : init_stage -> bool) (tb : Db.tables) :
  let after := init_database fails tb in
  (exists added, Db.platforms after = Db.platforms tb ++ added
                 /\ (Db.platforms tb <> [] -> added = []))
  /\ (exists added, Db.categories after = Db.categories tb ++ added
                    /\ (Db.categories tb <> [] -> added = []))
  /\ Db.products after = Db.products tb
  /\ Db.price_history after = Db.price_history tb
  /\ Db.product_matches after = Db.product_matches tb
  /\ Db.scrape_sessions after = Db.scrape_sessions tb
  /\ ((forall s, fails s = false) ->
      Db.platforms after <> [] /\ Db.categories after <> []
      /\ init_database fails after = after).
Proof.
  cbv zeta. unfold init_database.
  destruct tb as [platforms categories products price_history product_matches scrape_sessions].
  cbn [Db.platforms Db.categories Db.products Db.price_history Db.product_matches
       Db.scrape_sessions].
  destruct (fails AtPlatformCommit) eqn:Eplatform;
    destruct (fails AtCategoryCommit) eqn:Ecategory;
    destruct platforms as [|p platforms]; destruct categories as [|c categories];
    cbn [List.length Nat.eqb with_platforms with_categories Db.platforms Db.categories
         Db.products Db.price_history Db.product_matches Db.scrape_sessions];
    (split; [eexists; split; [try reflexivity; symmetry; apply app_nil_r
                             | first [intros _; reflexivity | intros Hx; now contradiction Hx]]|]);
    (split; [eexists; split; [try reflexivity; symmetry; apply app_nil_r
                             | first [intros _; reflexivity | intros Hx; now contradiction Hx]]|]);
    (split; [reflexivity|]); (split; [reflexivity|]); (split; [reflexivity|]);
    (split; [reflexivity|]);
    intros Hfails;
    try (rewrite Hfails in Eplatform; discriminate);
    try (rewrite Hfails in Ecategory; discriminate);
    (split; [discriminate|]); (split; [discriminate|]);
    reflexivity.
Qed.

Section DefaultPlatforms.
Context `{PyRuntime}.

(** X18: on a database that holds the default platforms only, the pipeline
    stores records of pchome, momo and yahoo only: a record whose
    lower-cased platform is another one (shopee and ruten, which the
    record schema allows, or a missing platform) is dropped without a
    trace, [_process_single_product] returning [None]. *)
Theorem default_platforms_only (self : ETL.t) (db : Db.t) (raw_product : Raw.t) :
  Db.platforms (Db.stored db) = Db.platforms (init_database init_succeeds empty_tables) ->
  ~ In (lower (get (Raw.platform raw_product) [])) [u "pchome"; u "momo"; u "yahoo"] ->
  _process_single_product (_build_caches self db) db raw_product = (db, Ok None).
Proof.
  intros Hdefault Hother. unfold _process_single_product.
  set (name := _clean_text (get (Raw.name raw_product) [])).
  generalize (_normalize_name name) as normalized_name.
  generalize (_categorize_product (_build_caches self db) name) as category.
  intros category normalized_name.
  destruct (negb (Str.truthy name) || (List.length name <? 3)%nat); [reflexivity|].
  cbn [_build_caches ETL.platform_cache].
  rewrite platform_cache_get_none; [reflexivity|].
  rewrite Hdefault. exact Hother.
Qed.

End DefaultPlatforms.

Lemma default_platforms_only_witness :
  @_process_single_product ascii_runtime
    (_build_caches demo_etl
       (session_on (init_database init_succeeds empty_tables) 100))
    (session_on (init_database init_succeeds empty_tables) 100) raw_shopee
  = (session_on (init_database init_succeeds empty_tables) 100, Ok None).
Proof.
  apply (@default_platforms_only ascii_runtime demo_etl
           (session_on (init_database init_succeeds empty_tables) 100) raw_shopee).
  - reflexivity.
  - vm_compute. intros [Hx | [Hx | [Hx | []]]]; discriminate.
Defined.

(** ** The loader *)

Lemma self_quotient (n : Z) : (n <> 0)%Z -> inject_Z n / inject_Z n == 1.
Proof.
  intros Hn. apply Qmult_inv_r. intros Hzero.
  apply Hn. unfold Qeq in Hzero. cbn in Hzero. lia.
Qed.

(** X19: the success rate of a load is all or nothing. Whatever the
    transformer and the database do, [load_products] returns a result
    whose success rate is 0 or 1: records refused by the transformation or
    by the validation are listed as errors but never counted as failed,
    so a load that saved anything reports a rate of 1; the failed count is
    not 0 only when the save raised, and then nothing was saved and the
    failed count is the number of validated records. *)
Theorem load_success_rate_all_or_nothing `{PyRuntime}
        (transform_product_batch : list Raw.t -> str -> result (list Raw.t * list str))
        (save_products : list Schema.t -> result Z) (elapsed_ms : Z)
        (raw_products : list Raw.t) (source : str) :
  let result := load_products transform_product_batch save_products elapsed_ms
                              raw_products source in
  (LoadResult.success_rate result == 0 \/ LoadResult.success_rate result == 1)
  /\ (LoadResult.success_count result <> 0%Z -> LoadResult.success_rate result == 1)
  /\ LoadResult.duplicate_count result = 0%Z
  /\ (LoadResult.failed_count result <> 0%Z ->
      LoadResult.success_count result = 0%Z
      /\ (exists e, LoadResult.database_errors result = [DatabaseError e])
      /\ exists transformed_products transformation_errors,
           transform_product_batch raw_products source
           = Ok (transformed_products, transformation_errors)
           /\ LoadResult.failed_count result
              = Z.of_nat (List.length (fst (_validate_products transformed_products)))).
Proof.
  cbv zeta. unfold load_products.
  destruct (transform_product_batch raw_products source)
    as [[transformed_products transformation_errors]|e].
  2:{ cbn. split; [left; reflexivity|]. split; [intros Hx; exfalso; apply Hx; reflexivity|].
    split; [reflexivity|]. intros Hx. exfalso. apply Hx. reflexivity. }
  destruct transformed_products as [|product_data rest].
  { cbn. split; [left; reflexivity|]. split; [intros Hx; exfalso; apply Hx; reflexivity|].
    split; [reflexivity|]. intros Hx. exfalso. apply Hx. reflexivity. }
  destruct (_validate_products (product_data :: rest))
    as [validated_products validation_errors] eqn:Evalidate.
  destruct validated_products as [|validated_product validated_rest].
  { cbn. split; [left; reflexivity|]. split; [intros Hx; exfalso; apply Hx; reflexivity|].
    split; [reflexivity|]. intros Hx. exfalso. apply Hx. reflexivity. }
  unfold _load_to_database.
  destruct (save_products (validated_product :: validated_rest)) as [saved_count|e].
  - cbn [DbResult.success DbResult.failed DbResult.duplicates DbResult.errors].
    unfold LoadResult.success_rate, LoadResult.total_processed.
    cbn [LoadResult.success_count LoadResult.failed_count LoadResult.duplicate_count
         LoadResult.database_errors].
    rewrite Z.add_0_r.
    destruct (saved_count =? 0)%Z eqn:Ezero.
    + apply Z.eqb_eq in Ezero. subst saved_count.
      split; [left; reflexivity|]. split; [intros Hx; exfalso; apply Hx; reflexivity|].
      split; [reflexivity|]. intros Hx; exfalso; apply Hx; reflexivity.
    + apply Z.eqb_neq in Ezero.
      split; [right; apply self_quotient; exact Ezero|].
      split; [intros _; apply self_quotient; exact Ezero|].
      split; [reflexivity|]. intros Hx; exfalso; apply Hx; reflexivity.
  - cbn [DbResult.success DbResult.failed DbResult.duplicates DbResult.errors].
    unfold LoadResult.success_rate, LoadResult.total_processed.
    cbn [LoadResult.success_count LoadResult.failed_count LoadResult.duplicate_count
         LoadResult.database_errors].
    split.
    { left. destruct (0 + Z.of_nat (List.length (validated_product :: validated_rest)) =? 0)%Z;
        [reflexivity|]. unfold Qdiv. change (inject_Z 0) with 0. ring. }
    split; [intros Hx; exfalso; apply Hx; reflexivity|].
    split; [reflexivity|].
    intros _. split; [reflexivity|]. split; [exists e; reflexivity|].
    exists (product_data :: rest), transformation_errors.
    split; [reflexivity|]. rewrite Evalidate. reflexivity.
Qed.

(** * Properties of the arithmetic of the code *)

(** ** Binary64 comparisons and signs *)

Module FloatFacts.
Import SpecFloat.

Lemma compare_antisym (x y : Float.t) :
  Float.compare y x = option_map CompOpp (Float.compare x y).
Proof.
  destruct x as [sx|sx| |sx mx ex], y as [sy|sy| |sy my ey]; cbn;
    try reflexivity; try (destruct sx; reflexivity); try (destruct sy; reflexivity);
    try (destruct sx, sy; reflexivity).
  rewrite (Z.min_comm ey ex). rewrite Z.compare_antisym. reflexivity.
Qed.

Lemma leb_not_gt (x y : Float.t) : Float.leb x y = true -> Float.ltb y x = false.
Proof.
  unfold Float.leb, Float.ltb. rewrite (compare_antisym x y).
  destruct (Float.compare x y) as [[| |]|]; cbn; congruence.
Qed.

Lemma ltb_irrefl (x : Float.t) : Float.ltb x x = false.
Proof.
  unfold Float.ltb. pose proof (compare_antisym x x) as Hx.
  destruct (Float.compare x x) as [[| |]|]; cbn in Hx; congruence.
Qed.


Lemma ltb_zero (x : Float.t) : Float.ltb x Float.zero = Float.is_negative x.
Proof. destruct x as [s|s| |s m e]; try destruct s; reflexivity. Qed.


Lemma has_sign_not_negative (x : Float.t) :
  Float.has_sign false x -> Float.is_negative x = false.
Proof. destruct x as [s|s| |s m e]; cbn; intros; subst; reflexivity. Qed.

Lemma round_aux_sign (s : bool) (m e : Z) (l : location) :
  Float.has_sign s (binary_round_aux Float.prec Float.emax s m e l).
Proof.
  unfold binary_round_aux.
  destruct (shr_fexp Float.prec Float.emax m e l) as [mrs' e'].
  destruct (shr_fexp Float.prec Float.emax _ e' loc_Exact) as [mrs'' e''].
  destruct (shr_m mrs''); [reflexivity | | exact I].
  destruct (e'' <=? Float.emax - Float.prec)%Z; reflexivity || (cbn; reflexivity).
Qed.

Lemma round_sign (s : bool) (m : positive) (e : Z) :
  Float.has_sign s (binary_round Float.prec Float.emax s m e).
Proof.
  unfold binary_round.
  destruct (shl_align m e _) as [mz ez]. apply round_aux_sign.
Qed.

Lemma normalize_sign (m e : Z) :
  (0 <= m)%Z -> Float.has_sign false (binary_normalize Float.prec Float.emax m e false).
Proof.
  intros Hm. destruct m as [|p|p]; cbn; [reflexivity | apply round_sign | lia].
Qed.

Lemma of_nat_sign (n : nat) : Float.has_sign false (Float.of_Z (Z.of_nat n)).
Proof. apply normalize_sign. lia. Qed.

Lemma add_sign (x y : Float.t) :
  Float.has_sign false x -> Float.has_sign false y -> Float.has_sign false (Float.add x y).
Proof.
  unfold Float.add.
  unfold Float.mul.
  unfold Float.div.
  destruct x as [sx|sx| |sx mx ex], y as [sy|sy| |sy my ey]; cbn;
    intros Hx Hy; subst; cbn; try reflexivity; try exact I.
  apply (round_sign false).
Qed.

Lemma mul_sign (x y : Float.t) :
  Float.has_sign false x -> Float.has_sign false y -> Float.has_sign false (Float.mul x y).
Proof.
  unfold Float.mul.
  destruct x as [sx|sx| |sx mx ex], y as [sy|sy| |sy my ey]; cbn;
    intros Hx Hy; subst; cbn; try reflexivity; try exact I.
  apply (round_aux_sign false).
Qed.

Lemma div_sign (x y : Float.t) :
  Float.has_sign false x -> Float.has_sign false y -> Float.has_sign false (Float.div x y).
Proof.
  unfold Float.div.
  destruct x as [sx|sx| |sx mx ex], y as [sy|sy| |sy my ey]; cbn;
    intros Hx Hy; subst; cbn; try reflexivity; try exact I.
  destruct (SFdiv_core_binary Float.prec Float.emax (Z.pos mx) ex (Z.pos my) ey)
    as [[mz ez] lz].
  apply (round_aux_sign false).
Qed.


Lemma min_one_bounds (x : Float.t) :
  Float.has_sign false x ->
  Float.ltb (Float.min x Float.one) Float.zero = false
  /\ Float.ltb Float.one (Float.min x Float.one) = false.
Proof.
  intros Hx. unfold Float.min.
  destruct (Float.ltb Float.one x) eqn:Egt.
  - split; reflexivity.
  - split; [|exact Egt]. rewrite ltb_zero. apply has_sign_not_negative. exact Hx.
Qed.

End FloatFacts.

(** ** Pricing *)

Section PricingFloats.
Context `{IEEE.FloatRuntime}.

Lemma extract_pricing_float_returns (raw_product : IEEE.Raw.t) (c o : Float.t) :
  IEEE.py_float (get (IEEE.Raw.price raw_product) (IEEE.VInt 0)) = Ok c ->
  IEEE.py_float (get (IEEE.Raw.original_price raw_product) (IEEE.VFloat c)) = Ok o ->
  IEEE._extract_pricing raw_product
  = Ok {| IEEE.Pricing.current_price := c; IEEE.Pricing.original_price := o;
          IEEE.Pricing.discount := IEEE.discount_of c o |}.
Proof.
  intros Hc Ho. unfold IEEE._extract_pricing, rbind. rewrite Hc, Ho. reflexivity.
Qed.



(** C8, as amended: the current price is [float] of the raw price, with
    nothing clamped: 0.0 when the key is missing, a float as it is (its
    sign, an infinity or NaN kept), an int rounded to the nearest float,
    a bool as 1.0 or 0.0, a string as [float] reads it; the extraction
    raises [TypeError] on [None], [ValueError] on a string [float] cannot
    read, [OverflowError] on an int beyond the floats, as it raises
    whatever [float] raises on the original price; the original price is
    the current price when its key is missing, and the discount is then
    0.0. *)
Theorem extract_pricing_prices (raw_product : IEEE.Raw.t) :
  (forall c o,
      IEEE.py_float (get (IEEE.Raw.price raw_product) (IEEE.VInt 0)) = Ok c ->
      IEEE.py_float (get (IEEE.Raw.original_price raw_product) (IEEE.VFloat c)) = Ok o ->
      exists d,
        IEEE._extract_pricing raw_product
        = Ok {| IEEE.Pricing.current_price := c; IEEE.Pricing.original_price := o;
                IEEE.Pricing.discount := d |})
  /\ (IEEE.Raw.price raw_product = None ->
      IEEE.py_float (get (IEEE.Raw.price raw_product) (IEEE.VInt 0)) = Ok Float.zero)
  /\ (forall f,
        IEEE.Raw.price raw_product = Some (IEEE.VFloat f) ->
        IEEE.py_float (get (IEEE.Raw.price raw_product) (IEEE.VInt 0)) = Ok f)
  /\ (forall z,
        IEEE.Raw.price raw_product = Some (IEEE.VInt z) ->
        IEEE.py_float (get (IEEE.Raw.price raw_product) (IEEE.VInt 0))
        = if Float.is_infinite (Float.of_Z z) then Err OverflowError
          else Ok (Float.of_Z z))
  /\ (forall b,
        IEEE.Raw.price raw_product = Some (IEEE.VBool b) ->
        IEEE.py_float (get (IEEE.Raw.price raw_product) (IEEE.VInt 0))
        = Ok (if b then Float.one else Float.zero))
  /\ (forall s,
        IEEE.Raw.price raw_product = Some (IEEE.VStr s) ->
        IEEE.py_float (get (IEEE.Raw.price raw_product) (IEEE.VInt 0))
        = match IEEE.float_of_str s with
          | Some f => Ok f
          | None => Err ValueError
          end)
  /\ (IEEE.Raw.price raw_product = Some IEEE.VNone ->
      IEEE._extract_pricing raw_product = Err TypeError)
  /\ (forall e,
        IEEE.py_float (get (IEEE.Raw.price raw_product) (IEEE.VInt 0)) = Err e ->
        IEEE._extract_pricing raw_product = Err e)
  /\ (forall c e,
        IEEE.py_float (get (IEEE.Raw.price raw_product) (IEEE.VInt 0)) = Ok c ->
        IEEE.py_float (get (IEEE.Raw.original_price raw_product) (IEEE.VFloat c)) = Err e ->
        IEEE._extract_pricing raw_product = Err e)
  /\ (forall c,
        IEEE.py_float (get (IEEE.Raw.price raw_product) (IEEE.VInt 0)) = Ok c ->
        IEEE.Raw.original_price raw_product = None ->
        IEEE._extract_pricing raw_product
        = Ok {| IEEE.Pricing.current_price := c; IEEE.Pricing.original_price := c;
                IEEE.Pricing.discount := Float.zero |}).
Proof.
  split.
  { intros c o Hc Ho. exists (IEEE.discount_of c o).
    exact (extract_pricing_float_returns _ Hc Ho). }
  split; [intros ->; reflexivity|].
  split; [intros f ->; reflexivity|].
  split; [intros z ->; reflexivity|].
  split; [intros b ->; reflexivity|].
  split; [intros s ->; reflexivity|].
  split.
  { intros Hp. unfold IEEE._extract_pricing, rbind. rewrite Hp. reflexivity. }
  split.
  { intros e He. unfold IEEE._extract_pricing, rbind. rewrite He. reflexivity. }
  split.
  { intros c e Hc He. unfold IEEE._extract_pricing, rbind. rewrite Hc, He. reflexivity. }
  intros c Hc Ho. rewrite (@extract_pricing_float_returns raw_product c c Hc).
  - unfold IEEE.discount_of. rewrite FloatFacts.ltb_irrefl. reflexivity.
  - rewrite Ho. reflexivity.
Qed.

End PricingFloats.



Lemma extract_pricing_prices_witness :
  @IEEE._extract_pricing IEEE.ascii_floats IEEE.raw_text_price
  = Ok {| IEEE.Pricing.current_price := Float.of_decimal false 12995 (-1);
          IEEE.Pricing.original_price := Float.of_decimal false 12995 (-1);
          IEEE.Pricing.discount := Float.zero |}
  /\ @IEEE._extract_pricing IEEE.ascii_floats IEEE.raw_no_price
     = Ok {| IEEE.Pricing.current_price := Float.zero;
             IEEE.Pricing.original_price := Float.zero;
             IEEE.Pricing.discount := Float.zero |}
  /\ @IEEE._extract_pricing IEEE.ascii_floats IEEE.raw_odd_price
     = Ok {| IEEE.Pricing.current_price := Float.of_Z (2 ^ 53);
             IEEE.Pricing.original_price := Float.of_Z (2 ^ 53);
             IEEE.Pricing.discount := Float.zero |}.
Proof.
  split; [|split].
  - destruct (@extract_pricing_prices IEEE.ascii_floats IEEE.raw_text_price)
      as (_ & _ & _ & _ & _ & _ & _ & _ & _ & Hdefault).
    apply Hdefault; vm_compute; reflexivity.
  - destruct (@extract_pricing_prices IEEE.ascii_floats IEEE.raw_no_price)
      as (_ & _ & _ & _ & _ & _ & _ & _ & _ & Hdefault).
    apply Hdefault; vm_compute; reflexivity.
  - destruct (@extract_pricing_prices IEEE.ascii_floats IEEE.raw_odd_price)
      as (_ & _ & _ & _ & _ & _ & _ & _ & _ & Hdefault).
    apply Hdefault; vm_compute; reflexivity.
Defined.

(** C8, as stated, fails: a negative raw price stays negative, and a raw
    price that cannot be converted raises instead of yielding 0.0:
    [TypeError] for [None], [ValueError] for a string that is no numeral,
    [OverflowError] for an int beyond the floats. *)
Lemma extract_pricing_prices_counterexample :
  (exists pd,
      @IEEE._extract_pricing IEEE.ascii_floats IEEE.raw_negative_price = Ok pd
      /\ IEEE.Pricing.current_price pd = Float.of_Z (-5)
      /\ Float.ltb (IEEE.Pricing.current_price pd) Float.zero = true)
  /\ @IEEE._extract_pricing IEEE.ascii_floats IEEE.raw_null_price = Err TypeError
  /\ @IEEE._extract_pricing IEEE.ascii_floats IEEE.raw_worded_price = Err ValueError
  /\ @IEEE._extract_pricing IEEE.ascii_floats IEEE.raw_huge_price = Err OverflowError.
Proof.
  split.
  - eexists. split; [vm_compute; reflexivity|]. split; vm_compute; reflexivity.
  - repeat split; vm_compute; reflexivity.
Qed.

(** ** The matcher on floats *)

Lemma with_new_matches_nil_ieee (db : IEEE.Db.t) : IEEE.with_new_matches db [] = db.
Proof. destruct db. unfold IEEE.with_new_matches. cbn. rewrite app_nil_r. reflexivity. Qed.

Lemma batch_pairs_in_ieee (products : list IEEE.Product.t)
      (product_a product_b : IEEE.Product.t) :
  In (product_a, product_b) (IEEE.batch_pairs products) ->
  In product_a products /\ In product_b products.
Proof.
  induction products as [|x rest IH]; cbn; [tauto|].
  rewrite in_app_iff, in_map_iff.
  intros [(y & [= <- <-] & Hy) | Hin]; [tauto|].
  destruct (IH Hin). tauto.
Qed.

(** The existence query, spelled out: an edge is stored between two ids in
    one order or the other. *)
Lemma existsb_links_ieee (x y : Z) (rows : list IEEE.ProductMatch.t) :
  existsb (IEEE.links x y) rows = false <->
  forall m, In m rows ->
            ~ ((IEEE.ProductMatch.product_a_id m = x /\ IEEE.ProductMatch.product_b_id m = y)
               \/ (IEEE.ProductMatch.product_a_id m = y
                   /\ IEEE.ProductMatch.product_b_id m = x)).
Proof.
  split.
  - intros Hnone m Hm Hjoin.
    assert (Hex : existsb (IEEE.links x y) rows = true).
    { apply existsb_exists. exists m. split; [exact Hm|]. unfold IEEE.links.
      rewrite orb_true_iff, !andb_true_iff, !Z.eqb_eq. exact Hjoin. }
    congruence.
  - intros Hnone. destruct (existsb (IEEE.links x y) rows) eqn:Eex; [|reflexivity].
    apply existsb_exists in Eex. destruct Eex as (m & Hm & Hl). exfalso.
    apply (Hnone m Hm). unfold IEEE.links in Hl.
    rewrite orb_true_iff, !andb_true_iff, !Z.eqb_eq in Hl. exact Hl.
Qed.

Section MatcherFloats.
Context `{PyRuntime}.

Lemma match_pair_spec_ieee (db : IEEE.Db.t) (es : list IEEE.ProductMatch.t) (n : nat)
      (product_a product_b : IEEE.Product.t) :
  IEEE.match_pair product_a (IEEE.with_new_matches db es, n) product_b
  = if IEEE.inserts_edge db (product_a, product_b)
    then (IEEE.with_new_matches db (es ++ [IEEE.edge_of (product_a, product_b)]), S n)
    else (IEEE.with_new_matches db es, n).
Proof.
  unfold IEEE.match_pair, IEEE.inserts_edge, IEEE.edge_of.
  cbn [fst snd IEEE.Db.product_matches IEEE.with_new_matches].
  destruct (IEEE.Product.platform_id product_a =? IEEE.Product.platform_id product_b)%Z;
    cbn [negb andb]; [reflexivity|].
  destruct (Float.leb Float.seven_tenths (IEEE._calculate_similarity product_a product_b));
    cbn [andb]; [|reflexivity].
  destruct (find_first (IEEE.links (IEEE.Product.id product_a) (IEEE.Product.id product_b))
                       (IEEE.Db.product_matches db)) as [[k m]|] eqn:Efind.
  - destruct (existsb (IEEE.links (IEEE.Product.id product_a) (IEEE.Product.id product_b))
                      (IEEE.Db.product_matches db)) eqn:Eex; [reflexivity|].
    apply find_first_none_existsb in Eex. congruence.
  - apply find_first_none_existsb in Efind. rewrite Efind. cbn [negb].
    unfold IEEE.Db.add_match, IEEE.with_new_matches. cbn. rewrite <- app_assoc. reflexivity.
Qed.

Lemma inner_loop_spec_ieee (db : IEEE.Db.t) (product_a : IEEE.Product.t)
      (rest : list IEEE.Product.t) (es : list IEEE.ProductMatch.t) (n : nat) :
  fold_left (IEEE.match_pair product_a) rest (IEEE.with_new_matches db es, n)
  = (IEEE.with_new_matches db
       (es ++ map IEEE.edge_of
                  (filter (IEEE.inserts_edge db) (map (pair product_a) rest))),
     (n + List.length (filter (IEEE.inserts_edge db) (map (pair product_a) rest)))%nat).
Proof.
  revert es n. induction rest as [|product_b rest IH]; intros es n.
  - cbn. rewrite app_nil_r, Nat.add_0_r. reflexivity.
  - cbn [fold_left map filter]. rewrite match_pair_spec_ieee.
    destruct (IEEE.inserts_edge db (product_a, product_b)).
    + rewrite IH. cbn [map List.length]. rewrite <- app_assoc. cbn [app].
      f_equal. lia.
    + apply IH.
Qed.

Lemma match_loop_spec_ieee (db : IEEE.Db.t) (products : list IEEE.Product.t)
      (es : list IEEE.ProductMatch.t) (n : nat) :
  IEEE.match_loop products (IEEE.with_new_matches db es, n)
  = (IEEE.with_new_matches db (es ++ IEEE.added_edges db products),
     (n + List.length (IEEE.added_edges db products))%nat).
Proof.
  unfold IEEE.added_edges.
  revert es n. induction products as [|product_a rest IH]; intros es n.
  - cbn. rewrite app_nil_r, Nat.add_0_r. reflexivity.
  - cbn [IEEE.match_loop IEEE.batch_pairs]. rewrite inner_loop_spec_ieee, IH.
    rewrite filter_app, map_app, !length_map, length_app, !length_map.
    rewrite <- app_assoc. f_equal. lia.
Qed.

(** The matcher adds the edges of [added_edges], in order, to the objects
    waiting for a flush, and changes nothing else. *)
Lemma find_product_matches_spec_ieee (db : IEEE.Db.t) (products : list IEEE.Product.t) :
  IEEE._find_product_matches db products
  = (IEEE.with_new_matches db (IEEE.added_edges db products),
     List.length (IEEE.added_edges db products)).
Proof.
  unfold IEEE._find_product_matches.
  rewrite <- (with_new_matches_nil_ieee db) at 1.
  rewrite match_loop_spec_ieee. reflexivity.
Qed.

Lemma in_added_edges_ieee (db : IEEE.Db.t) (products : list IEEE.Product.t)
      (e : IEEE.ProductMatch.t) :
  In e (IEEE.added_edges db products) <->
  exists product_a product_b,
    In (product_a, product_b) (IEEE.batch_pairs products)
    /\ IEEE.inserts_edge db (product_a, product_b) = true
    /\ e = IEEE.edge_of (product_a, product_b).
Proof.
  unfold IEEE.added_edges. rewrite in_map_iff. split.
  - intros ([a b] & <- & Hin). apply filter_In in Hin. exists a, b. tauto.
  - intros (a & b & Hin & Hins & ->). exists (a, b). split; [reflexivity|].
    apply filter_In. tauto.
Qed.

Lemma inserts_edge_true_ieee (db : IEEE.Db.t) (product_a product_b : IEEE.Product.t) :
  IEEE.inserts_edge db (product_a, product_b) = true <->
  IEEE.Product.platform_id product_a <> IEEE.Product.platform_id product_b
  /\ Float.leb Float.seven_tenths (IEEE._calculate_similarity product_a product_b) = true
  /\ forall m, In m (IEEE.Db.product_matches db) ->
       ~ ((IEEE.ProductMatch.product_a_id m = IEEE.Product.id product_a
           /\ IEEE.ProductMatch.product_b_id m = IEEE.Product.id product_b)
          \/ (IEEE.ProductMatch.product_a_id m = IEEE.Product.id product_b
              /\ IEEE.ProductMatch.product_b_id m = IEEE.Product.id product_a)).
Proof.
  unfold IEEE.inserts_edge.
  rewrite !andb_true_iff, !negb_true_iff, Z.eqb_neq, existsb_links_ieee. tauto.
Qed.

Lemma calculate_similarity_ieee (product_a product_b : IEEE.Product.t) :
  IEEE._calculate_similarity product_a product_b
  = Float.min
      (Float.add
         (Float.add (IEEE.ratio (or_empty (IEEE.Product.normalized_name product_a))
                                (or_empty (IEEE.Product.normalized_name product_b)))
                    (IEEE.brand_bonus product_a product_b))
         (IEEE.price_bonus product_a product_b))
      Float.one.
Proof.
  unfold IEEE._calculate_similarity, IEEE.brand_bonus, IEEE.price_bonus.
  f_equal. f_equal; [f_equal|].
  - destruct (IEEE.Product.brand product_a) as [brand_a|]; [|reflexivity].
    destruct (IEEE.Product.brand product_b) as [brand_b|]; [|reflexivity].
    destruct (Str.truthy brand_a && Str.truthy brand_b); reflexivity.
  - destruct (IEEE.Product.current_price product_a) as [price_a|]; [|reflexivity].
    destruct (IEEE.Product.current_price product_b) as [price_b|]; [|reflexivity].
    destruct (Float.truthy price_a && Float.truthy price_b); [|reflexivity].
    cbn [andb].
    destruct (Float.ltb Float.zero (Float.max price_a price_b)); reflexivity.
Qed.

Lemma brand_bonus_values (product_a product_b : IEEE.Product.t) :
  IEEE.brand_bonus product_a product_b = Float.three_tenths
  \/ IEEE.brand_bonus product_a product_b = Float.zero.
Proof.
  unfold IEEE.brand_bonus.
  destruct (IEEE.Product.brand product_a) as [brand_a|]; [|right; reflexivity].
  destruct (IEEE.Product.brand product_b) as [brand_b|]; [|right; reflexivity].
  destruct (Str.truthy brand_a && Str.truthy brand_b && Str.eqb (lower brand_a) (lower brand_b));
    [left | right]; reflexivity.
Qed.

Lemma price_bonus_values (product_a product_b : IEEE.Product.t) :
  IEEE.price_bonus product_a product_b = Float.tenth
  \/ IEEE.price_bonus product_a product_b = Float.zero.
Proof.
  unfold IEEE.price_bonus.
  destruct (IEEE.Product.current_price product_a) as [price_a|]; [|right; reflexivity].
  destruct (IEEE.Product.current_price product_b) as [price_b|]; [|right; reflexivity].
  match goal with |- context [if ?c then _ else _] => destruct c end;
    [left | right]; reflexivity.
Qed.

Lemma ratio_sign (a b : str) : Float.has_sign false (IEEE.ratio a b).
Proof.
  unfold IEEE.ratio, IEEE._calculate_ratio.
  destruct (List.length a + List.length b =? 0)%nat; [reflexivity|].
  apply FloatFacts.div_sign; [|apply FloatFacts.of_nat_sign].
  apply FloatFacts.mul_sign; [reflexivity | apply FloatFacts.of_nat_sign].
Qed.

Lemma ratio_empty_ieee : IEEE.ratio [] [] = Float.one.
Proof. reflexivity. Qed.

(** C3, as amended. In binary64 arithmetic, the composite of two entries
    is min(name + brand + price, 1.0), summed from left to right, where
    name is the difflib ratio of the normalized names, brand is 0.3 when
    both brands are present, not empty and equal once lower-cased, and
    price is 0.1 when both prices are present and not zero, the greater is
    above zero and 1 - |a - b| / max(a, b) is above 0.7; it is never below
    0 nor above 1; two empty normalized names have ratio 1.0 and composite
    1.0. The matcher adds an edge for exactly the pairs of different
    platforms whose composite is at least 0.7 and whose ids no stored edge
    joins, in one order or the other; the edge carries the two ids and the
    composite, and is typed exact when the composite is at least 0.9 and
    similar when it is below. *)
Theorem similarity_and_edge_insertion :
  (forall product_a product_b,
      IEEE._calculate_similarity product_a product_b
      = Float.min
          (Float.add
             (Float.add (IEEE.ratio (or_empty (IEEE.Product.normalized_name product_a))
                                    (or_empty (IEEE.Product.normalized_name product_b)))
                        (IEEE.brand_bonus product_a product_b))
             (IEEE.price_bonus product_a product_b))
          Float.one
      /\ Float.ltb (IEEE._calculate_similarity product_a product_b) Float.zero = false
      /\ Float.ltb Float.one (IEEE._calculate_similarity product_a product_b) = false)
  /\ (forall product_a product_b,
        or_empty (IEEE.Product.normalized_name product_a) = [] ->
        or_empty (IEEE.Product.normalized_name product_b) = [] ->
        IEEE.ratio (or_empty (IEEE.Product.normalized_name product_a))
                   (or_empty (IEEE.Product.normalized_name product_b)) = Float.one
        /\ IEEE._calculate_similarity product_a product_b = Float.one)
  /\ (forall db products,
        exists created,
          IEEE._find_product_matches db products
          = ({| IEEE.Db.product_matches := IEEE.Db.product_matches db;
                IEEE.Db.new_matches := IEEE.Db.new_matches db ++ created |},
             List.length created)
          /\ forall e,
               In e created <->
               exists product_a product_b,
                 In (product_a, product_b) (IEEE.batch_pairs products)
                 /\ IEEE.Product.platform_id product_a <> IEEE.Product.platform_id product_b
                 /\ Float.leb Float.seven_tenths
                              (IEEE._calculate_similarity product_a product_b) = true
                 /\ (forall m, In m (IEEE.Db.product_matches db) ->
                       ~ ((IEEE.ProductMatch.product_a_id m = IEEE.Product.id product_a
                           /\ IEEE.ProductMatch.product_b_id m = IEEE.Product.id product_b)
                          \/ (IEEE.ProductMatch.product_a_id m = IEEE.Product.id product_b
                              /\ IEEE.ProductMatch.product_b_id m
                                 = IEEE.Product.id product_a)))
                 /\ e = IEEE.new_match product_a product_b
                          (IEEE._calculate_similarity product_a product_b))
  /\ (forall product_a product_b similarity,
        let e := IEEE.new_match product_a product_b similarity in
        IEEE.ProductMatch.product_a_id e = IEEE.Product.id product_a
        /\ IEEE.ProductMatch.product_b_id e = IEEE.Product.id product_b
        /\ IEEE.ProductMatch.similarity_score e = similarity
        /\ (Float.leb Float.nine_tenths similarity = true ->
            IEEE.ProductMatch.match_type e = Some (u "exact"))
        /\ (Float.ltb similarity Float.nine_tenths = true ->
            IEEE.ProductMatch.match_type e = Some (u "similar"))
        /\ (IEEE.ProductMatch.match_type e = Some (u "exact")
            \/ IEEE.ProductMatch.match_type e = Some (u "similar"))).
Proof.
  split; [|split; [|split]].
  - intros a b. split; [apply calculate_similarity_ieee|].
    rewrite calculate_similarity_ieee. apply FloatFacts.min_one_bounds.
    apply FloatFacts.add_sign; [apply FloatFacts.add_sign|].
    + apply ratio_sign.
    + destruct (brand_bonus_values a b) as [-> | ->]; reflexivity.
    + destruct (price_bonus_values a b) as [-> | ->]; reflexivity.
  - intros a b Ea Eb. rewrite calculate_similarity_ieee, Ea, Eb, ratio_empty_ieee.
    split; [reflexivity|].
    destruct (brand_bonus_values a b) as [-> | ->];
      destruct (price_bonus_values a b) as [-> | ->]; vm_compute; reflexivity.
  - intros db products. exists (IEEE.added_edges db products).
    rewrite find_product_matches_spec_ieee. split; [reflexivity|].
    intros e. rewrite in_added_edges_ieee. split.
    + intros (a & b & Hin & Hins & ->). apply inserts_edge_true_ieee in Hins.
      exists a, b. unfold IEEE.edge_of. cbn [fst snd]. tauto.
    + intros (a & b & Hin & Hplat & Hsim & Hnone & ->).
      exists a, b. split; [exact Hin|]. split; [|reflexivity].
      apply inserts_edge_true_ieee. tauto.
  - intros a b similarity e. unfold e, IEEE.new_match.
    cbn [IEEE.ProductMatch.product_a_id IEEE.ProductMatch.product_b_id
         IEEE.ProductMatch.similarity_score IEEE.ProductMatch.match_type].
    split; [reflexivity|]. split; [reflexivity|]. split; [reflexivity|].
    split.
    { intros Hge. rewrite (FloatFacts.leb_not_gt _ _ Hge). reflexivity. }
    split.
    { intros Hlt. rewrite Hlt. reflexivity. }
    destruct (Float.ltb similarity Float.nine_tenths); [right | left]; reflexivity.
Qed.

End MatcherFloats.

Lemma similarity_and_edge_insertion_witness :
  exists e,
    @IEEE._find_product_matches ascii_runtime IEEE.empty_db
      [IEEE.galaxy_pchome; IEEE.galaxy_momo]
    = ({| IEEE.Db.product_matches := []; IEEE.Db.new_matches := [e] |}, 1%nat)
    /\ IEEE.ProductMatch.product_a_id e = 1%Z
    /\ IEEE.ProductMatch.product_b_id e = 2%Z
    /\ IEEE.ProductMatch.similarity_score e = Float.one
    /\ IEEE.ProductMatch.match_type e = Some (u "exact").
Proof.
  destruct (@similarity_and_edge_insertion ascii_runtime) as (_ & _ & Hrun & Htype).
  destruct (Hrun IEEE.empty_db [IEEE.galaxy_pchome; IEEE.galaxy_momo])
    as (created & Hfound & Hcreated).
  set (e := @IEEE.new_match IEEE.galaxy_pchome IEEE.galaxy_momo
              (@IEEE._calculate_similarity ascii_runtime IEEE.galaxy_pchome
                 IEEE.galaxy_momo)).
  assert (He : In e created).
  { apply Hcreated. exists IEEE.galaxy_pchome, IEEE.galaxy_momo.
    split; [left; reflexivity|]. split; [discriminate|].
    split; [vm_compute; reflexivity|]. split; [intros m []|]. reflexivity. }
  exists e. split.
  - vm_compute. reflexivity.
  - destruct (Htype IEEE.galaxy_pchome IEEE.galaxy_momo
                (@IEEE._calculate_similarity ascii_runtime IEEE.galaxy_pchome
                   IEEE.galaxy_momo)) as (Ha & Hb & Hscore & Hexact & _).
    split; [exact Ha|]. split; [exact Hb|].
    split; [vm_compute; reflexivity|].
    apply Hexact. vm_compute. reflexivity.
Defined.

(** C3, as stated, fails four times. A stored edge (2, 1) keeps the
    matcher from linking the entries 1 and 2, of different platforms and
    of composite 1.0. Two names of ratio 0.6 under one brand score
    0.6 + 0.3, which is 0.8999999999999999 in floats, so the edge is typed
    similar. For the prices 2.1 and 3.0, min / max is above 0.7, yet the
    test of the code, on 1 - 0.9 / 3.0, fails and the bonus is not
    granted. For the prices -10 and -8, min / max is above 0.7 as well,
    and the code grants no bonus, scores the pair below 0.7 and inserts no
    edge. *)
Lemma similarity_and_edge_insertion_counterexample :
  (IEEE.Product.platform_id IEEE.galaxy_pchome <> IEEE.Product.platform_id IEEE.galaxy_momo
   /\ Float.leb Float.seven_tenths
        (@IEEE._calculate_similarity ascii_runtime IEEE.galaxy_pchome IEEE.galaxy_momo)
      = true
   /\ @IEEE._find_product_matches ascii_runtime IEEE.linked_db
        [IEEE.galaxy_pchome; IEEE.galaxy_momo]
      = (IEEE.linked_db, 0%nat))
  /\ (IEEE.ratio (u "usb") (u "usb pro") = Float.of_decimal false 6 (-1)
      /\ @IEEE.brand_bonus ascii_runtime IEEE.usb_pchome IEEE.usb_momo = Float.three_tenths
      /\ @IEEE._calculate_similarity ascii_runtime IEEE.usb_pchome IEEE.usb_momo
         = Float.of_decimal false 8999999999999999 (-16)
      /\ Float.ltb (@IEEE._calculate_similarity ascii_runtime IEEE.usb_pchome IEEE.usb_momo)
                   Float.nine_tenths = true
      /\ map IEEE.ProductMatch.match_type
             (IEEE.Db.new_matches
                (fst (@IEEE._find_product_matches ascii_runtime IEEE.empty_db
                        [IEEE.usb_pchome; IEEE.usb_momo])))
         = [Some (u "similar")])
  /\ (IEEE.min_over_max_above (Float.of_decimal false 21 (-1)) (Float.of_Z 3) = true
      /\ IEEE.price_bonus IEEE.pen_pchome IEEE.pen_momo = Float.zero
      /\ @IEEE._calculate_similarity ascii_runtime IEEE.pen_pchome IEEE.pen_momo
         = IEEE.ratio (u "gel pen 0.5 black") (u "gel pen 0.5 blue"))
  /\ (IEEE.min_over_max_above (Float.of_Z (-10)) (Float.of_Z (-8)) = true
      /\ IEEE.price_bonus IEEE.refund_pchome IEEE.refund_momo = Float.zero
      /\ Float.leb Float.seven_tenths
           (@IEEE._calculate_similarity ascii_runtime IEEE.refund_pchome IEEE.refund_momo)
         = false
      /\ Float.leb Float.seven_tenths
           (Float.add (@IEEE._calculate_similarity ascii_runtime IEEE.refund_pchome
                         IEEE.refund_momo) Float.tenth)
         = true
      /\ @IEEE._find_product_matches ascii_runtime IEEE.empty_db
           [IEEE.refund_pchome; IEEE.refund_momo]
         = (IEEE.empty_db, 0%nat)).
Proof.
  split; [|split; [|split]].
  - split; [discriminate|]. split; vm_compute; reflexivity.
  - repeat split; vm_compute; reflexivity.
  - repeat split; vm_compute; reflexivity.
  - repeat split; vm_compute; reflexivity.
Qed.
